(** * Pulse agent: trade execution and network routing

    A shallow embedding of the trade-execution core of the pulse agent
    and the properties its specification states about it: [GasManager]
    and [createGasManager] (lib/gasManager.ts), [UniswapTrader]
    (lib/uniswapTrading.ts, the second module in lib/gasManager.ts),
    [SimpleSwapper] (lib/simpleSwap.ts), the orchestrator
    (lib/trading.ts) and [TRADING_CONFIG] (config/trading.ts); and of
    what surrounds it: [NetworkConfigManager] (lib/networkConfig.ts),
    [ToastService] (lib/toastService.ts), and the selling side,
    [executeSell] (lib/trading.ts) and [TradingScheduler]
    (lib/scheduler.ts).

    - [bigint] values are [Z]; bigint division truncates ([Z.quot]).
    - JavaScript [number]s are IEEE binary64 values ([float]).
    - An [async] function is a computation over an abstract chain state
      [W]: it returns what was thrown (an [Error] object or another
      value) or what was returned, the next chain state, and the list of
      requests and timer waits it performed.
    - [console.log] output is not part of the model. *)

From Stdlib Require Import ZArith List String Ascii Bool Lia Floats DecimalString.
Import ListNotations.

Set Warnings "-inexact-float".
Local Open Scope string_scope.
Local Open Scope list_scope.
Local Open Scope Z_scope.

(** String concatenation, as in template literals. *)
Infix "+++" := String.append (right associativity, at level 60).

(** * JavaScript values *)

Module JS.

(** [`${n}`] and [n.toString()] for a bigint or an integral number. *)
Definition toString (z : Z) : string := NilZero.string_of_int (Z.to_int z).

(** [a || b] where [a] is [bigint | null | undefined]: [0n] is falsy. *)
Definition or_bigint (a : option Z) (b : Z) : Z :=
  match a with
  | Some v => if v =? 0 then b else v
  | None => b
  end.

(** Truthiness of an optional bigint, as in [if (targetTokenAmount)]. *)
Definition truthy (a : option Z) : bool :=
  match a with
  | Some v => negb (v =? 0)
  | None => false
  end.

(** [Math.floor(x)] of a finite number, as an integer. *)
Definition floor (x : float) : option Z :=
  match Prim2SF x with
  | S754_zero _ => Some 0
  | S754_finite s m e =>
      let v := if s then Z.neg m else Z.pos m in
      Some (if 0 <=? e then v * 2 ^ e else v / 2 ^ (- e))
  | S754_infinity _ | S754_nan => None
  end.

(** [Math.max(a, b)]: NaN when either is NaN, and [+0] above [-0]. *)
Definition Math_max (a b : float) : float :=
  if PrimFloat.is_nan a then a
  else if PrimFloat.is_nan b then b
  else if PrimFloat.ltb a b then b
  else if PrimFloat.ltb b a then a
  else if PrimFloat.get_sign a then b else a.

(** [s.includes(sub)] *)
Fixpoint includes (sub s : string) : bool :=
  if String.prefix sub s then true
  else match s with
       | EmptyString => false
       | String _ s' => includes sub s'
       end.

(** [`${o[key]}`] for a key that an object literal [o] does not define
    itself: the properties it inherits from [Object.prototype], as Node
    prints them. *)
Definition inherited (key : string) : option string :=
  if String.eqb key "__proto__" then Some "[object Object]"
  else if String.eqb key "constructor"
  then Some "function Object() { [native code] }"
  else if existsb (String.eqb key)
            ["__defineGetter__"; "__defineSetter__"; "hasOwnProperty";
             "__lookupGetter__"; "__lookupSetter__"; "isPrototypeOf";
             "propertyIsEnumerable"; "toString"; "valueOf";
             "toLocaleString"]
  then Some ("function " +++ key +++ "() { [native code] }")
  else None.

(** [s || undefined] for an optional string: [''] is falsy. *)
Definition nonEmpty (s : option string) : option string :=
  match s with
  | Some EmptyString => None
  | _ => s
  end.

End JS.

(** * Results and the effect monad *)

(** What a [throw] or a rejected promise carries: an [Error] object with
    its message, or any other value, kept as [String(value)]. *)
Inductive Thrown :=
| ErrorObject (message : string)
| OtherValue (text : string).

(** [error instanceof Error ? error.message : String(error)] *)
Definition messageOf (error : Thrown) : string :=
  match error with
  | ErrorObject message => message
  | OtherValue text => text
  end.

(** A computation either throws or returns. *)
Inductive Result (A : Type) : Type :=
| Throw (error : Thrown)
| Ok (a : A).
Arguments Throw {A} error.
Arguments Ok {A} a.

(** ** Data exchanged with the chain *)

Record FeeData := {
  fd_gasPrice : option Z;
  fd_maxFeePerGas : option Z;
  fd_maxPriorityFeePerGas : option Z
}.

Record Block := { baseFeePerGas : option Z }.

Record Receipt := { status : option Z; hash : string }.

(** [exactInputSingle] parameters of the V3 router. *)
Record SwapParams := {
  tokenIn : string;
  tokenOut : string;
  fee : Z;
  recipient : string;
  deadline : Z;
  amountIn : Z;
  amountOutMinimum : Z;
  sqrtPriceLimitX96 : Z
}.

(** The [txOptions] object: [gasPrice] for legacy transactions, the two
    fee caps for EIP-1559 ones. *)
Record TxOptions := {
  tx_value : Z;
  tx_gasLimit : Z;
  tx_maxFeePerGas : option Z;
  tx_maxPriorityFeePerGas : option Z;
  tx_gasPrice : option Z
}.

(** A contract method call: the V3 router's or the V2 router's swap. *)
Inductive Call :=
| exactInputSingle (p : SwapParams)
| swapExactETHForTokens (amountOutMin : Z) (path : list string)
                        (to : string) (deadline : Z).

(** ** Data of the orchestrator *)

Inductive ChainType := base | ethereum.

Record NetworkInfo := {
  n_id : string;
  n_name : string;
  chainType : ChainType
}.

Record TokenInfo := {
  symbol : string;
  address : string;
  network : NetworkInfo
}.

Record TokenResolutionResult := {
  found : bool;
  token : option TokenInfo;
  reason : string
}.

Record TradeRequest := {
  r_token : string;
  r_tweet : string;
  r_influencer : string;
  r_tweetId : string
}.

Inductive PositionStatus := holding | sold | failed.

Record TradingPosition := {
  p_id : string;
  p_token : string;
  p_amount : float;
  p_purchasePrice : float;
  p_purchaseTime : Z;
  p_tweet : string;
  p_influencer : string;
  p_status : PositionStatus
}.

(** The [data] object of a toast. *)
Record ToastFields := {
  t_token : option string;
  t_amount : option string;
  t_influencer : option string;
  t_price : option string;
  t_txHash : option string;
  t_explorerUrl : option string
}.

Inductive ToastCall :=
| addInfoToast (title message : string) (data : ToastFields)
| addErrorToast (title message : string) (data : ToastFields)
| addTradeBuyToast (data : ToastFields).

(** The two swap venues of the Ethereum family. *)
Inductive Venue := UniswapV3 | UniswapV2.

(** What a computation does that the outside can observe. [Invoke] records
    a call of a venue's [swapEthForToken] with its arguments. *)
Inductive Event :=
| RpcGetNetwork
| RpcGetFeeData
| RpcGetBlock
| RpcGetBalance (address : string)
| RpcQuote (tokenIn tokenOut : string) (fee amountIn : Z)
| RpcEstimateGas (c : Call) (value : Z)
| RpcSend (c : Call) (o : TxOptions)
| RpcWait (txHash : string)
| Sleep (ms : Z)
| ResolveToken (symbol : string)
| PrepareWallet (networkId : string)
| WalletGetBalance
| WalletGetAddress
| CreateTrade (amount : float) (fromAssetId toAssetId : string)
| GenerateId
| MarkTweetAsProcessed (tweetId : string)
| SavePosition (position : TradingPosition)
| Toast (c : ToastCall)
| Invoke (v : Venue) (tokenAddress ethAmount : string) (slippage : float).

Definition is_network_call (e : Event) : bool :=
  match e with
  | RpcGetNetwork
  | RpcGetFeeData | RpcGetBlock | RpcGetBalance _ | RpcQuote _ _ _ _
  | RpcEstimateGas _ _ | RpcSend _ _ | RpcWait _
  | ResolveToken _ | PrepareWallet _ | WalletGetBalance | WalletGetAddress
  | CreateTrade _ _ _ => true
  | _ => false
  end.

(** The delays of the timer waits of a trace, in order. *)
Fixpoint sleeps (t : list Event) : list Z :=
  match t with
  | [] => []
  | Sleep ms :: t' => ms :: sleeps t'
  | _ :: t' => sleeps t'
  end.

(** The JSON-RPC provider and signer ([ethers.Provider], the contract
    objects bound to it): every request may fail, and moves the chain
    state on. *)
Class Provider (W : Type) := {
  (** the chain id of [provider.getNetwork()] *)
  getNetwork : W -> Result Z * W;
  getFeeData : W -> Result FeeData * W;
  getBlock_latest : W -> Result (option Block) * W;
  getBalance : string -> W -> Result Z * W;
  quoteExactInputSingle : string -> string -> Z -> Z -> Z -> W -> Result Z * W;
  estimateGas : Call -> Z -> W -> Result Z * W;
  sendTransaction : Call -> TxOptions -> W -> Result string * W;
  waitReceipt : string -> W -> Result (option Receipt) * W;
  setTimeout : Z -> W -> W;
  Date_now : W -> Z;
  (** the chain id that the constructor's un-awaited [initializeNetwork]
      has stored so far, if its [getNetwork] request has been answered *)
  detectedChainId : W -> option Z
}.

(** Pure functions of the [ethers] library and of the JavaScript runtime.
    [Wallet_address] is [new ethers.Wallet(privateKey, provider)]: the
    address of the signer, or the error of a malformed key. *)
Class Ethers := {
  isAddress : string -> bool;
  parseUnits : string -> Z -> Result Z;
  formatUnits : Z -> Z -> string;
  Wallet_address : string -> Result string;
  Number_toString : float -> string;
  parseFloat : string -> float;
  toFixed : float -> Z -> string;
  toUpperCase : string -> string;
  toLowerCase : string -> string
}.

Definition parseEther `{Ethers} (s : string) : Result Z := parseUnits s 18.
Definition formatEther `{Ethers} (v : Z) : string := formatUnits v 18.

(** [parseUnits] and [parseEther] of the literals of the source. *)
Definition gwei : Z := 10 ^ 9.
Definition ether : Z := 10 ^ 18.

(** ** The monad *)

Definition M (W A : Type) : Type := W -> Result A * W * list Event.

Definition ret {W A} (a : A) : M W A := fun w => (Ok a, w, []).

(** [throw new Error(message)] *)
Definition throw {W A} (message : string) : M W A :=
  fun w => (Throw (ErrorObject message), w, []).

(** [throw error] of a caught value. *)
Definition rethrow {W A} (error : Thrown) : M W A :=
  fun w => (Throw error, w, []).

Definition bind {W A B} (m : M W A) (k : A -> M W B) : M W B :=
  fun w =>
    match m w with
    | (Throw e, w1, t1) => (Throw e, w1, t1)
    | (Ok a, w1, t1) =>
        let '(r, w2, t2) := k a w1 in (r, w2, t1 ++ t2)
    end.

(** [try { m } catch (error) { handler error }] *)
Definition try_catch {W A} (m : M W A) (handler : Thrown -> M W A) : M W A :=
  fun w =>
    match m w with
    | (Throw e, w1, t1) =>
        let '(r, w2, t2) := handler e w1 in (r, w2, t1 ++ t2)
    | (Ok a, w1, t1) => (Ok a, w1, t1)
    end.

(** One request to the provider, recorded in the trace. *)
Definition perform {W A} (e : Event) (f : W -> Result A * W) : M W A :=
  fun w => let '(r, w1) := f w in (r, w1, [e]).

(** [await new Promise(resolve => setTimeout(resolve, ms))] *)
Definition sleep {W} `{Provider W} (ms : Z) : M W unit :=
  fun w => (Ok tt, setTimeout ms w, [Sleep ms]).

(** A pure step that may throw. *)
Definition lift {W A} (r : Result A) : M W A := fun w => (r, w, []).

Declare Scope monad_scope.
Delimit Scope monad_scope with monad.
Notation "x <- m ;; k" := (bind m (fun x => k))
  (at level 61, m at next level, right associativity) : monad_scope.
Notation "' pat <- m ;; k" := (bind m (fun x => match x with pat => k end))
  (at level 61, pat pattern, m at next level, right associativity)
  : monad_scope.
Notation "m ;; k" := (bind m (fun _ => k))
  (at level 61, right associativity) : monad_scope.
Local Open Scope monad_scope.

(** * lib/gasManager.ts *)

Inductive Urgency := standard | fast | rapid.

Record NetworkGasSettings := {
  isMainnet : bool;
  chainId : Z;
  supports1559 : bool;
  baseFeeMultiplier : float;
  priorityFeeGwei : float
}.

Record GasConfig := {
  gasLimit : Z;
  maxFeePerGas : option Z;
  maxPriorityFeePerGas : option Z;
  gasPrice : option Z;
  type : option Z
}.

(** [BigInt(Math.floor(x))]: a RangeError unless [x] is finite. *)
Definition BigInt_floor (x : float) : Result Z :=
  match JS.floor x with
  | Some z => Ok z
  | None =>
      Throw (ErrorObject
               "RangeError: The number cannot be converted to a BigInt")
  end.

Module GasManager.
Section GasManager.
Context {W : Type} `{Provider W} `{Ethers}.
Variable networkSettings : NetworkGasSettings.

Definition getUrgencyMultiplier (urgency : Urgency) : float :=
  if isMainnet networkSettings then
    match urgency with
    | standard => 1.2
    | fast => 2.0
    | rapid => 3.0
    end%float
  else
    match urgency with
    | standard => 1.0
    | fast => 1.5
    | rapid => 2.0
    end%float.

Definition getLegacyGasPrice (urgency : Urgency) : M W Z :=
  try_catch
    (gasPrice <- perform RpcGetFeeData getFeeData ;;
     let basePrice := JS.or_bigint (fd_gasPrice gasPrice) (20 * gwei) in
     let multiplier := getUrgencyMultiplier urgency in
     m100 <- lift (BigInt_floor (multiplier * 100)%float) ;;
     let adjustedPrice := Z.quot (basePrice * m100) 100 in
     let minGasPrice :=
       if isMainnet networkSettings then 1 * gwei else gwei / 10 in
     ret (if adjustedPrice <? minGasPrice then minGasPrice
          else adjustedPrice))
    (fun _ =>
       ret (if isMainnet networkSettings then 10 * gwei else 2 * gwei)).

Definition getEIP1559FeeData (urgency : Urgency) : M W (Z * Z) :=
  try_catch
    (_feeData <- perform RpcGetFeeData getFeeData ;;
     latestBlock <- perform RpcGetBlock getBlock_latest ;;
     let baseFee :=
       JS.or_bigint
         (match latestBlock with
          | Some b => baseFeePerGas b
          | None => None
          end) (10 * gwei) in
     basePriorityFee <-
       lift (parseUnits (Number_toString (priorityFeeGwei networkSettings))
                        9) ;;
     let urgencyMultiplier := getUrgencyMultiplier urgency in
     u100 <- lift (BigInt_floor (urgencyMultiplier * 100)%float) ;;
     let maxPriorityFeePerGas := Z.quot (basePriorityFee * u100) 100 in
     b100 <- lift (BigInt_floor
                     (baseFeeMultiplier networkSettings * 100)%float) ;;
     let maxFeePerGas :=
       Z.quot (baseFee * b100) 100 + maxPriorityFeePerGas in
     let minMaxFee :=
       if isMainnet networkSettings then 5 * gwei else gwei / 10 in
     let minPriorityFee :=
       if isMainnet networkSettings then 1 * gwei else gwei / 100 in
     ret (if maxFeePerGas <? minMaxFee then minMaxFee else maxFeePerGas,
          if maxPriorityFeePerGas <? minPriorityFee then minPriorityFee
          else maxPriorityFeePerGas))
    (fun _ =>
       let fallbackMaxFee :=
         if isMainnet networkSettings then 15 * gwei else 3 * gwei in
       let fallbackPriorityFee :=
         if isMainnet networkSettings then 2 * gwei else 2 * gwei / 10 in
       ret (fallbackMaxFee, fallbackPriorityFee)).

(** The buffered and floored gas limit of [getGasConfig]. *)
Definition gasLimitFor (estimatedGas : Z) : Z :=
  if isMainnet networkSettings then
    let bufferedGas := Z.quot (estimatedGas * 120) 100 in
    let minimumGas := 150000 in
    if bufferedGas >? minimumGas then bufferedGas else minimumGas
  else
    let bufferedGas := Z.quot (estimatedGas * 120) 100 in
    let minimumGas := 100000 in
    if bufferedGas >? minimumGas then bufferedGas else minimumGas.

Definition getGasConfig (estimatedGas : Z) (urgency : Urgency)
  : M W GasConfig :=
  let gasLimit := gasLimitFor estimatedGas in
  if negb (supports1559 networkSettings) then
    gasPrice <- getLegacyGasPrice urgency ;;
    ret {| gasLimit := gasLimit;
           maxFeePerGas := None;
           maxPriorityFeePerGas := None;
           gasPrice := Some gasPrice;
           type := Some 0 |}
  else
    feeData <- getEIP1559FeeData urgency ;;
    ret {| gasLimit := gasLimit;
           maxFeePerGas := Some (fst feeData);
           maxPriorityFeePerGas := Some (snd feeData);
           gasPrice := None;
           type := Some 2 |}.

(** The loop of [estimateGasWithRetry]: [n] iterations are left, the
    next one has index [i]. *)
Fixpoint estimateGasLoop (c : Call) (value : Z) (retries : Z)
         (n : nat) (i : Z) (lastError : option string) : M W Z :=
  match n with
  | O =>
      throw ("Gas estimation failed after " +++ JS.toString retries
             +++ " attempts: "
             +++ match lastError with
                | Some m => m
                | None => "undefined"
                end)
  | S n' =>
      fun w =>
        match perform (RpcEstimateGas c value) (estimateGas c value) w with
        | (Ok gasEstimate, w1, t1) => (Ok gasEstimate, w1, t1)
        | (Throw e, w1, t1) =>
            let '(r, w2, t2) :=
              ((if i <? retries - 1 then sleep (2 ^ i * 1000) else ret tt) ;;
               estimateGasLoop c value retries n' (i + 1)
                               (Some (messageOf e))) w1 in
            (r, w2, t1 ++ t2)
        end
  end.

Definition estimateGasWithRetry (c : Call) (value : Z) (retries : Z)
  : M W Z :=
  estimateGasLoop c value retries (Z.to_nat retries) 0 None.

End GasManager.
End GasManager.

(** [createGasManager(provider, chainId)]: the settings of the manager. *)
Definition createGasManager (chainId : Z) : NetworkGasSettings :=
  if chainId =? 1 then
    {| isMainnet := true; chainId := 1; supports1559 := true;
       baseFeeMultiplier := 1.2; priorityFeeGwei := 2 |}
  else if chainId =? 11155111 then
    {| isMainnet := false; chainId := 11155111; supports1559 := true;
       baseFeeMultiplier := 1.2; priorityFeeGwei := 0.1 |}
  else if chainId =? 8453 then
    {| isMainnet := true; chainId := 8453; supports1559 := true;
       baseFeeMultiplier := 1.2; priorityFeeGwei := 0.01 |}
  else if chainId =? 84532 then
    {| isMainnet := false; chainId := 84532; supports1559 := true;
       baseFeeMultiplier := 1.1; priorityFeeGwei := 0.001 |}
  else
    {| isMainnet := false; chainId := chainId; supports1559 := true;
       baseFeeMultiplier := 1.2; priorityFeeGwei := 1 |}.

(** * Retry loops

    [for (let attempt = 1; attempt <= maxRetries; attempt++) {
       try { return body } catch (error) {
         lastError = error instanceof Error ? error : new Error(String(error));
         if (attempt < maxRetries) await sleep(delay) } }]
    with [n] iterations left. The loop either returns from inside [try]
    ([inl]) or falls through with the last error ([inr]). *)
Fixpoint attemptLoop {W A} `{Provider W} (body : Z -> M W A)
         (delay : Z -> Z) (maxRetries : Z)
         (n : nat) (attempt : Z) (lastError : option string)
  : M W (A + option string) :=
  match n with
  | O => ret (inr lastError)
  | S n' =>
      fun w =>
        match body attempt w with
        | (Ok a, w1, t1) => (Ok (inl a), w1, t1)
        | (Throw e, w1, t1) =>
            let '(r, w2, t2) :=
              ((if attempt <? maxRetries then sleep (delay attempt)
                else ret tt) ;;
               attemptLoop body delay maxRetries n' (attempt + 1)
                           (Some (messageOf e)))
                w1 in
            (r, w2, t1 ++ t2)
        end
  end.

(** [UniswapTradeResult] and [SimpleSwapResult]. *)
Record SwapResult := {
  success : bool;
  transactionHash : option string;
  tokenAmount : option string;
  toTokenAmount : option string;
  error : option string
}.

Definition swapSucceeded (txHash toTokenAmount : string) : SwapResult :=
  {| success := true; transactionHash := Some txHash; tokenAmount := None;
     toTokenAmount := Some toTokenAmount; error := None |}.

Definition swapFailed (message : string) : SwapResult :=
  {| success := false; transactionHash := None; tokenAmount := None;
     toTokenAmount := None; error := Some message |}.

(** [initializeNetwork()], which the constructors of both executors call
    without awaiting it: the request for the network goes out; the
    manager for its chain id replaces the default one when the answer
    arrives ([detectedChainId]), and a failure is only logged. *)
Definition initializeNetwork {W} `{Provider W} : M W unit :=
  try_catch
    (_network <- perform RpcGetNetwork getNetwork ;; ret tt)
    (fun _ => ret tt).

(** The manager a trader holds when it is read: mainnet defaults until
    the network has been detected. *)
Definition thisGasManager {W} `{Provider W} : M W NetworkGasSettings :=
  fun w =>
    (Ok (createGasManager match detectedChainId w with
                          | Some c => c
                          | None => 1
                          end), w, []).

Definition now {W} `{Provider W} : M W Z := fun w => (Ok (Date_now w), w, []).

(** [txOptions] as both executors build it from a gas configuration. *)
Definition txOptionsFor (value : Z) (gasConfig : GasConfig) : TxOptions :=
  match type gasConfig with
  | Some 2 =>
      {| tx_value := value; tx_gasLimit := gasLimit gasConfig;
         tx_maxFeePerGas := maxFeePerGas gasConfig;
         tx_maxPriorityFeePerGas := maxPriorityFeePerGas gasConfig;
         tx_gasPrice := None |}
  | _ =>
      {| tx_value := value; tx_gasLimit := gasLimit gasConfig;
         tx_maxFeePerGas := None;
         tx_maxPriorityFeePerGas := None;
         tx_gasPrice := gasPrice gasConfig |}
  end.

(** * lib/uniswapTrading.ts *)

Definition WETH_ADDRESS : string :=
  "0xC02aaA39b223FE8D0A0e5C4F27eAD9083C756Cc2".

Record QuoteResult := { q_fee : Z; q_quote : Z; q_amountOutMin : Z }.

Record SafeTrade := { tradeAmount : Z; s_fee : Z; gasReserve : Z }.

(** [this] of a trader or swapper: the address of its signer. *)
Record Trader := { signerAddress : string }.

Module UniswapTrader.
Section UniswapTrader.
Context {W : Type} `{Provider W} `{Ethers}.
Variable this : Trader.

Definition getQuote (tokenIn tokenOut : string) (fee amountIn : Z) : M W Z :=
  try_catch
    (perform (RpcQuote tokenIn tokenOut fee amountIn)
             (quoteExactInputSingle tokenIn tokenOut fee amountIn 0))
    (fun e => rethrow e).

Definition feeTiers : list Z := [3000; 500; 10000].

(** [(quote * BigInt(100 - slippagePercent)) / BigInt(100)] *)
Definition amountOutMinFor (quote slippagePercent : Z) : Z :=
  Z.quot (quote * (100 - slippagePercent)) 100.

Fixpoint findBestFeeAndQuoteFrom (tiers : list Z)
         (tokenAddress : string) (ethAmountWei : Z) : M W QuoteResult :=
  match tiers with
  | [] =>
      throw ("No liquidity found for WETH -> " +++ tokenAddress
             +++ " on any fee tier")
  | fee :: rest =>
      try_catch
        (quote <- getQuote WETH_ADDRESS tokenAddress fee ethAmountWei ;;
         let slippagePercent := 5 in
         let amountOutMin := amountOutMinFor quote slippagePercent in
         ret {| q_fee := fee; q_quote := quote;
                q_amountOutMin := amountOutMin |})
        (fun _ => findBestFeeAndQuoteFrom rest tokenAddress ethAmountWei)
  end.

Definition findBestFeeAndQuote : string -> Z -> M W QuoteResult :=
  findBestFeeAndQuoteFrom feeTiers.

(** The binary search of [calculateEthForTokenAmount] on one fee tier,
    with [n] iterations left. *)
Fixpoint searchEthAmount (tokenAddress : string) (targetTokenAmount fee : Z)
         (n : nat) (low high bestEthAmount : Z) : M W Z :=
  match n with
  | O => ret bestEthAmount
  | S n' =>
      let mid := Z.quot (low + high) 2 in
      '(low', high', best') <-
        try_catch
          (quote <- getQuote WETH_ADDRESS tokenAddress fee mid ;;
           ret (if quote >=? targetTokenAmount
                then (low, mid - 1, mid)
                else (mid + 1, high, bestEthAmount)))
          (fun _ => ret (mid + 1, high, bestEthAmount)) ;;
      searchEthAmount tokenAddress targetTokenAmount fee n' low' high' best'
  end.

Fixpoint calculateEthForTokenAmountFrom (tiers : list Z)
         (tokenAddress : string) (targetTokenAmount : Z) : M W (Z * Z) :=
  match tiers with
  | [] =>
      throw ("Could not calculate ETH needed for "
             +++ JS.toString targetTokenAmount +++ " tokens")
  | fee :: rest =>
      try_catch
        (ethNeeded <-
           searchEthAmount tokenAddress targetTokenAmount fee 20
             (ether / 1000) (ether / 10) (ether / 10) ;;
         ret (ethNeeded, fee))
        (fun _ =>
           calculateEthForTokenAmountFrom rest tokenAddress targetTokenAmount)
  end.

Definition calculateEthForTokenAmount : string -> Z -> M W (Z * Z) :=
  calculateEthForTokenAmountFrom feeTiers.

(** [maxGasCost + safeBuffer] of [calculateSafeTradeAmount]. *)
Definition totalReserveOf (gasConfig : GasConfig) : Z :=
  let maxGasCost :=
    gasLimit gasConfig
    * JS.or_bigint (maxFeePerGas gasConfig)
                   (JS.or_bigint (gasPrice gasConfig) 0) in
  let safeBuffer := 2 * ether / 10000 in
  maxGasCost + safeBuffer.

Definition calculateSafeTradeAmount (tokenAddress : string)
           (availableETH : Z) (targetTokenAmount : option Z)
  : M W SafeTrade :=
  let estimatedGas := 200000 in
  gasManager <- thisGasManager ;;
  gasConfig <- GasManager.getGasConfig gasManager estimatedGas standard ;;
  let totalReserve := totalReserveOf gasConfig in
  if availableETH <=? totalReserve then
    throw ("Insufficient ETH. Need at least " +++ formatEther totalReserve
           +++ " for gas + buffer")
  else
    let maxTradeAmount := availableETH - totalReserve in
    if JS.truthy targetTokenAmount then
      let target := match targetTokenAmount with
                    | Some t => t
                    | None => 0
                    end in
      '(ethNeeded, fee) <- calculateEthForTokenAmount tokenAddress target ;;
      if ethNeeded >? maxTradeAmount then
        ret {| tradeAmount := maxTradeAmount; s_fee := fee;
               gasReserve := totalReserve |}
      else
        ret {| tradeAmount := ethNeeded; s_fee := fee;
               gasReserve := totalReserve |}
    else
      q <- findBestFeeAndQuote tokenAddress maxTradeAmount ;;
      ret {| tradeAmount := maxTradeAmount; s_fee := q_fee q;
             gasReserve := totalReserve |}.

(** One pass through the [try] block of [swapEthForTokenSimple]. *)
Definition swapEthForTokenSimpleAttempt (tokenAddress ethAmount : string)
           (slippage : float) (attempt : Z) : M W SwapResult :=
  (if negb (isAddress tokenAddress)
   then throw ("Invalid token address: " +++ tokenAddress)
   else ret tt) ;;
  let recipient := signerAddress this in
  ethAmountWei <- lift (parseEther ethAmount) ;;
  balance <- perform (RpcGetBalance recipient) (getBalance recipient) ;;
  (if balance <? ethAmountWei + 8 * ether / 10000
   then throw ("Insufficient balance: " +++ formatEther balance
               +++ " ETH available, need " +++ ethAmount +++ " ETH + gas ("
               +++ formatEther (ethAmountWei + 8 * ether / 10000)
               +++ " total)")
   else ret tt) ;;
  date <- now ;;
  let deadline := date / 1000 + 600 in
  q <- findBestFeeAndQuote tokenAddress ethAmountWei ;;
  let swapParams :=
    {| tokenIn := WETH_ADDRESS; tokenOut := tokenAddress; fee := q_fee q;
       recipient := recipient; deadline := deadline;
       amountIn := ethAmountWei; amountOutMinimum := q_amountOutMin q;
       sqrtPriceLimitX96 := 0 |} in
  gasEstimate <-
    GasManager.estimateGasWithRetry (exactInputSingle swapParams)
                                    ethAmountWei 1 ;;
  gasManager <- thisGasManager ;;
  gasConfig <- GasManager.getGasConfig gasManager gasEstimate standard ;;
  let txOptions := txOptionsFor ethAmountWei gasConfig in
  txHash <- perform (RpcSend (exactInputSingle swapParams) txOptions)
                    (sendTransaction (exactInputSingle swapParams) txOptions) ;;
  receipt <- perform (RpcWait txHash) (waitReceipt txHash) ;;
  match receipt with
  | None => throw ("Transaction failed: " +++ txHash)
  | Some r =>
      match status r with
      | Some 0 => throw ("Transaction failed: " +++ txHash)
      | _ => ret (swapSucceeded (hash r) (JS.toString (q_quote q)))
      end
  end.

Definition swapEthForTokenSimple (tokenAddress ethAmount : string)
           (slippage : float) : M W SwapResult :=
  let maxRetries := 2 in
  r <- attemptLoop (swapEthForTokenSimpleAttempt tokenAddress ethAmount
                                                 slippage)
                   (fun _ => 1000) maxRetries (Z.to_nat maxRetries) 1 None ;;
  match r with
  | inl result => ret result
  | inr lastError =>
      ret (swapFailed
             match lastError with
             | Some m => "After " +++ JS.toString maxRetries
                         +++ " attempts: " +++ m
             | None => "Unknown error"
             end)
  end.

Definition swapEthForToken (tokenAddress ethAmount : string)
           (slippage : float) : M W SwapResult :=
  swapEthForTokenSimple tokenAddress ethAmount slippage.

(** One pass through the [try] block of [swapEthForTokenInternal]. The
    race of [tx.wait()] against the five-minute timer is the provider's
    answer to [waitReceipt]: a receipt, or the timeout error. *)
Definition swapEthForTokenInternalAttempt (tokenAddress : string)
           (ethAmount : option string) (targetTokenAmount : option Z)
           (slippage : float) (attempt : Z) : M W SwapResult :=
  (if negb (isAddress tokenAddress)
   then throw ("Invalid token address: " +++ tokenAddress)
   else ret tt) ;;
  let recipient := signerAddress this in
  balance <- perform (RpcGetBalance recipient) (getBalance recipient) ;;
  safeCalc <- calculateSafeTradeAmount tokenAddress balance targetTokenAmount ;;
  let actualEthAmount := tradeAmount safeCalc in
  let fee := s_fee safeCalc in
  date <- now ;;
  let deadline := date / 1000 + 600 in
  q <- findBestFeeAndQuote tokenAddress actualEthAmount ;;
  let swapParams :=
    {| tokenIn := WETH_ADDRESS; tokenOut := tokenAddress; fee := fee;
       recipient := recipient; deadline := deadline;
       amountIn := actualEthAmount; amountOutMinimum := q_amountOutMin q;
       sqrtPriceLimitX96 := 0 |} in
  gasEstimate <-
    GasManager.estimateGasWithRetry (exactInputSingle swapParams)
                                    actualEthAmount 2 ;;
  gasManager <- thisGasManager ;;
  gasConfig <- GasManager.getGasConfig gasManager gasEstimate standard ;;
  let txOptions := txOptionsFor actualEthAmount gasConfig in
  txHash <- perform (RpcSend (exactInputSingle swapParams) txOptions)
                    (sendTransaction (exactInputSingle swapParams) txOptions) ;;
  receipt <- perform (RpcWait txHash) (waitReceipt txHash) ;;
  match receipt with
  | None => throw "Transaction receipt not received"
  | Some r =>
      match status r with
      | Some 0 => throw ("Transaction failed on-chain. Hash: " +++ txHash)
      | _ => ret (swapSucceeded (hash r) (JS.toString (q_quote q)))
      end
  end.

Definition swapEthForTokenInternal (tokenAddress : string)
           (ethAmount : option string) (targetTokenAmount : option Z)
           (slippage : float) : M W SwapResult :=
  let maxRetries := 3 in
  r <- attemptLoop (swapEthForTokenInternalAttempt tokenAddress ethAmount
                                                   targetTokenAmount slippage)
                   (fun attempt => 2 ^ (attempt - 1) * 2000)
                   maxRetries (Z.to_nat maxRetries) 1 None ;;
  match r with
  | inl result => ret result
  | inr lastError =>
      ret (swapFailed
             match lastError with
             | Some m => "After " +++ JS.toString maxRetries
                         +++ " attempts: " +++ m
             | None => "Unknown error after retries"
             end)
  end.

Definition swapEthForExactTokens (tokenAddress targetTokenAmount : string)
           (slippage : float) : M W SwapResult :=
  targetTokenAmountWei <- lift (parseUnits targetTokenAmount 18) ;;
  swapEthForTokenInternal tokenAddress None (Some targetTokenAmountWei)
                          slippage.

(** [getEthBalance]: the formatted balance, or ['0'] on any failure. *)
Definition getEthBalance : M W string :=
  try_catch
    (let address := signerAddress this in
     balance <- perform (RpcGetBalance address) (getBalance address) ;;
     ret (formatEther balance))
    (fun _ => ret "0").

End UniswapTrader.
End UniswapTrader.

(** * lib/simpleSwap.ts *)

Module SimpleSwapper.
Section SimpleSwapper.
Context {W : Type} `{Provider W} `{Ethers}.
Variable this : Trader.

(** [parseEther('0.0015')], the minimum trade size. *)
Definition minTradeAmount : Z := 15 * ether / 10000.

(** One pass through the [try] block of [swapEthForToken]. *)
Definition swapEthForTokenAttempt (tokenAddress ethAmount : string)
           (slippage : float) (attempt : Z) : M W SwapResult :=
  (if negb (isAddress tokenAddress)
   then throw ("Invalid token address: " +++ tokenAddress)
   else ret tt) ;;
  let recipient := signerAddress this in
  ethAmountWei <- lift (parseEther ethAmount) ;;
  (if ethAmountWei <? minTradeAmount
   then throw ("Trade amount too small: " +++ ethAmount
               +++ " ETH (minimum: 0.0015 ETH for reliable DEX swaps)")
   else ret tt) ;;
  let path := [WETH_ADDRESS; tokenAddress] in
  date <- now ;;
  let deadline := date / 1000 + 1200 in
  let amountOutMin := 0 in
  let call := swapExactETHForTokens amountOutMin path recipient deadline in
  gasEstimate <-
    try_catch
      (GasManager.estimateGasWithRetry call ethAmountWei 2)
      (fun gasError =>
         throw ("Gas estimation failed - this usually means the swap would fail. Possible reasons: insufficient liquidity, token transfer restrictions, or amount too small. Original error: "
                +++ messageOf gasError)) ;;
  gasManager <- thisGasManager ;;
  gasConfig <- GasManager.getGasConfig gasManager gasEstimate standard ;;
  let txOptions := txOptionsFor ethAmountWei gasConfig in
  txHash <- perform (RpcSend call txOptions)
                    (sendTransaction call txOptions) ;;
  receipt <- perform (RpcWait txHash) (waitReceipt txHash) ;;
  match receipt with
  | None => throw "Transaction receipt not received"
  | Some r =>
      match status r with
      | Some 0 => throw ("Transaction failed on-chain. Hash: " +++ txHash)
      | _ => ret (swapSucceeded (hash r) "unknown")
      end
  end.

Definition swapEthForToken (tokenAddress ethAmount : string)
           (slippage : float) : M W SwapResult :=
  let maxRetries := 3 in
  r <- attemptLoop (swapEthForTokenAttempt tokenAddress ethAmount slippage)
                   (fun attempt => 2 ^ (attempt - 1) * 2000)
                   maxRetries (Z.to_nat maxRetries) 1 None ;;
  match r with
  | inl result => ret result
  | inr lastError =>
      ret (swapFailed
             match lastError with
             | Some m => "After " +++ JS.toString maxRetries
                         +++ " attempts: " +++ m
             | None => "Unknown error after retries"
             end)
  end.

End SimpleSwapper.
End SimpleSwapper.

(** * config/trading.ts *)

Record NetworkTradingConfig := {
  enabled : bool;
  method : string;
  minTradeAmountETH : float
}.

Record TradingConfig := {
  hybrid_base : NetworkTradingConfig;
  hybrid_ethereum : NetworkTradingConfig;
  (** [hybrid.ethereum.maxSlippage] *)
  maxSlippage : float
}.

Definition TRADING_CONFIG : TradingConfig :=
  {| hybrid_base :=
       {| enabled := true; method := "coinbase-native";
          minTradeAmountETH := 0.001 |};
     hybrid_ethereum :=
       {| enabled := true; method := "uniswap-v3";
          minTradeAmountETH := 0.001 |};
     maxSlippage := 3 |}.

(** [TRADING_CONFIG.hybrid[networkType]] *)
Definition hybrid (config : TradingConfig) (networkType : ChainType)
  : NetworkTradingConfig :=
  match networkType with
  | base => hybrid_base config
  | ethereum => hybrid_ethereum config
  end.

(** * lib/trading.ts *)

(** What [walletProvider.getBalance()] resolves to: wei as a bigint, or
    a decimal amount. *)
Inductive Balance :=
| BalanceBigInt (wei : Z)
| BalanceDecimal (text : string).

(** The collaborators of the orchestrator: the process environment, the
    token resolver, the AgentKit wallet provider, the custodial trade
    ([createTrade], [wait] and the hash of [getTransaction], as one
    request), identifiers, and the position store. *)
Class Collaborators (W : Type) := {
  process_env : string -> option string;
  resolveTokenAddress : string -> W -> Result TokenResolutionResult * W;
  prepareAgentkitAndWalletProvider : string -> W -> Result unit * W;
  walletProvider_getBalance : W -> Result Balance * W;
  walletProvider_getAddress : W -> Result string * W;
  (** whether the wallet behind the provider has a [createTrade] method *)
  wallet_hasCreateTrade : W -> bool;
  wallet_createTrade :
    float -> string -> string -> W -> Result (option string) * W;
  generateId : W -> Result string * W;
  mockTxHash : W -> string;
  markTweetAsProcessed : string -> W -> Result unit * W;
  savePosition : TradingPosition -> W -> Result unit * W
}.

(** The outcome of the sizing rule: the trade is skipped, or an amount
    is committed. *)
Inductive Sizing :=
| Skipped
| Committed (tradeAmountETH : float).

Module Trading.
Section Trading.
Context {W : Type} `{Provider W} `{Ethers} `{Collaborators W}.
Variable config : TradingConfig.

Definition lookup (table : list (string * string)) (key : string)
  : option string :=
  option_map snd (find (fun kv => String.eqb (fst kv) key) table).

Definition getBlockExplorerUrl (txHash networkId : string) : string :=
  let explorers :=
    [("ethereum", "https://etherscan.io/tx/");
     ("base", "https://basescan.org/tx/");
     ("base-sepolia", "https://sepolia.basescan.org/tx/");
     ("sepolia", "https://sepolia.etherscan.io/tx/");
     ("mainnet", "https://etherscan.io/tx/")] in
  (** [explorers[networkId] || explorers['ethereum']]: an inherited
      property is truthy too *)
  let baseUrl :=
    match lookup explorers networkId with
    | Some u => u
    | None =>
        match JS.inherited networkId with
        | Some text => text
        | None => "https://etherscan.io/tx/"
        end
    end in
  baseUrl +++ txHash.

(** The keys of the next two tables are upper-cased symbols, which name
    no inherited property. *)
Definition getAssetIdForToken (tokenSymbol tokenAddress : string) : string :=
  let symbolToAssetId :=
    [("USDC", "usdc"); ("ETH", "eth"); ("WETH", "weth"); ("DAI", "dai");
     ("USDT", "usdt"); ("BTC", "btc"); ("WBTC", "wbtc"); ("UNI", "uni");
     ("LINK", "link"); ("MATIC", "matic"); ("AAVE", "aave"); ("SOL", "sol");
     ("ADA", "ada"); ("DOT", "dot"); ("AVAX", "avax"); ("EIGEN", "eigen")] in
  match lookup symbolToAssetId (toUpperCase tokenSymbol) with
  | Some assetId => assetId
  | None => toLowerCase tokenAddress
  end.

Definition getTokenPrice (tokenSymbol : string) : float :=
  let mockPrices :=
    [("ETH", 2500); ("SOL", 100); ("ADA", 0.45); ("DOT", 7.2); ("LINK", 15);
     ("UNI", 6.5); ("AAVE", 95); ("MATIC", 0.85); ("AVAX", 37);
     ("EIGEN", 3.85)]%float in
  match find (fun kv => String.eqb (fst kv) (toUpperCase tokenSymbol))
             mockPrices with
  | Some kv => snd kv
  | None => 1%float
  end.

Definition toast (c : ToastCall) : M W unit := fun w => (Ok tt, w, [Toast c]).

Definition invoke (v : Venue) (tokenAddress ethAmount : string)
           (slippage : float) : M W unit :=
  fun w => (Ok tt, w, [Invoke v tokenAddress ethAmount slippage]).

(** [createUniswapTrader] and [createSimpleSwapper]: a provider for the
    URL, a wallet for the key, and the executor's constructor, which
    starts the detection of the network. *)
Definition createUniswapTrader (rpcUrl privateKey : string) : M W Trader :=
  signer <- lift (Wallet_address privateKey) ;;
  initializeNetwork ;;
  ret {| signerAddress := signer |}.

Definition createSimpleSwapper (rpcUrl privateKey : string) : M W Trader :=
  signer <- lift (Wallet_address privateKey) ;;
  initializeNetwork ;;
  ret {| signerAddress := signer |}.

Definition executeTestTrade (request : TradeRequest) : M W unit :=
  try_catch
    (let tokenPrice := getTokenPrice (r_token request) in
     let usdcAmount := 1%float in
     let tokenAmount := (usdcAmount / tokenPrice)%float in
     id <- perform GenerateId generateId ;;
     date <- now ;;
     let testPosition :=
       {| p_id := id; p_token := r_token request; p_amount := tokenAmount;
          p_purchasePrice := tokenPrice; p_purchaseTime := date;
          p_tweet := r_tweet request; p_influencer := r_influencer request;
          p_status := holding |} in
     perform (SavePosition testPosition) (savePosition testPosition) ;;
     txHash <- (fun w => (Ok (mockTxHash w), w, [])) ;;
     let explorerUrl := getBlockExplorerUrl txHash "base" in
     toast (addTradeBuyToast
              {| t_token := Some (r_token request);
                 t_amount := Some (toFixed tokenAmount 6 +++ " (test)");
                 t_influencer := Some (r_influencer request);
                 t_price := Some (Number_toString tokenPrice);
                 t_txHash := Some txHash;
                 t_explorerUrl := Some explorerUrl |}))
    (fun e => rethrow e).

Definition executeBaseNetworkTrade (request : TradeRequest)
           (tokenInfo : TokenInfo) (tradeAmountETH : float)
           (position : TradingPosition) : M W unit :=
  try_catch
    ((if negb (JS.includes "base" (n_id (network tokenInfo)))
      then throw ("Expected Base network, got: "
                  +++ n_name (network tokenInfo))
      else ret tt) ;;
     let toAssetId :=
       getAssetIdForToken (r_token request) (address tokenInfo) in
     hasCreateTrade <- (fun w => (Ok (wallet_hasCreateTrade w), w, [])) ;;
     (if negb hasCreateTrade
      then throw "Coinbase wallet trading functionality not available. Ensure you are using CdpSmartWalletProvider on Base network."
      else ret tt) ;;
     txHash <- perform (CreateTrade tradeAmountETH "eth" toAssetId)
                       (wallet_createTrade tradeAmountETH "eth" toAssetId) ;;
     let txHash := JS.nonEmpty txHash in
     let explorerUrl :=
       option_map (fun h => getBlockExplorerUrl h (n_id (network tokenInfo)))
                  txHash in
     toast (addTradeBuyToast
              {| t_token := Some (r_token request);
                 t_amount := Some (toFixed tradeAmountETH 4);
                 t_influencer := Some (r_influencer request);
                 t_price := Some (Number_toString (p_purchasePrice position));
                 t_txHash := txHash;
                 t_explorerUrl := explorerUrl |}) ;;
     perform (SavePosition position) (savePosition position))
    (fun e => rethrow e).

(** [process.env.NAME], with ['' ] and [undefined] both falsy. *)
Definition env (name : string) : option string :=
  JS.nonEmpty (process_env name).

(** [`${swapResult.error}`] *)
Definition errorText (r : SwapResult) : string :=
  match error r with
  | Some m => m
  | None => "undefined"
  end.

Definition executeEthereumNetworkTrade (request : TradeRequest)
           (tokenInfo : TokenInfo) (tradeAmountETH : float)
           (position : TradingPosition) : M W unit :=
  try_catch
    ((match chainType (network tokenInfo) with
      | ethereum => ret tt
      | base => throw "Expected Ethereum network, got: base"
      end) ;;
     let networkConfig := hybrid_ethereum config in
     (if negb (enabled networkConfig)
      then throw "Ethereum trading is disabled in configuration"
      else ret tt) ;;
     rpcUrl <-
       match (if String.eqb (n_id (network tokenInfo)) "ethereum-mainnet"
              then env "ETHEREUM_MAINNET_RPC_URL"
              else env "ETHEREUM_TESTNET_RPC_URL") with
       | Some u => ret u
       | None => throw ("No RPC URL configured for "
                        +++ n_id (network tokenInfo))
       end ;;
     privateKey <-
       match env "ETHEREUM_PRIVATE_KEY" with
       | Some k => ret k
       | None =>
           throw "ETHEREUM_PRIVATE_KEY environment variable required for DEX trading"
       end ;;
     uniswapTrader <- createUniswapTrader rpcUrl privateKey ;;
     _walletAddress <-
       match env "ETHEREUM_WALLET_ADDRESS" with
       | Some a => ret a
       | None =>
           throw "ETHEREUM_WALLET_ADDRESS environment variable required for DEX trading"
       end ;;
     ethBalance <- UniswapTrader.getEthBalance uniswapTrader ;;
     (if PrimFloat.ltb (parseFloat ethBalance) tradeAmountETH
      then throw ("Insufficient ETH balance: " +++ ethBalance
                  +++ " ETH available, need "
                  +++ Number_toString tradeAmountETH +++ " ETH")
      else ret tt) ;;
     invoke UniswapV3 (address tokenInfo) (Number_toString tradeAmountETH)
            (maxSlippage config) ;;
     swapResult <-
       UniswapTrader.swapEthForToken uniswapTrader (address tokenInfo)
         (Number_toString tradeAmountETH) (maxSlippage config) ;;
     swapResult <-
       (if negb (success swapResult) then
          let v3Error := error swapResult in
          try_catch
            (simpleSwapper <- createSimpleSwapper rpcUrl privateKey ;;
             invoke UniswapV2 (address tokenInfo)
                    (Number_toString tradeAmountETH) (maxSlippage config) ;;
             SimpleSwapper.swapEthForToken simpleSwapper (address tokenInfo)
               (Number_toString tradeAmountETH) (maxSlippage config))
            (fun _fallbackError => ret swapResult)
        else ret swapResult) ;;
     (if negb (success swapResult)
      then throw ("DEX swap failed: " +++ errorText swapResult)
      else ret tt) ;;
     let txHash := JS.nonEmpty (transactionHash swapResult) in
     let explorerUrl :=
       option_map (fun h => getBlockExplorerUrl h (n_id (network tokenInfo)))
                  txHash in
     toast (addTradeBuyToast
              {| t_token := Some (r_token request);
                 t_amount := Some (toFixed tradeAmountETH 4);
                 t_influencer := Some (r_influencer request);
                 t_price := Some (Number_toString (p_purchasePrice position));
                 t_txHash := txHash;
                 t_explorerUrl := explorerUrl |}) ;;
     perform (SavePosition position) (savePosition position))
    (fun e => rethrow e).

(** The sizing rule of [executeTrade]: 10% of the balance, raised to the
    network minimum and, for DEX trades, to the DEX minimum; no trade
    when the balance is below either minimum. *)
Definition sizeTrade (networkType : ChainType) (balanceETH : float)
  : Sizing :=
  let networkConfig := hybrid config networkType in
  let preferredTradeAmountETH := (balanceETH * 0.10)%float in
  let minRequired := minTradeAmountETH networkConfig in
  if PrimFloat.ltb balanceETH minRequired then Skipped
  else
    let dexMinimum := 0.0015%float in
    if match networkType with
       | ethereum => PrimFloat.ltb balanceETH dexMinimum
       | base => false
       end
    then Skipped
    else
      let tradeAmountETH := JS.Math_max preferredTradeAmountETH minRequired in
      let tradeAmountETH :=
        match networkType with
        | ethereum => JS.Math_max tradeAmountETH dexMinimum
        | base => tradeAmountETH
        end in
      Committed tradeAmountETH.

(** [executeTrade] from the point where the balance is known. *)
Definition executeTradeWithBalance (request : TradeRequest)
           (tokenInfo : TokenInfo) (balanceETH : float) : M W unit :=
  let networkType := chainType (network tokenInfo) in
  let networkConfig := hybrid config networkType in
  if negb (enabled networkConfig) then
    perform (MarkTweetAsProcessed (r_tweetId request))
            (markTweetAsProcessed (r_tweetId request))
  else
    match sizeTrade networkType balanceETH with
    | Skipped =>
        perform (MarkTweetAsProcessed (r_tweetId request))
                (markTweetAsProcessed (r_tweetId request))
    | Committed tradeAmountETH =>
        id <- perform GenerateId generateId ;;
        date <- now ;;
        let position :=
          {| p_id := id; p_token := r_token request;
             p_amount := tradeAmountETH; p_purchasePrice := 0;
             p_purchaseTime := date; p_tweet := r_tweet request;
             p_influencer := r_influencer request; p_status := holding |} in
        let tokenPrice := getTokenPrice (r_token request) in
        (** [position.purchasePrice = tokenPrice] *)
        let position :=
          {| p_id := p_id position; p_token := p_token position;
             p_amount := p_amount position; p_purchasePrice := tokenPrice;
             p_purchaseTime := p_purchaseTime position;
             p_tweet := p_tweet position;
             p_influencer := p_influencer position;
             p_status := p_status position |} in
        try_catch
          (toast (addInfoToast "Executing Trade"
                    ("Buying " +++ r_token request +++ " with "
                     +++ toFixed tradeAmountETH 4 +++ " ETH...")
                    {| t_token := Some (r_token request);
                       t_amount := Some (toFixed tradeAmountETH 4);
                       t_influencer := Some (r_influencer request);
                       t_price := Some (Number_toString tokenPrice);
                       t_txHash := None; t_explorerUrl := None |}) ;;
           match chainType (network tokenInfo) with
           | base =>
               executeBaseNetworkTrade request tokenInfo tradeAmountETH
                                       position
           | ethereum =>
               executeEthereumNetworkTrade request tokenInfo tradeAmountETH
                                           position
           end)
          (fun tradeError =>
             (** [position.status = 'failed'] *)
             let position :=
               {| p_id := p_id position; p_token := p_token position;
                  p_amount := p_amount position;
                  p_purchasePrice := p_purchasePrice position;
                  p_purchaseTime := p_purchaseTime position;
                  p_tweet := p_tweet position;
                  p_influencer := p_influencer position;
                  p_status := failed |} in
             perform (SavePosition position) (savePosition position) ;;
             toast (addErrorToast "Trade Failed"
                      ("Failed to buy " +++ r_token request +++ ": "
                       +++ match tradeError with
                           | ErrorObject message => message
                           | OtherValue _ => "Unknown error"
                           end)
                      {| t_token := Some (r_token request);
                         t_amount := None;
                         t_influencer := Some (r_influencer request);
                         t_price := None; t_txHash := None;
                         t_explorerUrl := None |}) ;;
             rethrow tradeError)
    end.

Definition executeTrade (request : TradeRequest) : M W unit :=
  try_catch
    (match process_env "TESTING" with
     | Some "true" => executeTestTrade request
     | _ =>
         tokenResult <- perform (ResolveToken (r_token request))
                                (resolveTokenAddress (r_token request)) ;;
         match (if found tokenResult then token tokenResult else None) with
         | None =>
             perform (MarkTweetAsProcessed (r_tweetId request))
                     (markTweetAsProcessed (r_tweetId request))
         | Some tokenInfo =>
             perform (PrepareWallet (n_id (network tokenInfo)))
                     (prepareAgentkitAndWalletProvider
                        (n_id (network tokenInfo))) ;;
             balance <- perform WalletGetBalance walletProvider_getBalance ;;
             let balanceETH :=
               match balance with
               | BalanceBigInt wei => parseFloat (formatEther wei)
               | BalanceDecimal text => parseFloat text
               end in
             try_catch
               (perform WalletGetAddress walletProvider_getAddress ;; ret tt)
               (fun _ => ret tt) ;;
             executeTradeWithBalance request tokenInfo balanceETH
         end
     end)
    (fun e => rethrow e).

End Trading.
End Trading.

(** * lib/networkConfig.ts *)

Module NetworkConfigManager.

(** [getNetworksForEnvironment]: every environment other than
    ['mainnet'] gets the test networks. *)
Definition getNetworksForEnvironment (environment : string)
  : list NetworkInfo :=
  if String.eqb environment "mainnet" then
    [ {| n_id := "base-mainnet"; n_name := "Base Mainnet";
         chainType := base |};
      {| n_id := "ethereum-mainnet"; n_name := "Ethereum Mainnet";
         chainType := ethereum |} ]
  else
    [ {| n_id := "base-sepolia"; n_name := "Base Sepolia";
         chainType := base |};
      {| n_id := "ethereum-sepolia"; n_name := "Ethereum Sepolia";
         chainType := ethereum |} ].

(** The constructor: [process.env.NETWORK_ENV || 'testnet']. *)
Definition environmentOf (NETWORK_ENV : option string) : string :=
  match JS.nonEmpty NETWORK_ENV with
  | Some e => e
  | None => "testnet"
  end.

Section NetworkConfigManager.
(** [this.config.networks] *)
Variable networks : list NetworkInfo.

Definition getNetworks : list NetworkInfo := networks.

Definition getNetworkById (networkId : string) : option NetworkInfo :=
  find (fun n => String.eqb (n_id n) networkId) networks.

Definition sameChainType (a b : ChainType) : bool :=
  match a, b with
  | base, base | ethereum, ethereum => true
  | _, _ => false
  end.

Definition getNetworkByChainType (c : ChainType) : option NetworkInfo :=
  find (fun n => sameChainType (chainType n) c) networks.

Definition getBaseNetworksOnly : list NetworkInfo :=
  filter (fun n => sameChainType (chainType n) base) networks.

Definition getBestBaseNetworkForToken (tokenSymbol : string)
  : option NetworkInfo :=
  match getBaseNetworksOnly with
  | [] => None
  | network :: _ => Some network
  end.

(** [this.config.networks[0]] *)
Definition getPrimaryNetwork : option NetworkInfo := hd_error networks.

Definition getLegacyNetworkId : option string :=
  option_map n_id getPrimaryNetwork.

End NetworkConfigManager.
End NetworkConfigManager.

(** * lib/toastService.ts *)

Module ToastService.

Inductive ToastType := Success | Error | Info | TradeBuy | TradeSell.

(** The [data] object of a stored toast. *)
Record ToastDetails := {
  d_token : option string;
  d_amount : option string;
  d_influencer : option string;
  d_txHash : option string;
  d_price : option string;
  d_profit : option string;
  d_explorerUrl : option string
}.

Record ToastData := {
  td_id : string;
  td_type : ToastType;
  td_title : string;
  td_message : string;
  td_duration : Z;
  td_data : option ToastDetails;
  td_timestamp : Z
}.

(** [Omit<ToastData, 'id' | 'timestamp'>] *)
Record ToastInput := {
  ti_type : ToastType;
  ti_title : string;
  ti_message : string;
  ti_duration : option Z;
  ti_data : option ToastDetails
}.

(** [toastStore.slice(-n)] *)
Definition sliceLast {A} (n : nat) (l : list A) : list A :=
  skipn (List.length l - n) l.

(** [addToast]: [idTime] and [timestamp] are the two readings of
    [Date.now()], [random] is [Math.random().toString(36).substr(2, 9)].
    Returns the toast and the new [toastStore]. *)
Definition addToast (idTime timestamp : Z) (random : string)
           (toastData : ToastInput) (toastStore : list ToastData)
  : ToastData * list ToastData :=
  let toast :=
    {| td_id := JS.toString idTime +++ random;
       td_type := ti_type toastData;
       td_title := ti_title toastData;
       td_message := ti_message toastData;
       td_duration := match ti_duration toastData with
                      | Some d => d
                      | None => 6000
                      end;
       td_data := ti_data toastData;
       td_timestamp := timestamp |} in
  let toastStore := toastStore ++ [toast] in
  (toast,
   if (50 <? List.length toastStore)%nat then sliceLast 50 toastStore
   else toastStore).

(** [getRecentToasts(since)]: [since || Date.now() - 30000]. *)
Definition getRecentToasts (now : Z) (since : option Z)
           (toastStore : list ToastData) : list ToastData :=
  let cutoff := JS.or_bigint since (now - 30000) in
  filter (fun toast => td_timestamp toast >? cutoff) toastStore.

Definition clearAllToasts (toastStore : list ToastData) : list ToastData :=
  [].

Section Add.
(** The readings of the clock and of the random source of one call. *)
Variables (idTime timestamp : Z) (random : string).

Definition addTradeBuyToast (token amount influencer : string)
           (price txHash explorerUrl : option string) :=
  addToast idTime timestamp random
    {| ti_type := TradeBuy;
       ti_title := "Bought " +++ token;
       ti_message := "Purchased " +++ amount +++ " ETH worth of " +++ token;
       ti_duration := Some 8000;
       ti_data := Some {| d_token := Some token; d_amount := Some amount;
                          d_influencer := Some influencer;
                          d_txHash := txHash; d_price := price;
                          d_profit := None;
                          d_explorerUrl := explorerUrl |} |}.

Definition addTradeSellToast (token amount : string)
           (profit price txHash explorerUrl : option string) :=
  addToast idTime timestamp random
    {| ti_type := TradeSell;
       ti_title := "Sold " +++ token;
       ti_message := "Liquidated " +++ token +++ " position";
       ti_duration := Some 8000;
       ti_data := Some {| d_token := Some token; d_amount := Some amount;
                          d_influencer := None;
                          d_txHash := txHash; d_price := price;
                          d_profit := profit;
                          d_explorerUrl := explorerUrl |} |}.

Definition addErrorToast (title message : string)
           (data : option ToastDetails) :=
  addToast idTime timestamp random
    {| ti_type := Error; ti_title := title; ti_message := message;
       ti_duration := Some 10000; ti_data := data |}.

Definition addSuccessToast (title message : string)
           (data : option ToastDetails) :=
  addToast idTime timestamp random
    {| ti_type := Success; ti_title := title; ti_message := message;
       ti_duration := None; ti_data := data |}.

Definition addInfoToast (title message : string)
           (data : option ToastDetails) :=
  addToast idTime timestamp random
    {| ti_type := Info; ti_title := title; ti_message := message;
       ti_duration := None; ti_data := data |}.

End Add.

(** A call of [addToast] with the readings it makes. *)
Record AddCall := {
  c_idTime : Z;
  c_timestamp : Z;
  c_random : string;
  c_input : ToastInput
}.

Definition call (c : AddCall) (toastStore : list ToastData)
  : ToastData * list ToastData :=
  addToast (c_idTime c) (c_timestamp c) (c_random c) (c_input c) toastStore.

(** The store after a sequence of calls, and the toasts they created. *)
Definition addAll (calls : list AddCall) (toastStore : list ToastData)
  : list ToastData :=
  fold_left (fun store c => snd (call c store)) calls toastStore.

Definition created (calls : list AddCall) : list ToastData :=
  map (fun c => fst (call c [])) calls.

End ToastService.

(** * Selling: [executeSell] (lib/trading.ts) and lib/scheduler.ts *)

(** [Partial<TradingPosition>] as [updatePosition] receives it. *)
Record PositionUpdate := {
  u_sellTime : option Z;
  u_sellPrice : option float;
  u_profit : option float;
  u_status : option PositionStatus
}.

(** The position store and the clock, as the seller sees them. *)
Class Database (W : Type) := {
  getHoldingPositions : W -> Result (list TradingPosition) * W;
  updatePosition : string -> PositionUpdate -> W -> Result unit * W;
  (** [Date.now()] and [new Date()] *)
  currentTime : W -> Z
}.

(** [TRADING_CONFIG.holdDurationHours] *)
Definition holdDurationHours : Z := 24.

Module Selling.

(** What the selling side does that the outside can observe. *)
Inductive SellEvent :=
| GetHoldingPositions
| UpdatePosition (positionId : string) (updates : PositionUpdate)
| TradeSellToast (token amount profit price : string).

Definition S (W A : Type) : Type := W -> Result A * W * list SellEvent.

Section Selling.
Context {W : Type} `{Database W} `{Ethers}.

Definition ret {A} (a : A) : S W A := fun w => (Ok a, w, []).

Definition rethrow {A} (error : Thrown) : S W A :=
  fun w => (Throw error, w, []).

Definition bind {A B} (m : S W A) (k : A -> S W B) : S W B :=
  fun w =>
    match m w with
    | (Throw e, w1, t1) => (Throw e, w1, t1)
    | (Ok a, w1, t1) =>
        let '(r, w2, t2) := k a w1 in (r, w2, t1 ++ t2)
    end.

Definition try_catch {A} (m : S W A) (handler : Thrown -> S W A) : S W A :=
  fun w =>
    match m w with
    | (Throw e, w1, t1) =>
        let '(r, w2, t2) := handler e w1 in (r, w2, t1 ++ t2)
    | (Ok a, w1, t1) => (Ok a, w1, t1)
    end.

Definition perform {A} (e : SellEvent) (f : W -> Result A * W) : S W A :=
  fun w => let '(r, w1) := f w in (r, w1, [e]).

Definition now : S W Z := fun w => (Ok (currentTime w), w, []).

Definition addTradeSellToast (token amount profit price : string)
  : S W unit :=
  fun w => (Ok tt, w, [TradeSellToast token amount profit price]).

Definition executeSell (position : TradingPosition) : S W unit :=
  try_catch
    (let currentPrice := Trading.getTokenPrice (p_token position) in
     let profit :=
       ((currentPrice - p_purchasePrice position) * p_amount position)%float
     in
     bind (addTradeSellToast (p_token position)
             (toFixed (p_amount position) 4) (toFixed profit 2)
             (Number_toString currentPrice))
       (fun _ =>
     bind now (fun sellTime =>
     let updates :=
       {| u_sellTime := Some sellTime; u_sellPrice := Some currentPrice;
          u_profit := Some profit; u_status := Some sold |} in
     perform (UpdatePosition (p_id position) updates)
             (updatePosition (p_id position) updates))))
    (fun error =>
       let updates :=
         {| u_sellTime := None; u_sellPrice := None; u_profit := None;
            u_status := Some failed |} in
       bind (perform (UpdatePosition (p_id position) updates)
                     (updatePosition (p_id position) updates))
            (fun _ => rethrow error)).

(** The [for] loop of [checkPositionsToSell]. *)
Fixpoint sellDuePositions (positions : list TradingPosition) : S W unit :=
  match positions with
  | [] => ret tt
  | position :: rest =>
      let holdDurationMs := holdDurationHours * 60 * 60 * 1000 in
      bind now (fun date =>
      let timeSincePurchase := date - p_purchaseTime position in
      bind (if timeSincePurchase >=? holdDurationMs
            then try_catch (executeSell position) (fun _ => ret tt)
            else ret tt)
           (fun _ => sellDuePositions rest))
  end.

Definition checkPositionsToSell : S W unit :=
  try_catch
    (bind (perform GetHoldingPositions getHoldingPositions)
          (fun holdingPositions =>
             match holdingPositions with
             | [] => ret tt
             | _ => sellDuePositions holdingPositions
             end))
    (fun _ => ret tt).

Definition manualCheck : S W unit := checkPositionsToSell.

End Selling.

(** The two updates [executeSell] may send for a position. *)
Definition soldUpdate `{Ethers} (position : TradingPosition) (sellTime : Z)
  : PositionUpdate :=
  let currentPrice := Trading.getTokenPrice (p_token position) in
  {| u_sellTime := Some sellTime; u_sellPrice := Some currentPrice;
     u_profit :=
       Some ((currentPrice - p_purchasePrice position)
             * p_amount position)%float;
     u_status := Some sold |}.

Definition failedUpdate : PositionUpdate :=
  {| u_sellTime := None; u_sellPrice := None; u_profit := None;
     u_status := Some failed |}.

(** The positions for which a trace records an update to [sold]. *)
Fixpoint soldIds (t : list SellEvent) : list string :=
  match t with
  | [] => []
  | UpdatePosition id u :: t' =>
      match u_status u with
      | Some sold => id :: soldIds t'
      | _ => soldIds t'
      end
  | _ :: t' => soldIds t'
  end.

End Selling.

(** * A simulated chain

    A concrete provider, library and set of collaborators on which the
    model runs: a chain with a fixed balance, a table of pools (fee tier
    and tokens per wei), and fixed answers to gas estimation, submission
    and confirmation. *)

Module Sim.

Record World := {
  clock : Z;
  balance : option Z;
  pools : list (Z * Z);
  gas : option Z;
  submits : bool;
  receiptStatus : option Z;
  walletBalance : Z
}.

Definition isDigit (c : Ascii.ascii) : bool :=
  ((48 <=? Ascii.nat_of_ascii c) && (Ascii.nat_of_ascii c <=? 57))%nat.

Fixpoint digitsValue (s : string) (acc : Z) : option Z :=
  match s with
  | EmptyString => Some acc
  | String c s' =>
      if isDigit c
      then digitsValue s' (acc * 10 + Z.of_nat (Ascii.nat_of_ascii c) - 48)
      else None
  end.

Fixpoint splitDot (s : string) : string * option string :=
  match s with
  | EmptyString => (EmptyString, None)
  | String c s' =>
      if Ascii.eqb c "."%char
      then (EmptyString, Some s')
      else let '(a, b) := splitDot s' in (String c a, b)
  end.

(** A decimal string as an integer number of units of [10^-d]. *)
Definition parseDecimal (s : string) (d : Z) : Result Z :=
  let '(whole, frac) := splitDot s in
  let frac := match frac with Some f => f | None => EmptyString end in
  if (String.length whole =? 0)%nat || (d <? Z.of_nat (String.length frac))
  then Throw (ErrorObject "invalid FixedNumber string value")
  else
    match digitsValue whole 0, digitsValue frac 0 with
    | Some a, Some b =>
        Ok (a * 10 ^ d + b * 10 ^ (d - Z.of_nat (String.length frac)))
    | _, _ => Throw (ErrorObject "invalid FixedNumber string value")
    end.

Fixpoint stripZeros (l : list Ascii.ascii) : list Ascii.ascii :=
  match l with
  | "0"%char :: l' => stripZeros l'
  | _ => l
  end.

(** An integer number of units of [10^-d] as a decimal string. *)
Definition formatDecimal (z d : Z) : string :=
  let a := Z.abs z in
  let q := a / 10 ^ d in
  let r := a mod 10 ^ d in
  let digits := list_ascii_of_string (JS.toString r) in
  let padded :=
    (repeat "0"%char (Z.to_nat d - List.length digits)%nat ++ digits)%list in
  let frac := rev (stripZeros (rev padded)) in
  (if z <? 0 then "-" else EmptyString) +++ JS.toString q +++ "."
  +++ match frac with
      | [] => "0"
      | _ => string_of_list_ascii frac
      end.

(** The numbers the scenarios print and read back. *)
Definition numbers : list (float * string) :=
  [(0.0005, "0.0005"); (0.001, "0.001"); (0.0012, "0.0012");
   (0.0015, "0.0015");
   (0.002, "0.002"); (0.01, "0.01"); (0.1, "0.1"); (1, "1"); (2, "2")]%float.

Definition numberToString (x : float) : string :=
  match find (fun kv => PrimFloat.eqb (fst kv) x) numbers with
  | Some kv => snd kv
  | None => "NaN"
  end.

Definition stringToNumber (s : string) : float :=
  match find (fun kv => String.eqb (snd kv) s)
             (numbers ++ [(1%float, "1.0")])%list with
  | Some kv => fst kv
  | None => nan
  end.

Definition validAddress (s : string) : bool :=
  String.prefix "0x" s && (String.length s =? 42)%nat.

#[export] Instance ethers : Ethers := {|
  isAddress := validAddress;
  parseUnits := parseDecimal;
  formatUnits := formatDecimal;
  Wallet_address := fun key =>
    if (String.length key =? 0)%nat then Throw (ErrorObject "invalid private key")
    else Ok "0x1111111111111111111111111111111111111111";
  Number_toString := numberToString;
  parseFloat := stringToNumber;
  toFixed := fun x _ => numberToString x;
  toUpperCase := fun s => s;
  toLowerCase := fun s => s
|}.

Definition tick (ms : Z) (w : World) : World :=
  {| clock := clock w + ms; balance := balance w; pools := pools w;
     gas := gas w; submits := submits w; receiptStatus := receiptStatus w;
     walletBalance := walletBalance w |}.

#[export] Instance provider : Provider World := {|
  getNetwork := fun w => (Ok 1, w);
  getFeeData := fun w =>
    (Ok {| fd_gasPrice := Some (30 * gwei); fd_maxFeePerGas := None;
           fd_maxPriorityFeePerGas := None |}, w);
  getBlock_latest := fun w =>
    (Ok (Some {| baseFeePerGas := Some (20 * gwei) |}), w);
  getBalance := fun _ w =>
    (match balance w with
     | Some b => Ok b
     | None => Throw (ErrorObject "could not detect network")
     end, w);
  quoteExactInputSingle := fun _ _ fee amountIn _ w =>
    (match find (fun p => fst p =? fee) (pools w) with
     | Some p => Ok (amountIn * snd p)
     | None => Throw (ErrorObject "execution reverted")
     end, w);
  estimateGas := fun _ _ w =>
    (match gas w with
     | Some g => Ok g
     | None => Throw (ErrorObject "execution reverted")
     end, w);
  sendTransaction := fun _ _ w =>
    (if submits w then Ok "0xfeed" else Throw (ErrorObject "insufficient funds"), w);
  waitReceipt := fun h w =>
    (Ok (Some {| status := receiptStatus w; hash := h |}), w);
  setTimeout := tick;
  Date_now := clock;
  detectedChainId := fun _ => Some 1
|}.

Definition EIGEN : TokenInfo :=
  {| symbol := "EIGEN";
     address := "0xec53bF9167f50cDEB3Ae105f56099aaaB9061F83";
     network := {| n_id := "ethereum-mainnet"; n_name := "Ethereum Mainnet";
                   chainType := ethereum |} |}.

#[export] Instance collaborators : Collaborators World := {|
  process_env := fun name =>
    if String.eqb name "ETHEREUM_MAINNET_RPC_URL" then Some "https://rpc"
    else if String.eqb name "ETHEREUM_PRIVATE_KEY" then Some "0xkey"
    else if String.eqb name "ETHEREUM_WALLET_ADDRESS"
    then Some "0x1111111111111111111111111111111111111111"
    else None;
  resolveTokenAddress := fun _ w =>
    (Ok {| found := true; token := Some EIGEN; reason := "ok" |}, w);
  prepareAgentkitAndWalletProvider := fun _ w => (Ok tt, w);
  walletProvider_getBalance := fun w =>
    (Ok (BalanceBigInt (walletBalance w)), w);
  walletProvider_getAddress := fun w =>
    (Ok "0x1111111111111111111111111111111111111111", w);
  wallet_hasCreateTrade := fun _ => true;
  wallet_createTrade := fun _ _ _ w => (Ok (Some "0xbase"), w);
  generateId := fun w => (Ok "position-1", w);
  mockTxHash := fun _ => "0x00";
  markTweetAsProcessed := fun _ w => (Ok tt, w);
  savePosition := fun _ w => (Ok tt, w)
|}.

(** A chain with one ether in the wallet and a 0.3% pool. *)
Definition liquid : World :=
  {| clock := 1700000000000; balance := Some ether;
     pools := [(3000, 2000)]; gas := Some 180000; submits := true;
     receiptStatus := Some 1; walletBalance := ether |}.

(** The same chain with no pool on any fee tier, and no V2 pair either
    (gas estimation reverts). *)
Definition dry : World :=
  {| clock := 1700000000000; balance := Some ether;
     pools := []; gas := None; submits := true;
     receiptStatus := Some 1; walletBalance := ether |}.

(** A chain where the 0.05% pool quotes a better price than the 0.3%
    pool. *)
Definition twoPools : World :=
  {| clock := 1700000000000; balance := Some ether;
     pools := [(500, 3000); (3000, 2000)]; gas := Some 180000;
     submits := true; receiptStatus := Some 1; walletBalance := ether |}.

(** The liquid chain with 0.0005 ether in the wallet. *)
Definition poor : World :=
  {| clock := 1700000000000; balance := Some (5 * ether / 10000);
     pools := [(3000, 2000)]; gas := Some 180000; submits := true;
     receiptStatus := Some 1; walletBalance := 5 * ether / 10000 |}.

(** The liquid chain with 0.0012 ether in the wallet: above the network
    minimum, below the DEX minimum. *)
Definition thin : World :=
  {| clock := 1700000000000; balance := Some (12 * ether / 10000);
     pools := [(3000, 2000)]; gas := Some 180000; submits := true;
     receiptStatus := Some 1; walletBalance := 12 * ether / 10000 |}.

Definition trader : Trader :=
  {| signerAddress := "0x1111111111111111111111111111111111111111" |}.

Definition position : TradingPosition :=
  {| p_id := "position-1"; p_token := "EIGEN"; p_amount := 0.1;
     p_purchasePrice := 3.85; p_purchaseTime := 1700000000000;
     p_tweet := "EIGEN to the moon"; p_influencer := "blknoiz06";
     p_status := holding |}.

Definition request : TradeRequest :=
  {| r_token := "EIGEN"; r_tweet := "EIGEN to the moon";
     r_influencer := "blknoiz06"; r_tweetId := "42" |}.

End Sim.

(** * Simulated collaborators of the orchestrator and of the seller *)

Module SimAgent.

(** The simulated library, reading ['0'] as well. *)
Definition ethers : Ethers := {|
  isAddress := Sim.validAddress;
  parseUnits := Sim.parseDecimal;
  formatUnits := Sim.formatDecimal;
  Wallet_address := @Wallet_address Sim.ethers;
  Number_toString := Sim.numberToString;
  parseFloat := fun s =>
    if String.eqb s "0" then 0%float else Sim.stringToNumber s;
  toFixed := fun x _ => Sim.numberToString x;
  toUpperCase := fun s => s;
  toLowerCase := fun s => s
|}.

(** The simulated collaborators with [TESTING=true] in the environment. *)
Definition testing : Collaborators Sim.World := {|
  process_env := fun name =>
    if String.eqb name "TESTING" then Some "true"
    else @process_env _ Sim.collaborators name;
  resolveTokenAddress := @resolveTokenAddress _ Sim.collaborators;
  prepareAgentkitAndWalletProvider :=
    @prepareAgentkitAndWalletProvider _ Sim.collaborators;
  walletProvider_getBalance := @walletProvider_getBalance _ Sim.collaborators;
  walletProvider_getAddress := @walletProvider_getAddress _ Sim.collaborators;
  wallet_hasCreateTrade := @wallet_hasCreateTrade _ Sim.collaborators;
  wallet_createTrade := @wallet_createTrade _ Sim.collaborators;
  generateId := @generateId _ Sim.collaborators;
  mockTxHash := @mockTxHash _ Sim.collaborators;
  markTweetAsProcessed := @markTweetAsProcessed _ Sim.collaborators;
  savePosition := @savePosition _ Sim.collaborators
|}.

(** The simulated collaborators with a resolver that finds no token. *)
Definition unlisted : Collaborators Sim.World := {|
  process_env := @process_env _ Sim.collaborators;
  resolveTokenAddress := fun _ w =>
    (Ok {| found := false; token := None; reason := "not listed" |}, w);
  prepareAgentkitAndWalletProvider :=
    @prepareAgentkitAndWalletProvider _ Sim.collaborators;
  walletProvider_getBalance := @walletProvider_getBalance _ Sim.collaborators;
  walletProvider_getAddress := @walletProvider_getAddress _ Sim.collaborators;
  wallet_hasCreateTrade := @wallet_hasCreateTrade _ Sim.collaborators;
  wallet_createTrade := @wallet_createTrade _ Sim.collaborators;
  generateId := @generateId _ Sim.collaborators;
  mockTxHash := @mockTxHash _ Sim.collaborators;
  markTweetAsProcessed := @markTweetAsProcessed _ Sim.collaborators;
  savePosition := @savePosition _ Sim.collaborators
|}.

(** The simulated collaborators with a custodial wallet that rejects
    every trade with a value that is not an [Error]. *)
Definition rejecting : Collaborators Sim.World := {|
  process_env := @process_env _ Sim.collaborators;
  resolveTokenAddress := @resolveTokenAddress _ Sim.collaborators;
  prepareAgentkitAndWalletProvider :=
    @prepareAgentkitAndWalletProvider _ Sim.collaborators;
  walletProvider_getBalance := @walletProvider_getBalance _ Sim.collaborators;
  walletProvider_getAddress := @walletProvider_getAddress _ Sim.collaborators;
  wallet_hasCreateTrade := @wallet_hasCreateTrade _ Sim.collaborators;
  wallet_createTrade := fun _ _ _ w => (Throw (OtherValue "rate limited"), w);
  generateId := @generateId _ Sim.collaborators;
  mockTxHash := @mockTxHash _ Sim.collaborators;
  markTweetAsProcessed := @markTweetAsProcessed _ Sim.collaborators;
  savePosition := @savePosition _ Sim.collaborators
|}.

(** The token of the scenarios, listed on Base. *)
Definition onBase : TokenInfo :=
  {| symbol := "EIGEN"; address := address Sim.EIGEN;
     network := {| n_id := "base-mainnet"; n_name := "Base Mainnet";
                   chainType := base |} |}.

(** The simulated provider behind a node that refuses gas estimates
    until the clock reads [readyAt]. *)
Definition lagging (readyAt : Z) : Provider Sim.World := {|
  getNetwork := @getNetwork _ Sim.provider;
  getFeeData := @getFeeData _ Sim.provider;
  getBlock_latest := @getBlock_latest _ Sim.provider;
  getBalance := @getBalance _ Sim.provider;
  quoteExactInputSingle := @quoteExactInputSingle _ Sim.provider;
  estimateGas := fun c value w =>
    if Sim.clock w <? readyAt
    then (Throw (ErrorObject "header not found"), w)
    else @estimateGas _ Sim.provider c value w;
  sendTransaction := @sendTransaction _ Sim.provider;
  waitReceipt := @waitReceipt _ Sim.provider;
  setTimeout := @setTimeout _ Sim.provider;
  Date_now := @Date_now _ Sim.provider;
  detectedChainId := @detectedChainId _ Sim.provider
|}.

(** A position table in memory: a clock, the rows, and whether writes
    are refused. *)
Record Store := {
  clockReading : Z;
  rows : list TradingPosition;
  readOnly : bool
}.

Definition isHolding (p : TradingPosition) : bool :=
  match p_status p with
  | holding => true
  | _ => false
  end.

Definition setStatus (s : PositionStatus) (p : TradingPosition)
  : TradingPosition :=
  {| p_id := p_id p; p_token := p_token p; p_amount := p_amount p;
     p_purchasePrice := p_purchasePrice p;
     p_purchaseTime := p_purchaseTime p; p_tweet := p_tweet p;
     p_influencer := p_influencer p; p_status := s |}.

Definition database : Database Store := {|
  getHoldingPositions := fun w => (Ok (filter isHolding (rows w)), w);
  updatePosition := fun id u w =>
    if readOnly w then (Throw (ErrorObject "SQLITE_READONLY: attempt to write"), w)
    else
      (Ok tt,
       {| clockReading := clockReading w;
          rows := map (fun p =>
                         if String.eqb (p_id p) id
                         then match u_status u with
                              | Some s => setStatus s p
                              | None => p
                              end
                         else p) (rows w);
          readOnly := readOnly w |});
  currentTime := clockReading
|}.

(** Two holding positions: one bought 25 hours before the clock reading,
    one bought an hour before it. *)
Definition due : TradingPosition :=
  {| p_id := "position-1"; p_token := "EIGEN"; p_amount := 0.1;
     p_purchasePrice := 3.85; p_purchaseTime := 1700000000000 - 90000000;
     p_tweet := "EIGEN to the moon"; p_influencer := "blknoiz06";
     p_status := holding |}.

Definition recent : TradingPosition :=
  {| p_id := "position-2"; p_token := "UNI"; p_amount := 0.1;
     p_purchasePrice := 6.5; p_purchaseTime := 1700000000000 - 3600000;
     p_tweet := "UNI looks strong"; p_influencer := "jt_rose";
     p_status := holding |}.

Definition store : Store :=
  {| clockReading := 1700000000000; rows := [due; recent]; readOnly := false |}.

(** A swap on the V2 router, as the fallback executor asks for it. *)
Definition v2call : Call :=
  swapExactETHForTokens 0 [WETH_ADDRESS; address Sim.EIGEN]
                        (signerAddress Sim.trader) 1700001200.

End SimAgent.

(** * Observations on traces *)

(** Every event a computation performs satisfies [P], whatever the chain
    state and the outcome. *)
Definition emits {W A} (P : Event -> Prop) (m : M W A) : Prop :=
  forall w r w' t, m w = (r, w', t) -> Forall P t.

(** The arguments of the calls of venue [v] recorded in a trace. *)
Fixpoint invocations (v : Venue) (t : list Event)
  : list (string * string * float) :=
  match t with
  | [] => []
  | Invoke v' tokenAddress ethAmount slippage :: t' =>
      match v, v' with
      | UniswapV3, UniswapV3 | UniswapV2, UniswapV2 =>
          (tokenAddress, ethAmount, slippage) :: invocations v t'
      | _, _ => invocations v t'
      end
  | _ :: t' => invocations v t'
  end.

(** Requests to the chain and timer waits: all that a swap executor does. *)
Definition is_executor_event (e : Event) : Prop :=
  match e with
  | RpcGetFeeData | RpcGetBlock | RpcGetBalance _ | RpcQuote _ _ _ _
  | RpcEstimateGas _ _ | RpcSend _ _ | RpcWait _ | Sleep _ => True
  | _ => False
  end.

Definition is_rpc (e : Event) : Prop :=
  match e with
  | RpcGetFeeData | RpcGetBlock | RpcGetBalance _ | RpcQuote _ _ _ _
  | RpcEstimateGas _ _ | RpcSend _ _ | RpcWait _ => True
  | _ => False
  end.

(** A gas estimate or a submission asks the V2 router for a minimum
    output of 0. *)
Definition accepts_any_output (e : Event) : Prop :=
  match e with
  | RpcEstimateGas c _ | RpcSend c _ =>
      match c with
      | swapExactETHForTokens amountOutMin _ _ _ => amountOutMin = 0
      | exactInputSingle _ => False
      end
  | _ => True
  end.

(** An event that carries a trade amount carries [a]. *)
Definition carries `{Ethers} (a : float) (e : Event) : Prop :=
  match e with
  | SavePosition p => p_amount p = a
  | CreateTrade x _ _ => x = a
  | Invoke _ _ ethAmount _ => ethAmount = Number_toString a
  | _ => True
  end.

(** The checks that [executeEthereumNetworkTrade] makes before it swaps
    all pass, [signer] being the address of the wallet: the network is
    an Ethereum one and enabled, the RPC URL, the private key and the
    wallet address are set, the key is well-formed, and the balance the
    trader reads for the signer, ['0'] if the request fails, is not
    below the amount. *)
Definition ready_to_swap {W} `{Provider W} `{Ethers} `{Collaborators W}
           (config : TradingConfig) (tokenInfo : TokenInfo) (amount : float)
           (signer : string) (w : W) : Prop :=
  chainType (network tokenInfo) = ethereum
  /\ enabled (hybrid_ethereum config) = true
  /\ (if String.eqb (n_id (network tokenInfo)) "ethereum-mainnet"
      then Trading.env "ETHEREUM_MAINNET_RPC_URL"
      else Trading.env "ETHEREUM_TESTNET_RPC_URL") <> None
  /\ (exists privateKey,
        Trading.env "ETHEREUM_PRIVATE_KEY" = Some privateKey
        /\ Wallet_address privateKey = Ok signer)
  /\ Trading.env "ETHEREUM_WALLET_ADDRESS" <> None
  /\ PrimFloat.ltb
       (parseFloat match fst (getBalance signer (snd (getNetwork w))) with
                   | Ok balance => formatEther balance
                   | Throw _ => "0"
                   end) amount = false.

(** Every value a computation may return satisfies [Q]. *)
Definition returns {W A} (m : M W A) (Q : A -> Prop) : Prop :=
  forall w a w' t, m w = (Ok a, w', t) -> Q a.

(** The trace of [k] failed gas estimates, each followed by its back-off
    wait, and of one more estimate; the first has index [i]. *)
Fixpoint retryTrace (c : Call) (value : Z) (i : Z) (k : nat) : list Event :=
  match k with
  | O => [RpcEstimateGas c value]
  | S k' =>
      RpcEstimateGas c value :: Sleep (2 ^ i * 1000)
      :: retryTrace c value (i + 1) k'
  end.

(** The chain state after [k] gas estimates in a row that all fail, each
    followed by its back-off wait, the first one made in state [w] with
    index [i]; [None] if one of them answers. *)
Fixpoint afterFailedEstimates {W} `{Provider W} (c : Call) (value : Z)
         (k : nat) (i : Z) (w : W) : option W :=
  match k with
  | O => Some w
  | S k' =>
      match estimateGas c value w with
      | (Throw _, w1) =>
          afterFailedEstimates c value k' (i + 1)
                               (setTimeout (2 ^ i * 1000) w1)
      | (Ok _, _) => None
      end
  end.

(** The fee fields of a gas configuration respect the floors of its
    network class, and exactly one fee scheme is set. *)
Definition fees_floored (s : NetworkGasSettings) (cfg : GasConfig) : Prop :=
  if supports1559 s then
    type cfg = Some 2 /\ gasPrice cfg = None
    /\ exists f p,
        maxFeePerGas cfg = Some f /\ maxPriorityFeePerGas cfg = Some p
        /\ if isMainnet s
           then 5000000000 <= f /\ 1000000000 <= p
           else 100000000 <= f /\ 10000000 <= p
  else
    type cfg = Some 0 /\ maxFeePerGas cfg = None
    /\ maxPriorityFeePerGas cfg = None
    /\ exists p,
        gasPrice cfg = Some p
        /\ if isMainnet s then 1000000000 <= p else 100000000 <= p.

(** Transaction options of an EIP-1559 transaction: no legacy gas price,
    both fee caps and the gas limit at or above the lowest floors. *)
Definition eip1559_options (o : TxOptions) : Prop :=
  tx_gasPrice o = None
  /\ 100000 <= tx_gasLimit o
  /\ exists f p,
      tx_maxFeePerGas o = Some f /\ tx_maxPriorityFeePerGas o = Some p
      /\ 100000000 <= f /\ 10000000 <= p.

(** The swap that a call of the primary executor asks for: the requested
    token against WETH, paid to the signer, for the parsed amount. *)
Definition requested_swap `{Ethers} (this : Trader)
           (tokenAddress ethAmount : string) (p : SwapParams) : Prop :=
  tokenIn p = WETH_ADDRESS /\ tokenOut p = tokenAddress
  /\ recipient p = signerAddress this
  /\ parseEther ethAmount = Ok (amountIn p)
  /\ In (fee p) UniswapTrader.feeTiers
  /\ sqrtPriceLimitX96 p = 0
  /\ isAddress tokenAddress = true.

Definition primary_request `{Ethers} (this : Trader)
           (tokenAddress ethAmount : string) (e : Event) : Prop :=
  match e with
  | RpcGetBalance a => a = signerAddress this
  | RpcQuote tin tout fee amt =>
      tin = WETH_ADDRESS /\ tout = tokenAddress
      /\ In fee UniswapTrader.feeTiers /\ parseEther ethAmount = Ok amt
  | RpcEstimateGas (exactInputSingle p) v =>
      requested_swap this tokenAddress ethAmount p /\ v = amountIn p
  | RpcSend (exactInputSingle p) o =>
      requested_swap this tokenAddress ethAmount p
      /\ tx_value o = amountIn p /\ eip1559_options o
  | RpcEstimateGas (swapExactETHForTokens _ _ _ _) _
  | RpcSend (swapExactETHForTokens _ _ _ _) _ => False
  | _ => True
  end.

(** The same for the fallback executor: the V2 router's swap along
    [WETH, token], paid to the signer, with at least the minimum trade
    size as value. *)
Definition fallback_request `{Ethers} (this : Trader)
           (tokenAddress ethAmount : string) (e : Event) : Prop :=
  match e with
  | RpcEstimateGas (swapExactETHForTokens amountOutMin path to _) v =>
      path = [WETH_ADDRESS; tokenAddress] /\ to = signerAddress this
      /\ amountOutMin = 0 /\ parseEther ethAmount = Ok v
      /\ SimpleSwapper.minTradeAmount <= v
      /\ isAddress tokenAddress = true
  | RpcSend (swapExactETHForTokens amountOutMin path to _) o =>
      path = [WETH_ADDRESS; tokenAddress] /\ to = signerAddress this
      /\ amountOutMin = 0 /\ parseEther ethAmount = Ok (tx_value o)
      /\ SimpleSwapper.minTradeAmount <= tx_value o
      /\ isAddress tokenAddress = true
      /\ eip1559_options o
  | RpcEstimateGas (exactInputSingle _) _
  | RpcSend (exactInputSingle _) _
  | RpcQuote _ _ _ _ | RpcGetBalance _ => False
  | _ => True
  end.

(** Submissions of a swap to a venue's router. *)
Definition is_submission (v : Venue) (e : Event) : bool :=
  match e, v with
  | RpcSend (exactInputSingle _) _, UniswapV3 => true
  | RpcSend (swapExactETHForTokens _ _ _ _) _, UniswapV2 => true
  | _, _ => false
  end.

Definition submissions (v : Venue) (t : list Event) : nat :=
  List.length (filter (is_submission v) t).

(** A computation submits at most [n] swaps to venue [v]. *)
Definition submits_at_most {W A} (v : Venue) (n : nat) (m : M W A) : Prop :=
  forall w r w' t, m w = (r, w', t) -> (submissions v t <= n)%nat.

(** A request of the exact-output executor for a non-zero target: the
    swap of at most 0.1 ether through the 0.3% tier, paid to the signer. *)
Definition exact_output_swap (this : Trader) (tokenAddress : string)
           (p : SwapParams) : Prop :=
  tokenIn p = WETH_ADDRESS /\ tokenOut p = tokenAddress
  /\ recipient p = signerAddress this
  /\ fee p = 3000 /\ 0 < amountIn p <= ether / 10
  /\ sqrtPriceLimitX96 p = 0.

Definition exact_output_request (this : Trader) (tokenAddress : string)
           (e : Event) : Prop :=
  match e with
  | RpcEstimateGas (exactInputSingle p) v =>
      exact_output_swap this tokenAddress p /\ v = amountIn p
  | RpcSend (exactInputSingle p) o =>
      exact_output_swap this tokenAddress p
      /\ tx_value o = amountIn p /\ eip1559_options o
  | RpcEstimateGas (swapExactETHForTokens _ _ _ _) _
  | RpcSend (swapExactETHForTokens _ _ _ _) _ => False
  | _ => True
  end.

(** What a run in testing mode may do: draw an identifier, save a
    holding position for one unit of USDC at the mock price, and show
    the purchase. *)
Definition test_trade_event `{Ethers} (request : TradeRequest) (e : Event)
  : Prop :=
  match e with
  | GenerateId => True
  | SavePosition p =>
      p_status p = holding /\ p_token p = r_token request
      /\ p_tweet p = r_tweet request
      /\ p_influencer p = r_influencer request
      /\ p_purchasePrice p = Trading.getTokenPrice (r_token request)
      /\ p_amount p = (1 / Trading.getTokenPrice (r_token request))%float
  | Toast (addTradeBuyToast _) => True
  | _ => False
  end.

(** What a trade of one network family never does: a custodial trade
    makes no request to the chain, waits on no timer and calls no swap
    venue; a DEX trade requests no custodial trade. *)
Definition family_event (family : ChainType) (e : Event) : Prop :=
  match family, e with
  | base, (RpcGetNetwork
          | RpcGetFeeData | RpcGetBlock | RpcGetBalance _ | RpcQuote _ _ _ _
          | RpcEstimateGas _ _ | RpcSend _ _ | RpcWait _ | Sleep _
          | Invoke _ _ _ _) => False
  | ethereum, CreateTrade _ _ _ => False
  | _, _ => True
  end.

(** A quote request of the binary search: tier [fee], an input between
    0.001 and 0.1 ether. *)
Definition search_quote (tokenAddress : string) (fee : Z) (e : Event) : Prop :=
  match e with
  | RpcQuote tin tout f amt =>
      tin = WETH_ADDRESS /\ tout = tokenAddress /\ f = fee
      /\ ether / 1000 <= amt <= ether / 10
  | _ => False
  end.

(** The outcome of three attempts with waits of 2000 and 4000 ms
    between them: the first result returned, or the failure that names
    the last error. *)
Definition threeAttempts {W} `{Provider W} (attempt : Z -> M W SwapResult)
           (w : W) : Result SwapResult * W * list Event :=
  match attempt 1 w with
  | (Ok res, w1, t1) => (Ok res, w1, t1)
  | (Throw _, w1, t1) =>
      match attempt 2 (setTimeout 2000 w1) with
      | (Ok res, w2, t2) => (Ok res, w2, t1 ++ Sleep 2000 :: t2)
      | (Throw _, w2, t2) =>
          match attempt 3 (setTimeout 4000 w2) with
          | (Ok res, w3, t3) =>
              (Ok res, w3, t1 ++ Sleep 2000 :: t2 ++ Sleep 4000 :: t3)
          | (Throw e3, w3, t3) =>
              (Ok (swapFailed ("After 3 attempts: " +++ messageOf e3)), w3,
               t1 ++ Sleep 2000 :: t2 ++ Sleep 4000 :: t3)
          end
      end
  end.

(** * Properties *)

(** ** Facts about the monad *)

Section MonadFacts.
Context {W : Type}.

(** A handler that always returns makes [try]/[catch] always return. *)
Lemma try_catch_total {A} (m : M W A) (h : Thrown -> M W A) :
  (forall e w, exists a w' t, h e w = (Ok a, w', t)) ->
  forall w, exists a w' t, try_catch m h w = (Ok a, w', t).
Proof.
  intros Hh w. unfold try_catch.
  destruct (m w) as [[[e | a] w1] t1].
  - destruct (Hh e w1) as (a & w2 & t2 & E). rewrite E. eauto.
  - eauto.
Qed.

Lemma bind_total {A B} (m : M W A) (k : A -> M W B) :
  (forall w, exists a w' t, m w = (Ok a, w', t)) ->
  (forall a w, exists b w' t, k a w = (Ok b, w', t)) ->
  forall w, exists b w' t, bind m k w = (Ok b, w', t).
Proof.
  intros Hm Hk w. unfold bind.
  destruct (Hm w) as (a & w1 & t1 & E). rewrite E.
  destruct (Hk a w1) as (b & w2 & t2 & E'). rewrite E'. eauto.
Qed.

Lemma ret_total {A} (a : A) (w : W) :
  exists a' w' t, ret a w = (Ok a', w', t).
Proof. unfold ret. eauto. Qed.

Lemma bind_Ok {A B} (m : M W A) (k : A -> M W B) w a w1 t1 :
  m w = (Ok a, w1, t1) ->
  bind m k w = (fst (fst (k a w1)), snd (fst (k a w1)),
                (t1 ++ snd (k a w1))%list).
Proof.
  intros E. unfold bind. rewrite E. now destruct (k a w1) as [[? ?] ?].
Qed.

Lemma bind_Throw {A B} (m : M W A) (k : A -> M W B) w e w1 t1 :
  m w = (Throw e, w1, t1) -> bind m k w = (Throw e, w1, t1).
Proof. intros E. unfold bind. now rewrite E. Qed.

Lemma try_catch_Ok {A} (m : M W A) (h : Thrown -> M W A) w a w1 t1 :
  m w = (Ok a, w1, t1) -> try_catch m h w = (Ok a, w1, t1).
Proof. intros E. unfold try_catch. now rewrite E. Qed.

End MonadFacts.

(** ** Gas limit *)

Section GasLimit.
Context {W : Type} `{Provider W} `{Ethers}.

Lemma quot_max_floor (a m : Z) :
  0 < m -> Z.max (Z.quot a 100) m = Z.max (a / 100) m.
Proof.
  intros Hm. destruct (Z.le_gt_cases 0 a) as [Ha | Ha].
  - now rewrite Z.quot_div_nonneg by lia.
  - assert (Z.quot a 100 <= 0).
    { replace a with (- (- a)) by lia.
      rewrite Z.quot_opp_l by lia.
      pose proof (Z.quot_pos (- a) 100). lia. }
    assert (a / 100 < 0) by (apply Z.div_lt_upper_bound; lia).
    lia.
Qed.

Lemma gasLimitFor_max (s : NetworkGasSettings) (g : Z) :
  GasManager.gasLimitFor s g
  = Z.max (g * 120 / 100) (if isMainnet s then 150000 else 100000).
Proof.
  unfold GasManager.gasLimitFor.
  destruct (isMainnet s); cbv zeta;
    rewrite <- quot_max_floor by lia;
    destruct (Z.gtb_spec (Z.quot (g * 120) 100) 150000);
    destruct (Z.gtb_spec (Z.quot (g * 120) 100) 100000); lia.
Qed.

Lemma getLegacyGasPrice_total s u (w : W) :
  exists p w' t, GasManager.getLegacyGasPrice s u w = (Ok p, w', t).
Proof.
  apply try_catch_total. intros; apply ret_total.
Qed.

Lemma getEIP1559FeeData_total s u (w : W) :
  exists p w' t, GasManager.getEIP1559FeeData s u w = (Ok p, w', t).
Proof.
  apply try_catch_total. intros; apply ret_total.
Qed.

(** [getGasConfig] never throws, and its limit is [gasLimitFor]. *)
Lemma getGasConfig_returns s g u (w : W) :
  exists cfg w' t,
    GasManager.getGasConfig s g u w = (Ok cfg, w', t)
    /\ gasLimit cfg = GasManager.gasLimitFor s g.
Proof.
  unfold GasManager.getGasConfig.
  destruct (supports1559 s); cbn [negb]; unfold bind.
  - destruct (getEIP1559FeeData_total s u w) as (p & w1 & t1 & E).
    rewrite E. cbn. eauto.
  - destruct (getLegacyGasPrice_total s u w) as (p & w1 & t1 & E).
    rewrite E. cbn. eauto.
Qed.

(** C9. For every estimate [g], network settings, urgency and chain
    state, [getGasConfig] returns a configuration whose gas limit is
    [max(floor(g * 120 / 100), floor)], where the floor is 150000 on main
    networks and 100000 on test networks; the limit therefore does not
    depend on the chain state or on the urgency: two calls with the same
    estimate give the same limit. Chain ids 1 and 8453 are main
    networks, 11155111, 84532 and unknown chains are test networks. *)
Theorem getGasConfig_gasLimit :
  (forall (s : NetworkGasSettings) (g : Z) (u : Urgency) (w : W),
      exists cfg w' t,
        GasManager.getGasConfig s g u w = (Ok cfg, w', t)
        /\ gasLimit cfg
           = Z.max (g * 120 / 100)
                   (if isMainnet s then 150000 else 100000))
  /\ (forall (s : NetworkGasSettings) (g : Z) (u1 u2 : Urgency) (w1 w2 : W)
             r1 r2 w1' w2' t1 t2,
         GasManager.getGasConfig s g u1 w1 = (r1, w1', t1) ->
         GasManager.getGasConfig s g u2 w2 = (r2, w2', t2) ->
         exists c1 c2, r1 = Ok c1 /\ r2 = Ok c2 /\ gasLimit c1 = gasLimit c2)
  /\ (forall c, isMainnet (createGasManager c) = ((c =? 1) || (c =? 8453)))
  /\ 100000 < 150000.
Proof.
  split; [| split; [| split]].
  - intros s g u w.
    destruct (getGasConfig_returns s g u w) as (cfg & w' & t & E & L).
    exists cfg, w', t. split; [exact E |].
    rewrite L. apply gasLimitFor_max.
  - intros s g u1 u2 w1 w2 r1 r2 w1' w2' t1 t2 E1 E2.
    destruct (getGasConfig_returns s g u1 w1) as (c1 & ? & ? & F1 & L1).
    destruct (getGasConfig_returns s g u2 w2) as (c2 & ? & ? & F2 & L2).
    rewrite F1 in E1. rewrite F2 in E2.
    exists c1, c2. repeat split; congruence.
  - intros c. unfold createGasManager.
    destruct (Z.eqb_spec c 1) as [-> | ?]; [reflexivity |].
    destruct (Z.eqb_spec c 11155111) as [-> | ?]; [reflexivity |].
    destruct (Z.eqb_spec c 8453) as [-> | ?]; [reflexivity |].
    destruct (Z.eqb_spec c 84532) as [-> | ?]; reflexivity.
  - lia.
Qed.

End GasLimit.

(** ** Slippage *)

Lemma amountOutMinFor_floor (Q S : Z) :
  0 <= Q -> S < 100 ->
  UniswapTrader.amountOutMinFor Q S = Q * (100 - S) / 100.
Proof.
  intros HQ HS. unfold UniswapTrader.amountOutMinFor.
  apply Z.quot_div_nonneg; nia.
Qed.

(** C3 (amended). For every quote [Q >= 0] and slippage percentage [S]
    with [0 < S < 100], the minimum output is [floor(Q * (100 - S) / 100)]
    and lies between 0 and [Q]; it does not increase when [S] increases,
    and it decreases strictly when [Q >= 100]. *)
Theorem amountOutMin_bounded_and_monotone (Q S : Z) :
  0 <= Q -> 0 < S < 100 ->
  UniswapTrader.amountOutMinFor Q S = Q * (100 - S) / 100
  /\ 0 <= UniswapTrader.amountOutMinFor Q S <= Q
  /\ (forall S', S <= S' < 100 ->
        UniswapTrader.amountOutMinFor Q S'
        <= UniswapTrader.amountOutMinFor Q S)
  /\ (forall S', 100 <= Q -> S < S' < 100 ->
        UniswapTrader.amountOutMinFor Q S'
        < UniswapTrader.amountOutMinFor Q S).
Proof.
  intros HQ HS.
  rewrite amountOutMinFor_floor by lia.
  split; [reflexivity |]. split; [| split].
  - split.
    + apply Z.div_pos; nia.
    + apply Z.div_le_upper_bound; nia.
  - intros S' HS'. rewrite amountOutMinFor_floor by lia.
    apply Z.div_le_mono; nia.
  - intros S' HQ' HS'. rewrite amountOutMinFor_floor by lia.
    assert (E : Q * (100 - S') / 100 + 1 = (Q * (100 - S') + 1 * 100) / 100)
      by (rewrite Z.div_add by lia; reflexivity).
    assert (Q * (100 - S') / 100 + 1 <= Q * (100 - S) / 100).
    { rewrite E. apply Z.div_le_mono; nia. }
    lia.
Qed.

Lemma amountOutMin_bounded_and_monotone_witness :
  UniswapTrader.amountOutMinFor 20000 5 = 19000
  /\ UniswapTrader.amountOutMinFor 20000 6
     < UniswapTrader.amountOutMinFor 20000 5.
Proof.
  destruct (amountOutMin_bounded_and_monotone 20000 5) as (E & _ & _ & D);
    [lia | lia |].
  split.
  - rewrite E. reflexivity.
  - apply D; lia.
Defined.

(** C3 as stated fails for small quotes: with [Q = 1] the minimum output
    is 0 for slippage 1% and for slippage 2%. *)
Lemma amountOutMin_not_strictly_decreasing :
  0 < 1 < 100 /\ 0 < 2 < 100 /\ 1 < 2
  /\ ~ (UniswapTrader.amountOutMinFor 1 2 < UniswapTrader.amountOutMinFor 1 1).
Proof.
  repeat split; try lia. vm_compute. intros H; discriminate H.
Qed.

(** ** Fee tiers *)

Section QuoteEngine.
Context {W : Type} `{Provider W} `{Ethers}.

(** [try]/[catch] that rethrows is the computation itself. *)
Lemma try_catch_rethrow {A} (m : M W A) (w : W) :
  try_catch m (fun e => rethrow e) w = m w.
Proof.
  unfold try_catch, rethrow.
  destruct (m w) as [[[e | a] w1] t1]; [rewrite app_nil_r |]; reflexivity.
Qed.

Lemma getQuote_run (tokenIn tokenOut : string) (fee amountIn : Z) (w : W) :
  UniswapTrader.getQuote tokenIn tokenOut fee amountIn w
  = (fst (quoteExactInputSingle tokenIn tokenOut fee amountIn 0 w),
     snd (quoteExactInputSingle tokenIn tokenOut fee amountIn 0 w),
     [RpcQuote tokenIn tokenOut fee amountIn]).
Proof.
  unfold UniswapTrader.getQuote. rewrite try_catch_rethrow.
  unfold perform.
  destruct (quoteExactInputSingle tokenIn tokenOut fee amountIn 0 w).
  reflexivity.
Qed.

(** One step of the tier loop: the tier's quote decides. *)
Lemma findBestFeeAndQuoteFrom_cons fee rest tokenAddress amount (w : W) :
  UniswapTrader.findBestFeeAndQuoteFrom (fee :: rest) tokenAddress amount w
  = match quoteExactInputSingle WETH_ADDRESS tokenAddress fee amount 0 w with
    | (Ok quote, w1) =>
        (Ok {| q_fee := fee; q_quote := quote;
               q_amountOutMin := UniswapTrader.amountOutMinFor quote 5 |},
         w1, [RpcQuote WETH_ADDRESS tokenAddress fee amount])
    | (Throw _, w1) =>
        let '(r, w2, t2) :=
          UniswapTrader.findBestFeeAndQuoteFrom rest tokenAddress amount w1 in
        (r, w2, RpcQuote WETH_ADDRESS tokenAddress fee amount :: t2)
    end.
Proof.
  cbn [UniswapTrader.findBestFeeAndQuoteFrom].
  unfold try_catch, bind. rewrite getQuote_run.
  destruct (quoteExactInputSingle WETH_ADDRESS tokenAddress fee amount 0 w)
    as [[e | quote] w1]; cbn [fst snd]; reflexivity.
Qed.

(** The only error of the tier loop is the no-liquidity error, and a
    result always carries the 5% minimum output of its quote. *)
Lemma findBestFeeAndQuoteFrom_outcome tiers tokenAddress amount (w : W)
      r w' t :
  UniswapTrader.findBestFeeAndQuoteFrom tiers tokenAddress amount w
  = (r, w', t) ->
  match r with
  | Throw e =>
      e = ErrorObject ("No liquidity found for WETH -> " +++ tokenAddress
                       +++ " on any fee tier")
  | Ok q =>
      In (q_fee q) tiers
      /\ q_amountOutMin q = UniswapTrader.amountOutMinFor (q_quote q) 5
  end.
Proof.
  revert w r w' t. induction tiers as [| fee rest IH]; intros w r w' t.
  - cbn. unfold throw. intros [= <- _ _]. reflexivity.
  - rewrite findBestFeeAndQuoteFrom_cons.
    destruct (quoteExactInputSingle WETH_ADDRESS tokenAddress fee amount 0 w)
      as [[e | quote] w1].
    + destruct (UniswapTrader.findBestFeeAndQuoteFrom rest tokenAddress
                  amount w1) as [[r2 w2] t2] eqn:E.
      intros [= <- _ _]. specialize (IH _ _ _ _ E).
      destruct r2; [exact IH |]. destruct IH. split; [now right | assumption].
    + intros [= <- _ _]. cbn. auto.
Qed.

(** C4. [findBestFeeAndQuote] probes the tiers 3000, 500, 10000 in this
    order and returns the first one whose quote call succeeds, with that
    quote and its 5% minimum output; the requests it makes are the quote
    calls up to and including that tier, so later tiers are never
    consulted, whatever they would have quoted. When all three quote
    calls fail it throws the no-liquidity error. *)
Theorem findBestFeeAndQuote_first_liquid_tier
        (tokenAddress : string) (amount : Z) (w : W) :
  let quoteAt fee := quoteExactInputSingle WETH_ADDRESS tokenAddress fee
                                           amount 0 in
  let asked fee := RpcQuote WETH_ADDRESS tokenAddress fee amount in
  let result fee quote :=
    {| q_fee := fee; q_quote := quote;
       q_amountOutMin := UniswapTrader.amountOutMinFor quote 5 |} in
  UniswapTrader.feeTiers = [3000; 500; 10000]
  /\ (forall q1 w1,
         quoteAt 3000 w = (Ok q1, w1) ->
         UniswapTrader.findBestFeeAndQuote tokenAddress amount w
         = (Ok (result 3000 q1), w1, [asked 3000]))
  /\ (forall e1 w1 q2 w2,
         quoteAt 3000 w = (Throw e1, w1) ->
         quoteAt 500 w1 = (Ok q2, w2) ->
         UniswapTrader.findBestFeeAndQuote tokenAddress amount w
         = (Ok (result 500 q2), w2, [asked 3000; asked 500]))
  /\ (forall e1 w1 e2 w2 q3 w3,
         quoteAt 3000 w = (Throw e1, w1) ->
         quoteAt 500 w1 = (Throw e2, w2) ->
         quoteAt 10000 w2 = (Ok q3, w3) ->
         UniswapTrader.findBestFeeAndQuote tokenAddress amount w
         = (Ok (result 10000 q3), w3, [asked 3000; asked 500; asked 10000]))
  /\ (forall e1 w1 e2 w2 e3 w3,
         quoteAt 3000 w = (Throw e1, w1) ->
         quoteAt 500 w1 = (Throw e2, w2) ->
         quoteAt 10000 w2 = (Throw e3, w3) ->
         UniswapTrader.findBestFeeAndQuote tokenAddress amount w
         = (Throw (ErrorObject
                     ("No liquidity found for WETH -> " +++ tokenAddress
                      +++ " on any fee tier")),
            w3, [asked 3000; asked 500; asked 10000])).
Proof.
  cbv zeta. unfold UniswapTrader.findBestFeeAndQuote, UniswapTrader.feeTiers.
  split; [reflexivity |].
  repeat split; intros;
    repeat (rewrite findBestFeeAndQuoteFrom_cons;
            match goal with
            | E : ?q = _ |- context [match ?q with _ => _ end] => rewrite E
            end);
    reflexivity.
Qed.

End QuoteEngine.

(** ** Balance-safe sizing *)

Section SafeSizing.
Context {W : Type} `{Provider W} `{Ethers}.

(** The binary search never throws: a failing quote only moves [low]. *)
Lemma searchEthAmount_total tokenAddress target fee n :
  forall low high best (w : W),
  exists v w' t,
    UniswapTrader.searchEthAmount tokenAddress target fee n low high best w
    = (Ok v, w', t).
Proof.
  induction n as [| n IH]; intros low high best w.
  - cbn. apply ret_total.
  - cbn [UniswapTrader.searchEthAmount]. apply bind_total.
    + apply try_catch_total. intros; apply ret_total.
    + intros [[low' high'] best'] w1. apply IH.
Qed.

Lemma calculateEthForTokenAmount_total tokenAddress target (w : W) :
  exists ethNeeded w' t,
    UniswapTrader.calculateEthForTokenAmount tokenAddress target w
    = (Ok (ethNeeded, 3000), w', t).
Proof.
  unfold UniswapTrader.calculateEthForTokenAmount, UniswapTrader.feeTiers.
  cbn [UniswapTrader.calculateEthForTokenAmountFrom].
  unfold try_catch, bind.
  destruct (searchEthAmount_total tokenAddress target 3000 20
              (ether / 1000) (ether / 10) (ether / 10) w)
    as (v & w1 & t1 & E).
  rewrite E. cbn. eauto.
Qed.

(** C1. Let [G] be the reserve computed from the gas configuration for
    200000 gas at standard urgency plus the 0.0002 buffer. When
    [B <= G], [calculateSafeTradeAmount] throws the insufficient-balance
    error. When [B > G] and a target output is given, it returns the
    input found by the quote inversion capped at [B - G], with
    [gasReserve = G]. When [B > G] and no target is given (or the
    target is 0), it returns [tradeAmount = B - G] with [gasReserve = G]
    if [findBestFeeAndQuote] finds a tier for that amount, and otherwise
    throws the no-liquidity error of [findBestFeeAndQuote]. Whenever it
    returns, [B > G], [gasReserve = G] and
    [tradeAmount + gasReserve <= B]. *)
Theorem calculateSafeTradeAmount_reserves_gas
        (tokenAddress : string) (B : Z) (target : option Z) (w : W)
        (gasConfig : GasConfig) (w1 : W) (t1 : list Event) :
  let gasManager :=
    createGasManager match detectedChainId w with
                     | Some c => c
                     | None => 1
                     end in
  let G := UniswapTrader.totalReserveOf gasConfig in
  let run := UniswapTrader.calculateSafeTradeAmount tokenAddress B target w in
  GasManager.getGasConfig gasManager 200000 standard w
  = (Ok gasConfig, w1, t1) ->
  (B <= G ->
     run = (Throw (ErrorObject
                     ("Insufficient ETH. Need at least " +++ formatEther G
                      +++ " for gas + buffer")), w1, t1))
  /\ (G < B -> JS.truthy target = true ->
        exists ethNeeded w2 t2,
          UniswapTrader.calculateEthForTokenAmount
            tokenAddress match target with Some x => x | None => 0 end w1
          = (Ok (ethNeeded, 3000), w2, t2)
          /\ run = (Ok {| tradeAmount := Z.min ethNeeded (B - G);
                          s_fee := 3000; gasReserve := G |},
                    w2, (t1 ++ t2)%list)
          /\ Z.min ethNeeded (B - G) + G <= B)
  /\ (G < B -> JS.truthy target = false ->
        (forall q w2 t2,
            UniswapTrader.findBestFeeAndQuote tokenAddress (B - G) w1
            = (Ok q, w2, t2) ->
            run = (Ok {| tradeAmount := B - G; s_fee := q_fee q;
                         gasReserve := G |}, w2, (t1 ++ t2)%list))
        /\ (forall e w2 t2,
               UniswapTrader.findBestFeeAndQuote tokenAddress (B - G) w1
               = (Throw e, w2, t2) ->
               e = ErrorObject
                     ("No liquidity found for WETH -> " +++ tokenAddress
                      +++ " on any fee tier")
               /\ run = (Throw e, w2, (t1 ++ t2)%list)))
  /\ (forall safeTrade w2 t2,
         run = (Ok safeTrade, w2, t2) ->
         G < B /\ gasReserve safeTrade = G
         /\ tradeAmount safeTrade + gasReserve safeTrade <= B).
Proof.
  cbv zeta. intros Hgas.
  set (G := UniswapTrader.totalReserveOf gasConfig).
  unfold UniswapTrader.calculateSafeTradeAmount.
  rewrite (bind_Ok thisGasManager _ w _ w [] eq_refl).
  rewrite (bind_Ok _ _ w gasConfig w1 t1 Hgas).
  cbv beta zeta. fold G. cbn [app].
  split; [| split; [| split]].
  4:{ intros safeTrade w2 t2.
      destruct (Z.leb_spec B G) as [HB | HB]; [intros [=] |].
      destruct (JS.truthy target).
      - destruct (calculateEthForTokenAmount_total tokenAddress
                    match target with Some t => t | None => 0 end w1)
          as (ethNeeded & w3 & t3 & E).
        rewrite (bind_Ok _ _ w1 _ w3 t3 E).
        destruct (Z.gtb_spec ethNeeded (B - G));
          intros [= <- _ _]; cbn [tradeAmount gasReserve];
          repeat split; lia.
      - destruct (UniswapTrader.findBestFeeAndQuote tokenAddress (B - G) w1)
          as [[[e | q] w3] t3] eqn:E.
        + rewrite (bind_Throw _ _ w1 _ w3 t3 E). intros [=].
        + rewrite (bind_Ok _ _ w1 _ w3 t3 E).
          intros [= <- _ _]. cbn [tradeAmount gasReserve].
          repeat split; lia. }
  - intros HB. apply Z.leb_le in HB. rewrite HB.
    unfold throw. cbn. rewrite app_nil_r. reflexivity.
  - intros HB Ht. apply Z.leb_gt in HB. rewrite HB, Ht.
    destruct (calculateEthForTokenAmount_total tokenAddress
                match target with Some t => t | None => 0 end w1)
      as (ethNeeded & w2 & t2 & E).
    rewrite (bind_Ok _ _ w1 _ w2 t2 E). apply Z.leb_gt in HB.
    exists ethNeeded, w2, t2. split; [exact E |]. split; [| lia].
    destruct (Z.gtb_spec ethNeeded (B - G)); cbn; rewrite app_nil_r.
    + rewrite Z.min_r by lia. reflexivity.
    + rewrite Z.min_l by lia. reflexivity.
  - intros HB Ht. apply Z.leb_gt in HB. rewrite HB, Ht.
    split.
    + intros q w2 t2 E. rewrite (bind_Ok _ _ w1 _ w2 t2 E). cbn.
      rewrite app_nil_r. reflexivity.
    + intros e w2 t2 E. split.
      * apply (findBestFeeAndQuoteFrom_outcome _ _ _ _ _ _ _ E).
      * rewrite (bind_Throw _ _ w1 _ w2 t2 E). reflexivity.
Qed.

End SafeSizing.

(** ** What the executors emit *)

Section Emits.
Context {W : Type} `{Provider W} `{Ethers}.
Variable P : Event -> Prop.

Lemma emits_ret {A} (a : A) : emits (W := W) P (ret a).
Proof. intros w r w' t [= _ _ <-]. constructor. Qed.

Lemma emits_throw {A} (e : string) : emits (W := W) (A := A) P (throw e).
Proof. intros w r w' t [= _ _ <-]. constructor. Qed.

Lemma emits_rethrow {A} (e : Thrown) : emits (W := W) (A := A) P (rethrow e).
Proof. intros w r w' t [= _ _ <-]. constructor. Qed.

Lemma emits_lift {A} (x : Result A) : emits (W := W) P (lift x).
Proof. intros w r w' t [= _ _ <-]. constructor. Qed.

Lemma emits_now : emits (W := W) P now.
Proof. intros w r w' t [= _ _ <-]. constructor. Qed.

Lemma emits_thisGasManager : emits (W := W) P thisGasManager.
Proof. intros w r w' t [= _ _ <-]. constructor. Qed.

Lemma emits_perform {A} (e : Event) (f : W -> Result A * W) :
  P e -> emits P (perform e f).
Proof.
  intros He w r w' t. unfold perform. destruct (f w).
  intros [= _ _ <-]. auto.
Qed.

Lemma emits_sleep (ms : Z) : P (Sleep ms) -> emits (W := W) P (sleep ms).
Proof. intros He w r w' t [= _ _ <-]. auto. Qed.

Lemma emits_bind {A B} (m : M W A) (k : A -> M W B) :
  emits P m -> (forall a, emits P (k a)) -> emits P (bind m k).
Proof.
  intros Hm Hk w r w' t. unfold bind.
  destruct (m w) as [[[e | a] w1] t1] eqn:E.
  - intros [= _ _ <-]. exact (Hm _ _ _ _ E).
  - destruct (k a w1) as [[r2 w2] t2] eqn:E2. intros [= _ _ <-].
    apply Forall_app. split; [exact (Hm _ _ _ _ E) | exact (Hk _ _ _ _ _ E2)].
Qed.

Lemma emits_try_catch {A} (m : M W A) (h : Thrown -> M W A) :
  emits P m -> (forall e, emits P (h e)) -> emits P (try_catch m h).
Proof.
  intros Hm Hh w r w' t. unfold try_catch.
  destruct (m w) as [[[e | a] w1] t1] eqn:E.
  - destruct (h e w1) as [[r2 w2] t2] eqn:E2. intros [= _ _ <-].
    apply Forall_app. split; [exact (Hm _ _ _ _ E) | exact (Hh _ _ _ _ _ E2)].
  - intros [= _ _ <-]. exact (Hm _ _ _ _ E).
Qed.

Lemma emits_attemptLoop {A} (body : Z -> M W A) delay maxRetries n :
  (forall i, emits P (body i)) -> (forall ms, P (Sleep ms)) ->
  forall attempt lastError,
    emits P (attemptLoop body delay maxRetries n attempt lastError).
Proof.
  intros Hbody Hsleep. induction n as [| n IH]; intros attempt lastError.
  - apply emits_ret.
  - intros w r w' t. cbn [attemptLoop].
    destruct (body attempt w) as [[[e | a] w1] t1] eqn:E.
    + match goal with
      | |- context [bind ?m ?k w1] =>
          destruct (bind m k w1) as [[r2 w2] t2] eqn:E2
      end.
      intros [= _ _ <-]. apply Forall_app. split; [exact (Hbody _ _ _ _ _ E) |].
      revert E2. apply emits_bind.
      * destruct (attempt <? maxRetries);
          [apply emits_sleep, Hsleep | apply emits_ret].
      * intros _. apply IH.
    + intros [= _ _ <-]. exact (Hbody _ _ _ _ _ E).
Qed.

Lemma emits_estimateGasLoop c value retries n :
  P (RpcEstimateGas c value) -> (forall ms, P (Sleep ms)) ->
  forall i lastError,
    emits (W := W) P
          (GasManager.estimateGasLoop c value retries n i lastError).
Proof.
  intros Hc Hsleep. induction n as [| n IH]; intros i lastError.
  - apply emits_throw.
  - intros w r w' t. cbn [GasManager.estimateGasLoop].
    destruct (perform (RpcEstimateGas c value) (estimateGas c value) w)
      as [[[e | a] w1] t1] eqn:E.
    + match goal with
      | |- context [bind ?m ?k w1] =>
          destruct (bind m k w1) as [[r2 w2] t2] eqn:E2
      end.
      intros [= _ _ <-]. apply Forall_app. split.
      * revert E. apply emits_perform, Hc.
      * revert E2. apply emits_bind.
        -- destruct (i <? retries - 1);
             [apply emits_sleep, Hsleep | apply emits_ret].
        -- intros _. apply IH.
    + intros [= _ _ <-]. revert E. apply emits_perform, Hc.
Qed.

(** A single estimation attempt ([retries = 1]) never waits. *)
Lemma emits_estimateGasOnce c value :
  P (RpcEstimateGas c value) ->
  emits (W := W) P (GasManager.estimateGasWithRetry c value 1).
Proof.
  intros Hc w r w' t. unfold GasManager.estimateGasWithRetry.
  change (Z.to_nat 1) with 1%nat. cbn [GasManager.estimateGasLoop].
  unfold perform. destruct (estimateGas c value w) as [[e | a] w1].
  - cbn. intros [= _ _ <-]. auto.
  - intros [= _ _ <-]. auto.
Qed.

End Emits.

(** Side conditions of the [emits] lemmas. *)
Ltac emits_side :=
  first [ exact I | reflexivity | assumption
        | match goal with
          | HP : forall e, _ -> ?P e |- ?P _ => apply HP; exact I
          | HP : forall ms, ?P (Sleep ms) |- ?P _ => apply HP
          end ].

Ltac emits_step :=
  match goal with
  | |- emits _ (bind _ _) => apply emits_bind; [| intros]
  | |- emits _ (try_catch _ _) => apply emits_try_catch; [| intros]
  | |- emits _ (ret _) => apply emits_ret
  | |- emits _ (throw _) => apply emits_throw
  | |- emits _ (rethrow _) => apply emits_rethrow
  | |- emits _ (lift _) => apply emits_lift
  | |- emits _ now => apply emits_now
  | |- emits _ thisGasManager => apply emits_thisGasManager
  | |- emits _ (perform _ _) => apply emits_perform; emits_side
  | |- emits _ (sleep _) => apply emits_sleep; emits_side
  | |- emits _ (if ?c then _ else _) => destruct c
  | |- emits _ (match ?x with _ => _ end) => destruct x
  end.

Ltac emits_auto := repeat emits_step.

Lemma emits_getGasConfig_requests {W : Type} `{Provider W} `{Ethers}
      (P : Event -> Prop) s g u :
  P RpcGetFeeData -> P RpcGetBlock ->
  emits (W := W) P (GasManager.getGasConfig s g u).
Proof.
  intros Hfee Hblock.
  unfold GasManager.getGasConfig, GasManager.getLegacyGasPrice,
    GasManager.getEIP1559FeeData.
  emits_auto.
Qed.

Section ExecutorTraces.
Context {W : Type} `{Provider W} `{Ethers}.
Variable P : Event -> Prop.
Hypothesis rpc_in_P : forall e, is_rpc e -> P e.

Lemma emits_getGasConfig s g u :
  emits (W := W) P (GasManager.getGasConfig s g u).
Proof.
  unfold GasManager.getGasConfig, GasManager.getLegacyGasPrice,
    GasManager.getEIP1559FeeData.
  emits_auto.
Qed.

Lemma emits_findBestFeeAndQuoteFrom tiers tokenAddress amount :
  emits (W := W) P
        (UniswapTrader.findBestFeeAndQuoteFrom tiers tokenAddress amount).
Proof.
  induction tiers as [| fee rest IH];
    cbn [UniswapTrader.findBestFeeAndQuoteFrom];
    unfold UniswapTrader.getQuote; emits_auto. exact IH.
Qed.

Lemma emits_swapEthForTokenSimpleAttempt this tokenAddress ethAmount
      slippage attempt :
  emits (W := W) P
        (UniswapTrader.swapEthForTokenSimpleAttempt this tokenAddress
           ethAmount slippage attempt).
Proof.
  unfold UniswapTrader.swapEthForTokenSimpleAttempt.
  emits_auto;
    first [ apply emits_findBestFeeAndQuoteFrom
          | apply emits_estimateGasOnce, rpc_in_P; exact I
          | apply emits_getGasConfig ].
Qed.

End ExecutorTraces.

(** ** Retry policy of the executors *)

Lemma sleeps_of_rpc (t : list Event) : Forall is_rpc t -> sleeps t = [].
Proof.
  induction 1 as [| e t He _ IH]; [reflexivity |].
  destruct e; cbn in *; try contradiction; exact IH.
Qed.

Lemma sleeps_app (t1 t2 : list Event) :
  sleeps (t1 ++ t2) = (sleeps t1 ++ sleeps t2)%list.
Proof.
  induction t1 as [| e t1 IH]; [reflexivity |].
  destruct e; cbn; rewrite ?IH; reflexivity.
Qed.

Section RetryPolicy.
Context {W : Type} `{Provider W} `{Ethers}.

(** One iteration of the attempt loop. *)
Lemma attemptLoop_step {A} (body : Z -> M W A) delay maxRetries n attempt
      lastError (w : W) :
  attemptLoop body delay maxRetries (S n) attempt lastError w
  = match body attempt w with
    | (Ok a, w1, t1) => (Ok (inl a), w1, t1)
    | (Throw e, w1, t1) =>
        let '(r, w2, t2) :=
          ((if attempt <? maxRetries then sleep (delay attempt) else ret tt) ;;
           attemptLoop body delay maxRetries n (attempt + 1)
                       (Some (messageOf e))) w1 in
        (r, w2, (t1 ++ t2)%list)
    end.
Proof. reflexivity. Qed.

(** The loop itself never throws. *)
Lemma attemptLoop_returns {A} (body : Z -> M W A) delay maxRetries n :
  forall attempt lastError (w : W),
  exists x w' t,
    attemptLoop body delay maxRetries n attempt lastError w = (Ok x, w', t).
Proof.
  induction n as [| n IH]; intros attempt lastError w.
  - cbn. apply ret_total.
  - rewrite attemptLoop_step.
    destruct (body attempt w) as [[[e | a] w1] t1]; [| eauto].
    unfold bind at 1.
    destruct (attempt <? maxRetries).
    + unfold sleep at 1.
      destruct (IH (attempt + 1) (Some (messageOf e))
                   (setTimeout (delay attempt) w1))
        as (x & w2 & t2 & E).
      rewrite E. eauto.
    + unfold ret at 1.
      destruct (IH (attempt + 1) (Some (messageOf e)) w1)
        as (x & w2 & t2 & E).
      rewrite E. eauto.
Qed.

(** Both executors always return a result; they never throw. *)
Lemma primary_swap_returns this tokenAddress ethAmount slippage (w : W) :
  exists res w' t,
    UniswapTrader.swapEthForToken this tokenAddress ethAmount slippage w
    = (Ok res, w', t).
Proof.
  unfold UniswapTrader.swapEthForToken, UniswapTrader.swapEthForTokenSimple.
  cbv zeta. apply bind_total.
  - intros w0. apply attemptLoop_returns.
  - intros [res | lastError] w0; apply ret_total.
Qed.

Lemma fallback_swap_returns this tokenAddress ethAmount slippage (w : W) :
  exists res w' t,
    SimpleSwapper.swapEthForToken this tokenAddress ethAmount slippage w
    = (Ok res, w', t).
Proof.
  unfold SimpleSwapper.swapEthForToken.
  cbv zeta. apply bind_total.
  - intros w0. apply attemptLoop_returns.
  - intros [res | lastError] w0; apply ret_total.
Qed.

(** The two-attempt loop of the primary executor, case by case. *)
Lemma swapEthForTokenSimple_cases this tokenAddress ethAmount slippage
      (w : W) :
  UniswapTrader.swapEthForTokenSimple this tokenAddress ethAmount slippage w
  = match UniswapTrader.swapEthForTokenSimpleAttempt
            this tokenAddress ethAmount slippage 1 w with
    | (Ok res, w1, t1) => (Ok res, w1, t1)
    | (Throw _, w1, t1) =>
        match UniswapTrader.swapEthForTokenSimpleAttempt
                this tokenAddress ethAmount slippage 2
                (setTimeout 1000 w1) with
        | (Ok res, w2, t2) => (Ok res, w2, (t1 ++ Sleep 1000 :: t2)%list)
        | (Throw e2, w2, t2) =>
            (Ok (swapFailed ("After 2 attempts: " +++ messageOf e2)), w2,
             (t1 ++ Sleep 1000 :: t2)%list)
        end
    end.
Proof.
  unfold UniswapTrader.swapEthForTokenSimple. cbv zeta.
  change (Z.to_nat 2) with 2%nat.
  unfold bind at 1. rewrite attemptLoop_step.
  destruct (UniswapTrader.swapEthForTokenSimpleAttempt
              this tokenAddress ethAmount slippage 1 w)
    as [[[e1 | res] w1] t1].
  - unfold bind at 1. change (1 <? 2) with true. cbv iota.
    unfold sleep at 1. change (1 + 1) with 2. rewrite attemptLoop_step.
    destruct (UniswapTrader.swapEthForTokenSimpleAttempt
                this tokenAddress ethAmount slippage 2 (setTimeout 1000 w1))
      as [[[e2 | res] w2] t2].
    + cbn. rewrite !app_nil_r. reflexivity.
    + cbn. rewrite !app_nil_r. reflexivity.
  - cbn. rewrite app_nil_r. reflexivity.
Qed.

(** C2 (amended). The primary executor the orchestrator calls,
    [UniswapTrader.swapEthForToken], makes at most 2 attempts: it returns
    the first attempt's result if that attempt succeeds; otherwise it
    waits a fixed 1000 ms and makes a second attempt, returning its
    result or, if it fails too, the failure
    ["After 2 attempts: <last error>"]. No attempt waits on its own, so
    the timer waits of a call are none or one wait of 1000 ms. Every
    failure class is retried, address validation included: for an
    invalid address the call waits 1000 ms once and fails after two
    attempts without any request to the chain. *)
Theorem primary_swap_two_attempts_fixed_delay
        (this : Trader) (tokenAddress ethAmount : string) (slippage : float)
        (w : W) :
  let attempt := UniswapTrader.swapEthForTokenSimpleAttempt
                   this tokenAddress ethAmount slippage in
  let run := UniswapTrader.swapEthForToken this tokenAddress ethAmount
                                           slippage w in
  (forall res w1 t1,
      attempt 1 w = (Ok res, w1, t1) -> run = (Ok res, w1, t1))
  /\ (forall e1 w1 t1 res w2 t2,
         attempt 1 w = (Throw e1, w1, t1) ->
         attempt 2 (setTimeout 1000 w1) = (Ok res, w2, t2) ->
         run = (Ok res, w2, (t1 ++ Sleep 1000 :: t2)%list))
  /\ (forall e1 w1 t1 e2 w2 t2,
         attempt 1 w = (Throw e1, w1, t1) ->
         attempt 2 (setTimeout 1000 w1) = (Throw e2, w2, t2) ->
         run = (Ok (swapFailed ("After 2 attempts: " +++ messageOf e2)), w2,
                (t1 ++ Sleep 1000 :: t2)%list))
  /\ (forall n w0 r w' t, attempt n w0 = (r, w', t) -> sleeps t = [])
  /\ (sleeps (snd run) = [] \/ sleeps (snd run) = [1000])
  /\ (isAddress tokenAddress = false ->
      run = (Ok (swapFailed ("After 2 attempts: Invalid token address: "
                             +++ tokenAddress)),
             setTimeout 1000 w, [Sleep 1000])).
Proof.
  cbv zeta. unfold UniswapTrader.swapEthForToken.
  rewrite swapEthForTokenSimple_cases.
  assert (Hquiet : forall n w0 r w' t,
             UniswapTrader.swapEthForTokenSimpleAttempt
               this tokenAddress ethAmount slippage n w0 = (r, w', t) ->
             sleeps t = []).
  { intros n w0 r w' t E. apply sleeps_of_rpc.
    revert E. apply emits_swapEthForTokenSimpleAttempt. auto. }
  split; [| split; [| split; [| split; [| split]]]].
  - intros res w1 t1 E. rewrite E. reflexivity.
  - intros e1 w1 t1 res w2 t2 E1 E2. rewrite E1, E2. reflexivity.
  - intros e1 w1 t1 e2 w2 t2 E1 E2. rewrite E1, E2. reflexivity.
  - exact Hquiet.
  - destruct (UniswapTrader.swapEthForTokenSimpleAttempt
                this tokenAddress ethAmount slippage 1 w)
      as [[[e1 | res] w1] t1] eqn:E1.
    + destruct (UniswapTrader.swapEthForTokenSimpleAttempt
                  this tokenAddress ethAmount slippage 2 (setTimeout 1000 w1))
        as [[[e2 | res] w2] t2] eqn:E2;
        right; cbn [snd]; rewrite sleeps_app; cbn [sleeps];
        rewrite (Hquiet _ _ _ _ _ E1), (Hquiet _ _ _ _ _ E2); reflexivity.
    + left. cbn [snd]. exact (Hquiet _ _ _ _ _ E1).
  - intros Haddr.
    assert (E : forall n w0,
               UniswapTrader.swapEthForTokenSimpleAttempt
                 this tokenAddress ethAmount slippage n w0
               = (Throw (ErrorObject
                           ("Invalid token address: " +++ tokenAddress)),
                  w0, [])).
    { intros n w0. unfold UniswapTrader.swapEthForTokenSimpleAttempt.
      rewrite Haddr. reflexivity. }
    rewrite !E. reflexivity.
Qed.

(** C7 (amended). For a valid token address and an input amount that
    parses to less than 0.0015 ether, [SimpleSwapper.swapEthForToken]
    makes no request to the chain and returns the failure
    ["After 3 attempts: Trade amount too small: ..."], after running all
    three attempts with waits of 2000 ms and 4000 ms between them. *)
Theorem fallback_swap_below_minimum
        (this : Trader) (tokenAddress ethAmount : string) (slippage : float)
        (wei : Z) (w : W) :
  isAddress tokenAddress = true ->
  parseEther ethAmount = Ok wei ->
  wei < SimpleSwapper.minTradeAmount ->
  SimpleSwapper.swapEthForToken this tokenAddress ethAmount slippage w
  = (Ok (swapFailed
           ("After 3 attempts: Trade amount too small: " +++ ethAmount
            +++ " ETH (minimum: 0.0015 ETH for reliable DEX swaps)")),
     setTimeout 4000 (setTimeout 2000 w),
     [Sleep 2000; Sleep 4000])
  /\ SimpleSwapper.minTradeAmount = 1500000000000000
  /\ filter is_network_call
            (snd (SimpleSwapper.swapEthForToken this tokenAddress ethAmount
                                                slippage w)) = [].
Proof.
  intros Haddr Hparse Hsmall.
  assert (E : forall n w0,
             SimpleSwapper.swapEthForTokenAttempt
               this tokenAddress ethAmount slippage n w0
             = (Throw (ErrorObject
                         ("Trade amount too small: " +++ ethAmount
                          +++ " ETH (minimum: 0.0015 ETH for reliable DEX swaps)")),
                w0, [])).
  { intros n w0. unfold SimpleSwapper.swapEthForTokenAttempt.
    rewrite Haddr. cbn [negb].
    unfold bind at 1. unfold ret at 1.
    unfold bind at 1. unfold lift at 1. rewrite Hparse.
    apply Z.ltb_lt in Hsmall. rewrite Hsmall. reflexivity. }
  assert (R : SimpleSwapper.swapEthForToken this tokenAddress ethAmount
                                            slippage w
              = (Ok (swapFailed
                       ("After 3 attempts: Trade amount too small: "
                        +++ ethAmount
                        +++ " ETH (minimum: 0.0015 ETH for reliable DEX swaps)")),
                 setTimeout 4000 (setTimeout 2000 w),
                 [Sleep 2000; Sleep 4000])).
  { unfold SimpleSwapper.swapEthForToken. cbv zeta.
    change (Z.to_nat 3) with 3%nat.
    unfold bind at 1.
    rewrite attemptLoop_step, E. unfold bind at 1.
    change (1 <? 3) with true. cbv iota. unfold sleep at 1.
    change (1 + 1) with 2.
    rewrite attemptLoop_step, E. unfold bind at 1.
    change (2 <? 3) with true. cbv iota. unfold sleep at 1.
    change (2 + 1) with 3.
    rewrite attemptLoop_step, E. unfold bind at 1.
    change (3 <? 3) with false. cbv iota.
    reflexivity. }
  rewrite R. repeat split.
Qed.

(** C10. Neither executor's behaviour depends on the [slippage]
    argument: two calls that differ only in it produce the same result,
    the same final chain state and the same trace, hence the same
    submitted transactions. The minimum output the primary venue
    submits is the 5% bound of the quote [findBestFeeAndQuote] obtained,
    and every gas estimate and submission of the fallback venue asks for
    a minimum output of 0. *)
Theorem swap_executors_ignore_slippage
        (this : Trader) (tokenAddress ethAmount : string)
        (slippage1 slippage2 : float) (w : W) :
  UniswapTrader.swapEthForToken this tokenAddress ethAmount slippage1 w
  = UniswapTrader.swapEthForToken this tokenAddress ethAmount slippage2 w
  /\ SimpleSwapper.swapEthForToken this tokenAddress ethAmount slippage1 w
     = SimpleSwapper.swapEthForToken this tokenAddress ethAmount slippage2 w
  /\ (forall amount q w' t,
         UniswapTrader.findBestFeeAndQuote tokenAddress amount w
         = (Ok q, w', t) ->
         q_amountOutMin q = UniswapTrader.amountOutMinFor (q_quote q) 5)
  /\ emits (W := W) accepts_any_output
           (SimpleSwapper.swapEthForToken this tokenAddress ethAmount
                                          slippage1).
Proof.
  split; [| split; [| split]].
  - unfold UniswapTrader.swapEthForToken, UniswapTrader.swapEthForTokenSimple.
    reflexivity.
  - unfold SimpleSwapper.swapEthForToken. reflexivity.
  - intros amount q w' t E.
    apply (findBestFeeAndQuoteFrom_outcome _ _ _ _ _ _ _ E).
  - unfold SimpleSwapper.swapEthForToken. cbv zeta. apply emits_bind.
    + apply emits_attemptLoop; [| intros ms; exact I].
      intros i. unfold SimpleSwapper.swapEthForTokenAttempt.
      emits_auto;
        first [ apply emits_estimateGasLoop;
                [reflexivity | intros ms; exact I]
              | apply emits_getGasConfig_requests; exact I ].
    + intros [res | lastError]; apply emits_ret.
Qed.

End RetryPolicy.

(** ** The orchestrator *)

Section OrchestratorRuns.
Context {W : Type} `{Provider W} `{Ethers} `{Collaborators W}.

Lemma bind_ret {A B} (a : A) (k : A -> M W B) (w : W) :
  bind (ret a) k w = k a w.
Proof. unfold bind, ret. now destruct (k a w) as [[? ?] ?]. Qed.

Lemma bind_throw {A B} (e : string) (k : A -> M W B) (w : W) :
  bind (throw e) k w = (Throw (ErrorObject e), w, []).
Proof. reflexivity. Qed.

Lemma getEthBalance_run (this : Trader) (w : W) :
  UniswapTrader.getEthBalance this w
  = (Ok match fst (getBalance (signerAddress this) w) with
        | Ok b => formatEther b
        | Throw _ => "0"
        end,
     snd (getBalance (signerAddress this) w),
     [RpcGetBalance (signerAddress this)]).
Proof.
  unfold UniswapTrader.getEthBalance, try_catch, bind, perform.
  destruct (getBalance (signerAddress this) w) as [[e | b] w1]; reflexivity.
Qed.

Lemma bind_pure {A B} (m : M W A) (k : A -> M W B) (w : W) a :
  m w = (Ok a, w, []) -> bind m k w = k a w.
Proof.
  intros E. unfold bind. rewrite E. now destruct (k a w) as [[? ?] ?].
Qed.

Lemma bind_inv {A B} (m : M W A) (k : A -> M W B) (w : W) a w1 t1 r w2 t :
  m w = (Ok a, w1, t1) -> bind m k w = (r, w2, t) ->
  exists t2, k a w1 = (r, w2, t2) /\ t = t1 ++ t2.
Proof.
  intros E. unfold bind. rewrite E. destruct (k a w1) as [[? ?] ?].
  intros [= -> -> <-]. eauto.
Qed.

Lemma initializeNetwork_run (w : W) :
  initializeNetwork w = (Ok tt, snd (getNetwork w), [RpcGetNetwork]).
Proof.
  unfold initializeNetwork, try_catch, bind, perform.
  destruct (getNetwork w) as [[e | chainId] w1]; reflexivity.
Qed.

Lemma createUniswapTrader_run rpcUrl privateKey (w : W) :
  Trading.createUniswapTrader rpcUrl privateKey w
  = match Wallet_address privateKey with
    | Ok signer =>
        (Ok {| signerAddress := signer |}, snd (getNetwork w),
         [RpcGetNetwork])
    | Throw e => (Throw e, w, [])
    end.
Proof.
  unfold Trading.createUniswapTrader, bind, lift, ret.
  rewrite initializeNetwork_run.
  destruct (Wallet_address privateKey); reflexivity.
Qed.

Lemma createSimpleSwapper_run rpcUrl privateKey (w : W) :
  Trading.createSimpleSwapper rpcUrl privateKey w
  = match Wallet_address privateKey with
    | Ok signer =>
        (Ok {| signerAddress := signer |}, snd (getNetwork w),
         [RpcGetNetwork])
    | Throw e => (Throw e, w, [])
    end.
Proof.
  unfold Trading.createSimpleSwapper, bind, lift, ret.
  rewrite initializeNetwork_run.
  destruct (Wallet_address privateKey); reflexivity.
Qed.

Lemma invoke_run v a m sl (w : W) :
  Trading.invoke v a m sl w = (Ok tt, w, [Invoke v a m sl]).
Proof. reflexivity. Qed.

Lemma toast_run c (w : W) : Trading.toast c w = (Ok tt, w, [Toast c]).
Proof. reflexivity. Qed.

(** The runs of the DEX-routed trade: a check before the swap fails and
    the trade throws, or the primary venue is called and, if it fails,
    the fallback venue. *)
Lemma ethereum_trade_shape config request tokenInfo amount position
      (w : W) r w' t :
  Trading.executeEthereumNetworkTrade config request tokenInfo amount
                                      position w = (r, w', t) ->
  let addr := address tokenInfo in
  let amt := Number_toString amount in
  let slip := maxSlippage config in
  ((forall signer, ~ ready_to_swap config tokenInfo amount signer w)
   /\ (t = [] \/ t = [RpcGetNetwork]
       \/ exists signer, t = [RpcGetNetwork; RpcGetBalance signer])
   /\ exists e, r = Throw e)
  \/ exists signer res1 w1 t1,
      ready_to_swap config tokenInfo amount signer w
      /\ UniswapTrader.swapEthForToken {| signerAddress := signer |}
           addr amt slip (snd (getBalance signer (snd (getNetwork w))))
         = (Ok res1, w1, t1)
      /\ ((success res1 = true
           /\ exists c, t = RpcGetNetwork :: RpcGetBalance signer
                           :: Invoke UniswapV3 addr amt slip
                           :: t1 ++ [Toast c; SavePosition position])
          \/ (success res1 = false
              /\ exists res2 w2 t2,
                  SimpleSwapper.swapEthForToken {| signerAddress := signer |}
                    addr amt slip (snd (getNetwork w1)) = (Ok res2, w2, t2)
                  /\ ((success res2 = true
                       /\ exists c,
                           t = RpcGetNetwork :: RpcGetBalance signer
                               :: Invoke UniswapV3 addr amt slip
                               :: t1 ++ RpcGetNetwork
                               :: Invoke UniswapV2 addr amt slip
                               :: t2 ++ [Toast c; SavePosition position])
                      \/ (success res2 = false
                          /\ r = Throw (ErrorObject
                                         ("DEX swap failed: "
                                          +++ Trading.errorText res2))
                          /\ w' = w2
                          /\ t = RpcGetNetwork :: RpcGetBalance signer
                                 :: Invoke UniswapV3 addr amt slip
                                 :: t1 ++ RpcGetNetwork
                                 :: Invoke UniswapV2 addr amt slip
                                 :: t2)))).
Proof.
  cbv zeta. unfold Trading.executeEthereumNetworkTrade.
  rewrite try_catch_rethrow.
  assert (Hstop : forall (e : Thrown) (t0 : list Event),
             (forall signer, ~ ready_to_swap config tokenInfo amount signer w) ->
             t0 = [] \/ t0 = [RpcGetNetwork]
             \/ (exists signer, t0 = [RpcGetNetwork; RpcGetBalance signer]) ->
             (forall signer, ~ ready_to_swap config tokenInfo amount signer w)
             /\ (t0 = [] \/ t0 = [RpcGetNetwork]
                 \/ exists signer, t0 = [RpcGetNetwork; RpcGetBalance signer])
             /\ exists e0 : Thrown, @Throw unit e = Throw e0).
  { intros e t0 Hn Ht. split; [exact Hn |]. split; [exact Ht | eauto]. }
  destruct (chainType (network tokenInfo)) eqn:Ect.
  { rewrite bind_throw. intros [= <- _ <-]. left. apply Hstop; [| auto].
    intros s (Hc & _). congruence. }
  rewrite bind_ret.
  destruct (enabled (hybrid_ethereum config)) eqn:Een; cbn [negb].
  2:{ rewrite bind_throw. intros [= <- _ <-]. left. apply Hstop; [| auto].
      intros s (_ & Hc & _). congruence. }
  rewrite bind_ret.
  destruct (if (n_id (network tokenInfo) =? "ethereum-mainnet")%string
            then Trading.env "ETHEREUM_MAINNET_RPC_URL"
            else Trading.env "ETHEREUM_TESTNET_RPC_URL") as [rpcUrl |] eqn:Eurl.
  2:{ rewrite bind_throw. intros [= <- _ <-]. left. apply Hstop; [| auto].
      intros s (_ & _ & Hc & _). now apply Hc. }
  rewrite bind_ret.
  destruct (Trading.env "ETHEREUM_PRIVATE_KEY") as [privateKey |] eqn:Eenv.
  2:{ rewrite bind_throw. intros [= <- _ <-]. left. apply Hstop; [| auto].
      intros s (_ & _ & _ & (pk & Hpk & _) & _). congruence. }
  rewrite bind_ret.
  pose proof (createUniswapTrader_run rpcUrl privateKey w) as Ecreate.
  pose proof (fun w0 => createSimpleSwapper_run rpcUrl privateKey w0)
    as Ecreate2.
  destruct (Wallet_address privateKey) as [e | signer] eqn:Ekey.
  { rewrite (bind_Throw _ _ _ _ _ _ Ecreate).
    intros [= <- _ <-]. left. apply Hstop; [| auto].
    intros s (_ & _ & _ & (pk & Hpk & Hw) & _). congruence. }
  set (w0 := snd (getNetwork w)) in *.
  intros Erun.
  apply (bind_inv _ _ _ _ _ _ _ _ _ Ecreate) in Erun.
  destruct Erun as (t0 & Erun & ->).
  destruct (Trading.env "ETHEREUM_WALLET_ADDRESS") as [walletAddress |]
    eqn:Ewallet.
  2:{ rewrite bind_throw in Erun. injection Erun as <- _ <-.
      left. apply Hstop; [| auto].
      intros s (_ & _ & _ & _ & Hc & _). now apply Hc. }
  rewrite bind_ret in Erun.
  apply (bind_inv _ _ _ _ _ _ _ _ _ (getEthBalance_run _ w0)) in Erun.
  destruct Erun as (t2 & Erun & ->). cbn [signerAddress] in *.
  set (w00 := snd (getBalance signer w0)) in *.
  destruct (PrimFloat.ltb _ amount) eqn:Elt.
  { rewrite bind_throw in Erun. injection Erun as <- _ <-.
    left. apply Hstop; [| right; right; exists signer; reflexivity].
    intros s (_ & _ & _ & (pk & Hpk & Hw) & _ & Hb).
    assert (s = signer) by congruence. subst s. fold w0 in Hb. congruence. }
  assert (Hready : ready_to_swap config tokenInfo amount signer w).
  { unfold ready_to_swap. rewrite Eurl, Ewallet. fold w0.
    split; [exact Ect |]. split; [exact Een |].
    split; [discriminate |]. split; [exists privateKey; auto |].
    split; [discriminate | exact Elt]. }
  rewrite bind_ret in Erun.
  apply (bind_inv _ _ _ _ _ _ _ _ _ (invoke_run _ _ _ _ w00)) in Erun.
  destruct Erun as (t3 & Erun & ->).
  destruct (primary_swap_returns {| signerAddress := signer |}
              (address tokenInfo) (Number_toString amount)
              (maxSlippage config) w00) as (res1 & w1 & t1 & E1).
  apply (bind_inv _ _ _ _ _ _ _ _ _ E1) in Erun.
  destruct Erun as (t4 & Erun & ->).
  right. exists signer, res1, w1, t1.
  split; [exact Hready |]. split; [exact E1 |].
  destruct (success res1) eqn:Es1; cbn [negb] in Erun.
  - left. split; [reflexivity |].
    rewrite bind_ret in Erun. rewrite Es1 in Erun. cbn [negb] in Erun.
    rewrite bind_ret in Erun.
    apply (bind_inv _ _ _ _ _ _ _ _ _ (toast_run _ w1)) in Erun.
    destruct Erun as (t5 & Erun & ->).
    unfold perform in Erun. destruct (savePosition position w1).
    injection Erun as _ _ <-. eexists. reflexivity.
  - right. split; [reflexivity |].
    destruct (fallback_swap_returns {| signerAddress := signer |}
                (address tokenInfo) (Number_toString amount)
                (maxSlippage config) (snd (getNetwork w1)))
      as (res2 & w2 & t2 & E2).
    exists res2, w2, t2. split; [exact E2 |].
    assert (Efb :
      try_catch
        (simpleSwapper <- Trading.createSimpleSwapper rpcUrl privateKey;;
         Trading.invoke UniswapV2 (address tokenInfo)
           (Number_toString amount) (maxSlippage config);;
         SimpleSwapper.swapEthForToken simpleSwapper (address tokenInfo)
           (Number_toString amount) (maxSlippage config))
        (fun _ : Thrown => ret res1) w1
      = (Ok res2, w2,
         RpcGetNetwork
         :: Invoke UniswapV2 (address tokenInfo)
              (Number_toString amount) (maxSlippage config) :: t2)).
    { apply try_catch_Ok.
      unfold bind at 1. rewrite (Ecreate2 w1).
      unfold bind at 1. rewrite invoke_run, E2. reflexivity. }
    apply (bind_inv _ _ _ _ _ _ _ _ _ Efb) in Erun.
    destruct Erun as (t5 & Erun & ->).
    destruct (success res2) eqn:Es2; cbn [negb] in Erun.
    + left. split; [reflexivity |].
      rewrite bind_ret in Erun.
      apply (bind_inv _ _ _ _ _ _ _ _ _ (toast_run _ w2)) in Erun.
      destruct Erun as (t6 & Erun & ->).
      unfold perform in Erun. destruct (savePosition position w2).
      injection Erun as _ _ <-. eexists. reflexivity.
    + right. split; [reflexivity |].
      rewrite bind_throw in Erun. injection Erun as <- <- <-.
      repeat split. cbn. rewrite app_nil_r. reflexivity.
Qed.

End OrchestratorRuns.

Lemma invocations_app v (t1 t2 : list Event) :
  invocations v (t1 ++ t2) = invocations v t1 ++ invocations v t2.
Proof.
  induction t1 as [| e t1 IH]; [reflexivity |].
  destruct e; cbn; rewrite ?IH; try reflexivity.
  destruct v, v0; cbn; rewrite ?IH; reflexivity.
Qed.

Lemma invocations_executor v (t : list Event) :
  Forall is_executor_event t -> invocations v t = [].
Proof.
  induction 1 as [| e t He _ IH]; [reflexivity |].
  destruct e; cbn in *; try contradiction; exact IH.
Qed.

Section SwapTraces.
Context {W : Type} `{Provider W} `{Ethers}.
Variable P : Event -> Prop.
Hypothesis executor_in_P : forall e, is_executor_event e -> P e.

Lemma rpc_in_P : forall e, is_rpc e -> P e.
Proof.
  intros e He. apply executor_in_P.
  destruct e; cbn in He; try contradiction; exact I.
Qed.

Lemma sleep_in_P : forall ms, P (Sleep ms).
Proof. intros ms. apply executor_in_P. exact I. Qed.

Lemma emits_primary_swap this tokenAddress ethAmount slippage :
  emits (W := W) P
        (UniswapTrader.swapEthForToken this tokenAddress ethAmount slippage).
Proof.
  unfold UniswapTrader.swapEthForToken, UniswapTrader.swapEthForTokenSimple.
  cbv zeta. apply emits_bind.
  - apply emits_attemptLoop; [| apply sleep_in_P].
    intros i. apply emits_swapEthForTokenSimpleAttempt, rpc_in_P.
  - intros [res | lastError]; apply emits_ret.
Qed.

Lemma emits_fallback_attempt this tokenAddress ethAmount slippage attempt :
  emits (W := W) P
        (SimpleSwapper.swapEthForTokenAttempt this tokenAddress ethAmount
           slippage attempt).
Proof.
  pose proof rpc_in_P as HP. pose proof sleep_in_P as HS.
  unfold SimpleSwapper.swapEthForTokenAttempt.
  emits_auto;
    first [ apply emits_estimateGasLoop; [apply HP; exact I | exact HS]
          | apply emits_getGasConfig, HP ].
Qed.

Lemma emits_fallback_swap this tokenAddress ethAmount slippage :
  emits (W := W) P
        (SimpleSwapper.swapEthForToken this tokenAddress ethAmount slippage).
Proof.
  unfold SimpleSwapper.swapEthForToken.
  cbv zeta. apply emits_bind.
  - apply emits_attemptLoop; [| apply sleep_in_P].
    intros i. apply emits_fallback_attempt.
  - intros [res | lastError]; apply emits_ret.
Qed.

Lemma emits_getEthBalance this :
  emits (W := W) P (UniswapTrader.getEthBalance this).
Proof.
  pose proof rpc_in_P as HP.
  unfold UniswapTrader.getEthBalance. emits_auto.
Qed.

End SwapTraces.

Section Orchestrator.
Context {W : Type} `{Provider W} `{Ethers} `{Collaborators W}.

Lemma carries_executor a e : is_executor_event e -> carries a e.
Proof. destruct e; cbn; auto; contradiction. Qed.

Lemma emits_executeEthereumNetworkTrade config request tokenInfo a position :
  p_amount position = a ->
  emits (W := W) (carries a)
        (Trading.executeEthereumNetworkTrade config request tokenInfo a
                                             position).
Proof.
  intros Hp. pose proof (carries_executor a) as HP.
  unfold Trading.executeEthereumNetworkTrade, Trading.createUniswapTrader,
    Trading.createSimpleSwapper, initializeNetwork, Trading.invoke,
    Trading.toast.
  emits_auto;
    first [ apply emits_getEthBalance, HP
          | apply emits_primary_swap, HP
          | apply emits_fallback_swap, HP
          | idtac ].
  all: try (intros w r w' t [= _ _ <-]; repeat constructor).
Qed.

Lemma emits_executeBaseNetworkTrade request tokenInfo a position :
  p_amount position = a ->
  emits (W := W) (carries a)
        (Trading.executeBaseNetworkTrade request tokenInfo a position).
Proof.
  intros Hp.
  unfold Trading.executeBaseNetworkTrade, Trading.toast.
  emits_auto.
  all: try (intros w r w' t [= _ _ <-]; repeat constructor).
Qed.


(** C6 (amended). In every run in which the fallback venue is invoked,
    the primary venue had returned a failure; if the fallback's result
    is a failure too, the error the orchestrator throws is
    ["DEX swap failed: "] followed by the fallback venue's error message
    alone. *)
Theorem venue_exhaustion_reports_fallback_error
        config request tokenInfo amount position (w : W) r w' t :
  Trading.executeEthereumNetworkTrade config request tokenInfo amount
                                      position w = (r, w', t) ->
  invocations UniswapV2 t <> [] ->
  exists privateKey signer res1 w1 t1 res2 w2 t2,
    Trading.env "ETHEREUM_PRIVATE_KEY" = Some privateKey
    /\ Wallet_address privateKey = Ok signer
    /\ UniswapTrader.swapEthForToken {| signerAddress := signer |}
         (address tokenInfo) (Number_toString amount) (maxSlippage config)
         (snd (getBalance signer (snd (getNetwork w)))) = (Ok res1, w1, t1)
    /\ success res1 = false
    /\ SimpleSwapper.swapEthForToken {| signerAddress := signer |}
         (address tokenInfo) (Number_toString amount) (maxSlippage config)
         (snd (getNetwork w1)) = (Ok res2, w2, t2)
    /\ (success res2 = false ->
        r = Throw (ErrorObject
                     ("DEX swap failed: " +++ Trading.errorText res2))
        /\ w' = w2).
Proof.
  intros Erun Hinv.
  destruct (ethereum_trade_shape _ _ _ _ _ _ _ _ _ Erun)
    as [(_ & Ht & _)
       | (signer & res1 & w1 & t1 & Hready & E1 & Hcase)].
  - exfalso. apply Hinv.
    destruct Ht as [-> | [-> | (signer & ->)]]; reflexivity.
  - destruct Hready as (_ & _ & _ & (key & Ek & Es) & _).
    assert (I1 : forall v, invocations v t1 = []).
    { intros v. apply invocations_executor.
      revert E1. apply emits_primary_swap. auto. }
    destruct Hcase as [[Es1 (c & ->)] | (Es1 & res2 & w2 & t2 & E2 & Hcase)].
    + exfalso. apply Hinv. cbn [invocations].
      rewrite !invocations_app, !I1. reflexivity.
    + exists key, signer, res1, w1, t1, res2, w2, t2.
      repeat (split; [assumption |]).
      intros Es2.
      destruct Hcase as [[Es2' _] | (_ & -> & -> & _)];
        [congruence | split; reflexivity].
Qed.

(** C8 (amended). For every balance [B] and network family: the sizing
    rule skips the trade when [B] is below the network minimum and, on
    Ethereum, also when [B] is below the DEX minimum 0.0015; otherwise
    it commits [max(B * 0.10, networkMinimum)] on Base and that amount
    raised to 0.0015 on Ethereum. A skipped trade only marks the tweet
    as processed: no position is saved and no swap or custodial trade is
    requested. A committed amount [a] is traded: the orchestrator draws
    an identifier, announces the purchase for [a], and runs the trade of
    the network family for [a] with a holding position of amount [a];
    if that trade returns, the run ends there. [a] is the amount of
    every position saved and of every swap or custodial trade
    requested. *)
Theorem trade_sizing_rule config networkType (B : float) :
  let minRequired := minTradeAmountETH (hybrid config networkType) in
  (PrimFloat.ltb B minRequired = true ->
   Trading.sizeTrade config networkType B = Skipped)
  /\ (PrimFloat.ltb B minRequired = false -> networkType = base ->
      Trading.sizeTrade config networkType B
      = Committed (JS.Math_max (B * 0.10)%float minRequired))
  /\ (PrimFloat.ltb B minRequired = false ->
      PrimFloat.ltb B 0.0015%float = true -> networkType = ethereum ->
      Trading.sizeTrade config networkType B = Skipped)
  /\ (PrimFloat.ltb B minRequired = false ->
      PrimFloat.ltb B 0.0015%float = false -> networkType = ethereum ->
      Trading.sizeTrade config networkType B
      = Committed (JS.Math_max (JS.Math_max (B * 0.10)%float minRequired)
                               0.0015%float))
  /\ (forall request tokenInfo (w : W),
         chainType (network tokenInfo) = networkType ->
         Trading.sizeTrade config networkType B = Skipped ->
         Trading.executeTradeWithBalance config request tokenInfo B w
         = perform (MarkTweetAsProcessed (r_tweetId request))
                   (markTweetAsProcessed (r_tweetId request)) w)
  /\ (forall request tokenInfo a,
         chainType (network tokenInfo) = networkType ->
         Trading.sizeTrade config networkType B = Committed a ->
         emits (W := W) (carries a)
               (Trading.executeTradeWithBalance config request tokenInfo B))
  /\ (forall request tokenInfo a (w : W) id w1,
         chainType (network tokenInfo) = networkType ->
         enabled (hybrid config networkType) = true ->
         Trading.sizeTrade config networkType B = Committed a ->
         generateId w = (Ok id, w1) ->
         let position :=
           {| p_id := id; p_token := r_token request; p_amount := a;
              p_purchasePrice := Trading.getTokenPrice (r_token request);
              p_purchaseTime := Date_now w1; p_tweet := r_tweet request;
              p_influencer := r_influencer request; p_status := holding |} in
         let announced :=
           Toast (addInfoToast "Executing Trade"
                    ("Buying " +++ r_token request +++ " with "
                     +++ toFixed a 4 +++ " ETH...")
                    {| t_token := Some (r_token request);
                       t_amount := Some (toFixed a 4);
                       t_influencer := Some (r_influencer request);
                       t_price :=
                         Some (Number_toString
                                 (Trading.getTokenPrice (r_token request)));
                       t_txHash := None; t_explorerUrl := None |}) in
         let trade :=
           match networkType with
           | base =>
               Trading.executeBaseNetworkTrade request tokenInfo a position
           | ethereum =>
               Trading.executeEthereumNetworkTrade config request tokenInfo a
                                                   position
           end in
         let run :=
           Trading.executeTradeWithBalance config request tokenInfo B w in
         (exists t3,
             snd run = GenerateId :: announced :: snd (trade w1) ++ t3)
         /\ (forall w2 t2,
                trade w1 = (Ok tt, w2, t2) ->
                run = (Ok tt, w2, GenerateId :: announced :: t2))).
Proof.
  cbv zeta. split; [| split; [| split; [| split; [| split; [| split]]]]].
  - intros Hlt. unfold Trading.sizeTrade. rewrite Hlt. reflexivity.
  - intros Hlt ->. unfold Trading.sizeTrade. cbn [hybrid] in *.
    rewrite Hlt. reflexivity.
  - intros Hlt Hdex ->. unfold Trading.sizeTrade. cbn [hybrid] in *.
    rewrite Hlt, Hdex. reflexivity.
  - intros Hlt Hdex ->. unfold Trading.sizeTrade. cbn [hybrid] in *.
    rewrite Hlt, Hdex. reflexivity.
  - intros request tokenInfo w <- Hs.
    unfold Trading.executeTradeWithBalance. rewrite Hs.
    destruct (enabled _); reflexivity.
  - intros request tokenInfo a <- Hs.
    unfold Trading.executeTradeWithBalance. rewrite Hs.
    destruct (enabled _); cbn [negb].
    + unfold Trading.toast.
      emits_auto;
        first [ apply emits_executeBaseNetworkTrade; reflexivity
              | apply emits_executeEthereumNetworkTrade; reflexivity
              | idtac ].
      all: try (intros w r w' t [= _ _ <-]; repeat constructor).
    + emits_auto.
  - intros request tokenInfo a w id w1 <- Hen Hs Hid.
    match goal with
    | |- context [snd (?m w1)] =>
        destruct (m w1) as [[[e | []] w2] t2] eqn:Etrade
    end.
    all: split; [| intros w4 t4 E4; try discriminate E4 ].
    all: unfold Trading.executeTradeWithBalance; rewrite Hen, Hs;
      cbn [negb]; unfold bind at 1; unfold perform at 1; rewrite Hid;
      unfold bind at 1; unfold now at 1; cbv beta iota zeta;
      unfold try_catch at 1; unfold bind at 1; unfold Trading.toast at 1;
      cbv beta iota zeta;
      cbn [p_id p_token p_amount p_purchasePrice p_purchaseTime p_tweet
           p_influencer p_status];
      rewrite Etrade.
    + match goal with
      | |- context [bind ?m ?k w2] =>
          destruct (bind m k w2) as [[r3 w3] t3]
      end.
      exists t3. cbn [snd app]. reflexivity.
    + exists []. cbn [snd app]. rewrite !app_nil_r. reflexivity.
    + injection E4 as <- <-. cbn [app]. reflexivity.
Qed.

End Orchestrator.

(** ** The exact-output executor

    [swapEthForTokenInternal], used by [swapEthForExactTokens] and not by
    the orchestrator, is the loop with three attempts and waits of 2000
    and 4000 ms; it retries an invalid address like any other failure. *)

Section ExactOutput.
Context {W : Type} `{Provider W} `{Ethers}.

Lemma swapEthForTokenInternal_invalid_address
      (this : Trader) (tokenAddress : string) (ethAmount : option string)
      (target : option Z) (slippage : float) (w : W) :
  isAddress tokenAddress = false ->
  UniswapTrader.swapEthForTokenInternal this tokenAddress ethAmount target
                                        slippage w
  = (Ok (swapFailed ("After 3 attempts: Invalid token address: "
                     +++ tokenAddress)),
     setTimeout 4000 (setTimeout 2000 w), [Sleep 2000; Sleep 4000]).
Proof.
  intros Haddr.
  assert (E : forall n w0,
             UniswapTrader.swapEthForTokenInternalAttempt
               this tokenAddress ethAmount target slippage n w0
             = (Throw (ErrorObject
                         ("Invalid token address: " +++ tokenAddress)),
                w0, [])).
  { intros n w0. unfold UniswapTrader.swapEthForTokenInternalAttempt.
    rewrite Haddr. reflexivity. }
  unfold UniswapTrader.swapEthForTokenInternal. cbv zeta.
  change (Z.to_nat 3) with 3%nat.
  unfold bind at 1.
  rewrite attemptLoop_step, E. unfold bind at 1.
  change (1 <? 3) with true. cbv iota. unfold sleep at 1.
  change (1 + 1) with 2.
  rewrite attemptLoop_step, E. unfold bind at 1.
  change (2 <? 3) with true. cbv iota. unfold sleep at 1.
  change (2 + 1) with 3.
  rewrite attemptLoop_step, E. unfold bind at 1.
  change (3 <? 3) with false. cbv iota.
  reflexivity.
Qed.

End ExactOutput.

(** ** Postconditions *)

Section Returns.
Context {W : Type}.

Lemma returns_ret {A} (a : A) (Q : A -> Prop) :
  Q a -> returns (W := W) (ret a) Q.
Proof. intros Ha w a' w' t [= <- _ _]. exact Ha. Qed.

Lemma returns_throw {A} (e : string) (Q : A -> Prop) :
  returns (W := W) (throw e) Q.
Proof. intros w a w' t [=]. Qed.

Lemma returns_rethrow {A} (e : Thrown) (Q : A -> Prop) :
  returns (W := W) (rethrow e) Q.
Proof. intros w a w' t [=]. Qed.

Lemma returns_bind {A B} (m : M W A) (k : A -> M W B) P Q :
  returns m P -> (forall a, P a -> returns (k a) Q) -> returns (bind m k) Q.
Proof.
  intros Hm Hk w b w' t. unfold bind.
  destruct (m w) as [[[e | a] w1] t1] eqn:E; [intros [=] |].
  destruct (k a w1) as [[r2 w2] t2] eqn:E2. intros [= -> _ _].
  exact (Hk a (Hm _ _ _ _ E) _ _ _ _ E2).
Qed.

Lemma returns_any {A} (m : M W A) : returns m (fun _ => True).
Proof. intros w a w' t _. exact I. Qed.

Lemma returns_try_catch {A} (m : M W A) (h : Thrown -> M W A) Q :
  returns m Q -> (forall e, returns (h e) Q) -> returns (try_catch m h) Q.
Proof.
  intros Hm Hh w a w' t. unfold try_catch.
  destruct (m w) as [[[e | a0] w1] t1] eqn:E.
  - destruct (h e w1) as [[r2 w2] t2] eqn:E2. intros [= -> _ _].
    exact (Hh _ _ _ _ _ E2).
  - intros [= <- _ _]. exact (Hm _ _ _ _ E).
Qed.

Lemma returns_weaken {A} (m : M W A) (P Q : A -> Prop) :
  returns m P -> (forall a, P a -> Q a) -> returns m Q.
Proof. intros Hm HPQ w a w' t E. exact (HPQ _ (Hm _ _ _ _ E)). Qed.

Lemma returns_lift {A} (x : Result A) :
  returns (W := W) (lift x) (fun a => x = Ok a).
Proof. intros w a w' t [= -> _ _]. reflexivity. Qed.

Lemma returns_perform {A} (e : Event) (f : W -> Result A * W)
      (Q : A -> Prop) :
  (forall w a w', f w = (Ok a, w') -> Q a) -> returns (perform e f) Q.
Proof.
  intros Hf w a w' t. unfold perform.
  destruct (f w) as [r w1] eqn:E. intros [= -> -> _]. exact (Hf _ _ _ E).
Qed.

End Returns.

(** ** Gas fees and gas estimation *)

Section GasFees.
Context {W : Type} `{Provider W} `{Ethers}.

Lemma getEIP1559FeeData_floors s u :
  returns (W := W) (GasManager.getEIP1559FeeData s u)
    (fun fp =>
       if isMainnet s
       then 5000000000 <= fst fp /\ 1000000000 <= snd fp
       else 100000000 <= fst fp /\ 10000000 <= snd fp).
Proof.
  unfold GasManager.getEIP1559FeeData.
  apply returns_try_catch.
  - repeat (eapply returns_bind; [apply returns_any | intros ? _]).
    apply returns_ret. cbn [fst snd].
    destruct (isMainnet s);
      repeat match goal with
             | |- context [?a <? ?b] => destruct (Z.ltb_spec a b)
             end; change gwei with 1000000000 in *;
      change (1000000000 / 10) with 100000000 in *;
      change (1000000000 / 100) with 10000000 in *; lia.
  - intros e. apply returns_ret. cbn [fst snd].
    destruct (isMainnet s); cbv; split; discriminate.
Qed.

Lemma getLegacyGasPrice_floor s u :
  returns (W := W) (GasManager.getLegacyGasPrice s u)
    (fun p => if isMainnet s then 1000000000 <= p else 100000000 <= p).
Proof.
  unfold GasManager.getLegacyGasPrice.
  apply returns_try_catch.
  - repeat (eapply returns_bind; [apply returns_any | intros ? _]).
    apply returns_ret.
    destruct (isMainnet s);
      repeat match goal with
             | |- context [?a <? ?b] => destruct (Z.ltb_spec a b)
             end; change gwei with 1000000000 in *;
      change (1000000000 / 10) with 100000000 in *; lia.
  - intros e. apply returns_ret.
    destruct (isMainnet s); cbv; discriminate.
Qed.

Lemma getGasConfig_fees s g u :
  returns (W := W) (GasManager.getGasConfig s g u)
    (fun cfg => fees_floored s cfg
                /\ gasLimit cfg = GasManager.gasLimitFor s g).
Proof.
  unfold GasManager.getGasConfig, fees_floored.
  destruct (supports1559 s); cbn [negb].
  - eapply returns_bind; [apply getEIP1559FeeData_floors |].
    intros [f p] Hfp. apply returns_ret. cbn in *. eauto 10.
  - eapply returns_bind; [apply getLegacyGasPrice_floor |].
    intros p Hp. apply returns_ret. cbn in *. eauto 10.
Qed.

End GasFees.

Lemma sleeps_retryTrace c value k :
  forall i, 0 <= i ->
  sleeps (retryTrace c value i k)
  = map (fun j => 2 ^ (i + Z.of_nat j) * 1000) (seq 0 k).
Proof.
  induction k as [| k IH]; intros i Hi; [reflexivity |].
  cbn [retryTrace sleeps seq map]. rewrite IH by lia.
  rewrite Z.add_0_r. f_equal.
  rewrite <- seq_shift, map_map. apply map_ext. intros j.
  now replace (i + 1 + Z.of_nat j) with (i + Z.of_nat (S j)) by lia.
Qed.

Section GasRetry.
Context {W : Type} `{Provider W} `{Ethers}.

Lemma estimateGasLoop_backoff c value retries n :
  forall i lastError (w : W) r w' t,
    n = Z.to_nat (retries - i) -> (0 < n)%nat ->
    GasManager.estimateGasLoop c value retries n i lastError w = (r, w', t) ->
    exists k wk,
      (k < n)%nat /\ t = retryTrace c value i k
      /\ afterFailedEstimates c value k i w = Some wk
      /\ match r with
         | Ok g => estimateGas c value wk = (Ok g, w')
         | Throw m =>
             k = (n - 1)%nat
             /\ exists e,
                 estimateGas c value wk = (Throw e, w')
                 /\ m = ErrorObject
                         ("Gas estimation failed after "
                          +++ JS.toString retries +++ " attempts: "
                          +++ messageOf e)
         end.
Proof.
  induction n as [| n IH]; intros i lastError w r w' t Hn Hpos; [lia |].
  cbn [GasManager.estimateGasLoop]. unfold perform at 1.
  destruct (estimateGas c value w) as [[e | g] w1] eqn:E.
  - destruct n as [| n'].
    + assert (Hi : (i <? retries - 1) = false) by (apply Z.ltb_ge; lia).
      rewrite Hi. cbn. intros [= <- <- <-].
      exists 0%nat, w. split; [lia |]. split; [reflexivity |].
      split; [reflexivity |]. split; [reflexivity |].
      exists e. split; [exact E | reflexivity].
    + assert (Hi : (i <? retries - 1) = true) by (apply Z.ltb_lt; lia).
      rewrite Hi. unfold bind at 1. unfold sleep at 1.
      destruct (GasManager.estimateGasLoop c value retries (S n') (i + 1)
                  (Some (messageOf e)) (setTimeout (2 ^ i * 1000) w1))
        as [[r2 w2] t2] eqn:E2.
      intros [= <- <- <-].
      assert (Hn' : S n' = Z.to_nat (retries - (i + 1))) by lia.
      destruct (IH _ _ _ _ _ _ Hn' (Nat.lt_0_succ n') E2)
        as (k & wk & Hk & -> & Hwk & Hr).
      exists (S k), wk. split; [lia |]. split; [reflexivity |].
      split; [cbn [afterFailedEstimates]; rewrite E; exact Hwk |].
      destruct r2 as [m | g].
      * destruct Hr as (-> & Hm). split; [lia | exact Hm].
      * exact Hr.
  - intros [= <- <- <-]. exists 0%nat, w. split; [lia |].
    split; [reflexivity |]. split; [reflexivity | exact E].
Qed.

(** X1. [estimateGasWithRetry] with [retries] attempts: with no attempt
    allowed it throws at once, naming [undefined] as the last error.
    Otherwise there is a number [k < retries] of requests that failed,
    each followed by its wait: after the failed request of index [j]
    (from 0) it waits [2^j * 1000] ms, that is 1000, 2000, 4000, ...
    The request after them is the last one made. If it answers, its
    estimate is returned: the first estimate obtained. If it fails, it
    was the last one allowed ([k = retries - 1]), no wait follows it, and
    the call throws
    ["Gas estimation failed after <retries> attempts: <last error>"]. *)
Theorem estimateGasWithRetry_backoff c value retries (w : W) r w' t :
  GasManager.estimateGasWithRetry c value retries w = (r, w', t) ->
  (retries <= 0 ->
   r = Throw (ErrorObject
                ("Gas estimation failed after " +++ JS.toString retries
                 +++ " attempts: undefined"))
   /\ w' = w /\ t = [])
  /\ (0 < retries ->
      exists k wk,
        (k < Z.to_nat retries)%nat
        /\ afterFailedEstimates c value k 0 w = Some wk
        /\ t = retryTrace c value 0 k
        /\ sleeps t = map (fun j => 2 ^ Z.of_nat j * 1000) (seq 0 k)
        /\ match r with
           | Ok g => estimateGas c value wk = (Ok g, w')
           | Throw m =>
               k = (Z.to_nat retries - 1)%nat
               /\ exists e,
                   estimateGas c value wk = (Throw e, w')
                   /\ m = ErrorObject
                           ("Gas estimation failed after "
                            +++ JS.toString retries +++ " attempts: "
                            +++ messageOf e)
           end).
Proof.
  unfold GasManager.estimateGasWithRetry. intros E. split.
  - intros Hr. replace (Z.to_nat retries) with 0%nat in E by lia.
    cbn in E. injection E as <- <- <-. repeat split.
  - intros Hr.
    destruct (estimateGasLoop_backoff c value retries (Z.to_nat retries)
                0 None w r w' t) as (k & wk & Hk & Ht & Hwk & Hres);
      [f_equal; lia | lia | exact E |].
    exists k, wk. split; [exact Hk |]. split; [exact Hwk |].
    split; [exact Ht |]. split; [| exact Hres].
    rewrite Ht, sleeps_retryTrace by lia. reflexivity.
Qed.

(** X2. [getGasConfig] always returns, and the fees it returns respect
    the floors of the network class, on the fallback path too: with
    EIP-1559 the configuration has type 2, no gas price, a fee cap of at
    least 5 gwei (0.1 gwei on test networks) and a priority fee of at
    least 1 gwei (0.01 gwei); without it, type 0, no fee caps and a gas
    price of at least 1 gwei (0.1 gwei). The transaction options built
    from it carry the value and the gas limit, and the fields of exactly
    one of the two fee schemes. *)
Theorem getGasConfig_fee_floors s g u (w : W) :
  exists cfg w' t,
    GasManager.getGasConfig s g u w = (Ok cfg, w', t)
    /\ fees_floored s cfg
    /\ forall value,
        let o := txOptionsFor value cfg in
        tx_value o = value /\ tx_gasLimit o = gasLimit cfg
        /\ if supports1559 s
           then tx_gasPrice o = None
                /\ tx_maxFeePerGas o = maxFeePerGas cfg
                /\ tx_maxPriorityFeePerGas o = maxPriorityFeePerGas cfg
           else tx_gasPrice o = gasPrice cfg
                /\ tx_maxFeePerGas o = None
                /\ tx_maxPriorityFeePerGas o = None.
Proof.
  destruct (getGasConfig_returns s g u w) as (cfg & w' & t & E & _).
  exists cfg, w', t. split; [exact E |].
  destruct (getGasConfig_fees s g u _ _ _ _ E) as [Hfees _].
  split; [exact Hfees |].
  intros value. cbv zeta. unfold fees_floored in Hfees. unfold txOptionsFor.
  destruct (supports1559 s).
  - destruct Hfees as (-> & _). cbn. auto.
  - destruct Hfees as (-> & _). cbn. auto.
Qed.

Lemma createGasManager_supports1559 chainId :
  supports1559 (createGasManager chainId) = true.
Proof.
  unfold createGasManager.
  repeat match goal with
         | |- context [?a =? ?b] => destruct (a =? b)
         end; reflexivity.
Qed.

Lemma createGasManager_multiplier chainId z :
  JS.floor (baseFeeMultiplier (createGasManager chainId) * 100)%float
  = Some z -> 0 <= z.
Proof.
  unfold createGasManager.
  repeat match goal with
         | |- context [?a =? ?b] => destruct (a =? b)
         end; vm_compute; intros [= <-]; discriminate.
Qed.

(** X3. For the manager of any chain id, if the provider never reports
    a negative base fee, every configuration [getGasConfig] returns has
    a positive priority fee that does not exceed its fee cap. *)
Theorem priority_fee_within_max_fee chainId g u :
  (forall (w : W) b f w1,
      getBlock_latest w = (Ok (Some b), w1) -> baseFeePerGas b = Some f ->
      0 <= f) ->
  returns (W := W) (GasManager.getGasConfig (createGasManager chainId) g u)
    (fun cfg =>
       exists f p,
         maxFeePerGas cfg = Some f /\ maxPriorityFeePerGas cfg = Some p
         /\ 0 < p <= f).
Proof.
  intros Hblock. set (s := createGasManager chainId).
  pose proof (createGasManager_multiplier chainId) as Hmult. fold s in Hmult.
  unfold GasManager.getGasConfig.
  pose proof (createGasManager_supports1559 chainId) as Hs. fold s in Hs.
  rewrite Hs. cbn [negb].
  eapply returns_bind with (P := fun fp => 0 < snd fp <= fst fp).
  2:{ intros [f p] Hfp. apply returns_ret. cbn in *. eauto. }
  unfold GasManager.getEIP1559FeeData.
  apply returns_try_catch.
  - eapply returns_bind; [apply returns_any | intros _ _].
    eapply returns_bind with
      (P := fun latestBlock =>
              forall b f, latestBlock = Some b -> baseFeePerGas b = Some f ->
                          0 <= f).
    { apply returns_perform. intros w a w' E b f ->. eauto. }
    intros latestBlock Hbase.
    eapply returns_bind; [apply returns_any | intros basePriorityFee _].
    eapply returns_bind; [apply returns_any | intros u100 _].
    eapply returns_bind; [apply returns_lift | intros b100 Hb100].
    apply returns_ret. cbn [fst snd].
    assert (Hb : 0 <= b100).
    { apply Hmult. unfold BigInt_floor in Hb100.
      destruct (JS.floor _); [now injection Hb100 as -> | discriminate]. }
    set (baseFee := JS.or_bigint _ _).
    assert (HbaseFee : 0 <= baseFee).
    { subst baseFee. unfold JS.or_bigint.
      destruct latestBlock as [b |]; [| cbv; discriminate].
      destruct (baseFeePerGas b) as [f |] eqn:Ef; [| cbv; discriminate].
      destruct (f =? 0); [cbv; discriminate | eauto]. }
    pose proof (Z.quot_pos (baseFee * b100) 100 ltac:(nia) ltac:(lia)).
    change gwei with 1000000000.
    change (1000000000 / 10) with 100000000.
    change (1000000000 / 100) with 10000000.
    destruct (isMainnet s);
      repeat match goal with
             | |- context [?a <? ?b] => destruct (Z.ltb_spec a b)
             end; lia.
  - intros e. apply returns_ret. cbn [fst snd].
    destruct (isMainnet s); cbv; repeat split; discriminate.
Qed.

End GasRetry.

(** ** Requests of the executors *)

Section EmitsKnowing.
Context {W : Type} `{Provider W} `{Ethers}.
Variable P : Event -> Prop.

Lemma emits_bind_returns {A B} (m : M W A) (k : A -> M W B) Q :
  emits P m -> returns m Q -> (forall a, Q a -> emits P (k a)) ->
  emits P (bind m k).
Proof.
  intros Hm HQ Hk w r w' t. unfold bind.
  destruct (m w) as [[[e | a] w1] t1] eqn:E.
  - intros [= _ _ <-]. exact (Hm _ _ _ _ E).
  - destruct (k a w1) as [[r2 w2] t2] eqn:E2. intros [= _ _ <-].
    apply Forall_app. split; [exact (Hm _ _ _ _ E) |].
    exact (Hk a (HQ _ _ _ _ E) _ _ _ _ E2).
Qed.

Lemma emits_bind_lift {A B} (x : Result A) (k : A -> M W B) :
  (forall a, x = Ok a -> emits P (k a)) -> emits P (bind (lift x) k).
Proof.
  intros Hk. apply emits_bind_returns with (Q := fun a => x = Ok a).
  - apply emits_lift.
  - intros w a w' t [= -> _ _]. reflexivity.
  - exact Hk.
Qed.

Lemma emits_guard {B} (c : bool) (e : string) (k : M W B) :
  (c = false -> emits P k) ->
  emits P (bind (if c then throw e else ret tt) (fun _ => k)).
Proof.
  intros Hk. apply emits_bind_returns with (Q := fun _ => c = false).
  - destruct c; [apply emits_throw | apply emits_ret].
  - destruct c; [apply returns_throw | now apply returns_ret].
  - intros _. exact Hk.
Qed.

End EmitsKnowing.

Section ExecutorRequests.
Context {W : Type} `{Provider W} `{Ethers}.

Lemma thisGasManager_supports1559 :
  returns (W := W) thisGasManager (fun s => supports1559 s = true).
Proof.
  intros w s w' t [= <- _ _]. unfold createGasManager.
  repeat match goal with
         | |- context [?a =? ?b] => destruct (a =? b)
         end; reflexivity.
Qed.

Lemma gasLimitFor_floor s g : 100000 <= GasManager.gasLimitFor s g.
Proof. rewrite gasLimitFor_max. destruct (isMainnet s); lia. Qed.

(** The options built from a configuration of an EIP-1559 manager. *)
Lemma txOptionsFor_eip1559 s g cfg value :
  supports1559 s = true ->
  fees_floored s cfg /\ gasLimit cfg = GasManager.gasLimitFor s g ->
  eip1559_options (txOptionsFor value cfg)
  /\ tx_value (txOptionsFor value cfg) = value.
Proof.
  unfold fees_floored. intros -> ((Ht & Hg & f & p & Hf & Hp & Hfl) & Hl).
  unfold txOptionsFor, eip1559_options. rewrite Ht. cbn.
  split; [| reflexivity]. split; [reflexivity |].
  split; [rewrite Hl; apply gasLimitFor_floor |].
  exists f, p. split; [exact Hf |]. split; [exact Hp |].
  destruct (isMainnet s); lia.
Qed.

Lemma findBestFeeAndQuoteFrom_requests (P : Event -> Prop) tiers
      tokenAddress amount :
  (forall fee, In fee tiers ->
               P (RpcQuote WETH_ADDRESS tokenAddress fee amount)) ->
  emits (W := W) P
        (UniswapTrader.findBestFeeAndQuoteFrom tiers tokenAddress amount)
  /\ returns (W := W)
       (UniswapTrader.findBestFeeAndQuoteFrom tiers tokenAddress amount)
       (fun q => In (q_fee q) tiers).
Proof.
  induction tiers as [| fee rest IH]; intros HP;
    cbn [UniswapTrader.findBestFeeAndQuoteFrom].
  - split; [apply emits_throw | apply returns_throw].
  - destruct IH as [IHe IHr]; [intros f Hf; apply HP; now right |].
    split.
    + apply emits_try_catch; [| intros _; exact IHe].
      apply emits_bind; [| intros; apply emits_ret].
      unfold UniswapTrader.getQuote.
      apply emits_try_catch; [| intros; apply emits_rethrow].
      apply emits_perform, HP. now left.
    + apply returns_try_catch.
      * eapply returns_bind; [apply returns_any | intros q _].
        apply returns_ret. now left.
      * intros _. eapply returns_weaken; [exact IHr |].
        intros q Hq. now right.
Qed.

Lemma emits_primary_attempt_requests this tokenAddress ethAmount slippage
      attempt :
  emits (W := W) (primary_request this tokenAddress ethAmount)
        (UniswapTrader.swapEthForTokenSimpleAttempt this tokenAddress
           ethAmount slippage attempt).
Proof.
  unfold UniswapTrader.swapEthForTokenSimpleAttempt.
  apply emits_guard. intros Haddr. apply negb_false_iff in Haddr.
  apply emits_bind_lift. intros wei Hwei.
  apply emits_bind; [apply emits_perform; reflexivity | intros balance].
  apply emits_bind; [destruct (_ <? _); [apply emits_throw | apply emits_ret]
                    | intros _].
  apply emits_bind; [apply emits_now | intros date].
  destruct (findBestFeeAndQuoteFrom_requests
              (primary_request this tokenAddress ethAmount)
              UniswapTrader.feeTiers tokenAddress wei) as [Qe Qr].
  { intros f Hf. cbn. auto. }
  eapply emits_bind_returns; [exact Qe | exact Qr | intros q Hq].
  assert (Hswap : requested_swap this tokenAddress ethAmount
                    {| tokenIn := WETH_ADDRESS; tokenOut := tokenAddress;
                       fee := q_fee q; recipient := signerAddress this;
                       deadline := date / 1000 + 600; amountIn := wei;
                       amountOutMinimum := q_amountOutMin q;
                       sqrtPriceLimitX96 := 0 |}).
  { unfold requested_swap. cbn. auto 10. }
  apply emits_bind; [apply emits_estimateGasOnce; cbn; auto | intros g].
  eapply emits_bind_returns;
    [apply emits_thisGasManager | apply thisGasManager_supports1559
     | intros s Hs].
  eapply emits_bind_returns;
    [apply emits_getGasConfig_requests; exact I | apply getGasConfig_fees
     | intros cfg Hcfg].
  destruct (txOptionsFor_eip1559 s g cfg wei Hs Hcfg) as [Ho Hv].
  apply emits_bind; [apply emits_perform; cbn; auto | intros txHash].
  apply emits_bind; [apply emits_perform; exact I | intros receipt].
  destruct receipt as [r |]; [destruct (status r) as [[| |] |] |];
    first [apply emits_throw | apply emits_ret].
Qed.

Lemma emits_primary_swap_requests this tokenAddress ethAmount slippage :
  emits (W := W) (primary_request this tokenAddress ethAmount)
        (UniswapTrader.swapEthForToken this tokenAddress ethAmount slippage).
Proof.
  unfold UniswapTrader.swapEthForToken, UniswapTrader.swapEthForTokenSimple.
  cbv zeta. apply emits_bind.
  - apply emits_attemptLoop; [| intros ms; exact I].
    intros i. apply emits_primary_attempt_requests.
  - intros [res | lastError]; apply emits_ret.
Qed.

Lemma emits_fallback_attempt_requests this tokenAddress ethAmount slippage
      attempt :
  emits (W := W) (fallback_request this tokenAddress ethAmount)
        (SimpleSwapper.swapEthForTokenAttempt this tokenAddress ethAmount
           slippage attempt).
Proof.
  unfold SimpleSwapper.swapEthForTokenAttempt.
  apply emits_guard. intros Haddr. apply negb_false_iff in Haddr.
  apply emits_bind_lift. intros wei Hwei.
  apply emits_guard. intros Hmin. apply Z.ltb_ge in Hmin.
  apply emits_bind; [apply emits_now | intros date].
  apply emits_bind.
  { apply emits_try_catch; [| intros; apply emits_throw].
    apply emits_estimateGasLoop;
      [cbn [fallback_request]; auto 10 | intros ms; exact I]. }
  intros g.
  eapply emits_bind_returns;
    [apply emits_thisGasManager | apply thisGasManager_supports1559
     | intros s Hs].
  eapply emits_bind_returns;
    [apply emits_getGasConfig_requests; exact I | apply getGasConfig_fees
     | intros cfg Hcfg].
  destruct (txOptionsFor_eip1559 s g cfg wei Hs Hcfg) as [Ho Hv].
  apply emits_bind;
    [apply emits_perform; cbn [fallback_request]; rewrite Hv; auto 10
    | intros txHash].
  apply emits_bind; [apply emits_perform; exact I | intros receipt].
  destruct receipt as [r |]; [destruct (status r) as [[| |] |] |];
    first [apply emits_throw | apply emits_ret].
Qed.

Lemma emits_fallback_swap_requests this tokenAddress ethAmount slippage :
  emits (W := W) (fallback_request this tokenAddress ethAmount)
        (SimpleSwapper.swapEthForToken this tokenAddress ethAmount slippage).
Proof.
  unfold SimpleSwapper.swapEthForToken.
  cbv zeta. apply emits_bind.
  - apply emits_attemptLoop; [| intros ms; exact I].
    intros i. apply emits_fallback_attempt_requests.
  - intros [res | lastError]; apply emits_ret.
Qed.

End ExecutorRequests.

(** ** Submissions *)

Lemma submissions_app v (t1 t2 : list Event) :
  submissions v (t1 ++ t2) = (submissions v t1 + submissions v t2)%nat.
Proof. unfold submissions. now rewrite filter_app, length_app. Qed.

Lemma submissions_none v (t : list Event) :
  Forall (fun e => is_submission v e = false) t -> submissions v t = 0%nat.
Proof.
  unfold submissions. induction 1 as [| e t He _ IH]; [reflexivity |].
  cbn. rewrite He. exact IH.
Qed.

Section SubmissionCount.
Context {W : Type} `{Provider W} `{Ethers}.
Variable v : Venue.

Lemma submits_none_of_emits {A} (m : M W A) :
  emits (fun e => is_submission v e = false) m -> submits_at_most v 0 m.
Proof.
  intros Hm w r w' t E. rewrite (submissions_none _ _ (Hm _ _ _ _ E)). lia.
Qed.

Lemma submits_weaken {A} (m : M W A) (a b : nat) :
  (a <= b)%nat -> submits_at_most v a m -> submits_at_most v b m.
Proof. intros Hab Hm w r w' t E. specialize (Hm _ _ _ _ E). lia. Qed.

Lemma submits_bind {A B} (m : M W A) (k : A -> M W B) (a b : nat) :
  submits_at_most v a m -> (forall x, submits_at_most v b (k x)) ->
  submits_at_most v (a + b) (bind m k).
Proof.
  intros Hm Hk w r w' t. unfold bind.
  destruct (m w) as [[[e | x] w1] t1] eqn:E.
  - intros [= _ _ <-]. specialize (Hm _ _ _ _ E). lia.
  - destruct (k x w1) as [[r2 w2] t2] eqn:E2. intros [= _ _ <-].
    rewrite submissions_app.
    specialize (Hm _ _ _ _ E). specialize (Hk _ _ _ _ _ E2). lia.
Qed.

Lemma submits_try_catch {A} (m : M W A) (h : Thrown -> M W A) (a b : nat) :
  submits_at_most v a m -> (forall e, submits_at_most v b (h e)) ->
  submits_at_most v (a + b) (try_catch m h).
Proof.
  intros Hm Hh w r w' t. unfold try_catch.
  destruct (m w) as [[[e | x] w1] t1] eqn:E.
  - destruct (h e w1) as [[r2 w2] t2] eqn:E2. intros [= _ _ <-].
    rewrite submissions_app.
    specialize (Hm _ _ _ _ E). specialize (Hh _ _ _ _ _ E2). lia.
  - intros [= _ _ <-]. specialize (Hm _ _ _ _ E). lia.
Qed.

Lemma submits_perform {A} (e : Event) (f : W -> Result A * W) :
  submits_at_most v 1 (perform e f).
Proof.
  intros w r w' t. unfold perform. destruct (f w).
  intros [= _ _ <-]. unfold submissions. cbn.
  destruct (is_submission v e); cbn; lia.
Qed.

Lemma submits_attemptLoop {A} (body : Z -> M W A) delay maxRetries b n :
  (forall i, submits_at_most v b (body i)) ->
  forall attempt lastError,
    submits_at_most v (n * b)
      (attemptLoop body delay maxRetries n attempt lastError).
Proof.
  intros Hbody. induction n as [| n IH]; intros attempt lastError.
  - intros w r w' t [= _ _ <-]. cbn. lia.
  - intros w r w' t. rewrite attemptLoop_step.
    destruct (body attempt w) as [[[e | a] w1] t1] eqn:E.
    + match goal with
      | |- context [bind ?m ?k w1] =>
          destruct (bind m k w1) as [[r2 w2] t2] eqn:E2
      end.
      intros [= _ _ <-]. rewrite submissions_app.
      specialize (Hbody _ _ _ _ _ E).
      assert (submissions v t2 <= 0 + n * b)%nat; [| lia].
      revert E2. apply submits_bind; [| intros _; apply IH].
      apply submits_none_of_emits.
      destruct (attempt <? maxRetries);
        [apply emits_sleep | apply emits_ret]; reflexivity.
    + intros [= _ _ <-]. specialize (Hbody _ _ _ _ _ E). lia.
Qed.

End SubmissionCount.

Lemma emits_weaken {W A} (P Q : Event -> Prop) (m : M W A) :
  (forall e, P e -> Q e) -> emits P m -> emits Q m.
Proof.
  intros HPQ Hm w r w' t E. eapply Forall_impl; [exact HPQ |].
  exact (Hm _ _ _ _ E).
Qed.

(** Discharges [submits_at_most v 0 m] for a computation that performs
    no submission at all. *)
Ltac no_submission :=
  apply submits_none_of_emits; emits_auto;
  try solve [ apply emits_estimateGasOnce; reflexivity
            | apply emits_estimateGasLoop; [reflexivity | intros; reflexivity]
            | apply emits_getGasConfig_requests; reflexivity
            | apply findBestFeeAndQuoteFrom_requests; intros; reflexivity
            | intros ? ? ? ? [= _ _ <-]; repeat constructor ].

Section AttemptSubmissions.
Context {W : Type} `{Provider W} `{Ethers}.

Lemma primary_attempt_submits_once v this tokenAddress ethAmount slippage
      attempt :
  submits_at_most (W := W) v 1
    (UniswapTrader.swapEthForTokenSimpleAttempt this tokenAddress ethAmount
       slippage attempt).
Proof.
  unfold UniswapTrader.swapEthForTokenSimpleAttempt.
  repeat (apply (submits_bind v _ _ 0 1); [now no_submission | intros]).
  apply (submits_bind v _ _ 1 0); [apply submits_perform | intros].
  no_submission.
Qed.

Lemma fallback_attempt_submits_once v this tokenAddress ethAmount slippage
      attempt :
  submits_at_most (W := W) v 1
    (SimpleSwapper.swapEthForTokenAttempt this tokenAddress ethAmount
       slippage attempt).
Proof.
  unfold SimpleSwapper.swapEthForTokenAttempt.
  repeat (apply (submits_bind v _ _ 0 1); [now no_submission | intros]).
  apply (submits_bind v _ _ 1 0); [apply submits_perform | intros].
  no_submission.
Qed.

End AttemptSubmissions.

Section TradeSubmissions.
Context {W : Type} `{Provider W} `{Ethers} `{Collaborators W}.

Lemma primary_swap_submissions v this tokenAddress ethAmount slippage :
  submits_at_most (W := W) v 2
    (UniswapTrader.swapEthForToken this tokenAddress ethAmount slippage).
Proof.
  unfold UniswapTrader.swapEthForToken, UniswapTrader.swapEthForTokenSimple.
  cbv zeta. apply (submits_bind v _ _ 2 0).
  - change (Z.to_nat 2) with 2%nat. apply (submits_attemptLoop v _ _ _ 1 2).
    intros i. apply primary_attempt_submits_once.
  - intros [res | lastError]; no_submission.
Qed.

Lemma fallback_swap_submissions v this tokenAddress ethAmount slippage :
  submits_at_most (W := W) v 3
    (SimpleSwapper.swapEthForToken this tokenAddress ethAmount slippage).
Proof.
  unfold SimpleSwapper.swapEthForToken.
  cbv zeta. apply (submits_bind v _ _ 3 0).
  - change (Z.to_nat 3) with 3%nat. apply (submits_attemptLoop v _ _ _ 1 3).
    intros i. apply fallback_attempt_submits_once.
  - intros [res | lastError]; no_submission.
Qed.

Lemma primary_swap_spares_v2 this tokenAddress ethAmount slippage :
  submits_at_most (W := W) UniswapV2 0
    (UniswapTrader.swapEthForToken this tokenAddress ethAmount slippage).
Proof.
  apply submits_none_of_emits.
  eapply emits_weaken; [| apply emits_primary_swap_requests].
  intros [] He; try reflexivity; destruct c;
    cbn [primary_request fallback_request is_submission] in *; tauto.
Qed.

Lemma fallback_swap_spares_v3 this tokenAddress ethAmount slippage :
  submits_at_most (W := W) UniswapV3 0
    (SimpleSwapper.swapEthForToken this tokenAddress ethAmount slippage).
Proof.
  apply submits_none_of_emits.
  eapply emits_weaken; [| apply emits_fallback_swap_requests].
  intros [] He; try reflexivity; destruct c;
    cbn [primary_request fallback_request is_submission] in *; tauto.
Qed.

(** X6. Every request of the primary executor is for what the caller
    asked: balances are read for the signer's address; quotes, gas
    estimates and submissions are for WETH against the requested token,
    which passes the address check, at one of the three fee tiers, and
    for the parsed input amount; a swap is paid to the signer, with no
    price limit, and is submitted with that amount as value, as an
    EIP-1559 transaction with a gas limit of at least 100000. A call
    submits at most two swaps to the V3 router and none to the V2
    router. An attempt that reads a balance below the amount plus
    0.0008 ether fails after that one request. *)
Theorem primary_swap_requests_as_asked
        (this : Trader) (tokenAddress ethAmount : string) (slippage : float) :
  let run :=
    UniswapTrader.swapEthForToken this tokenAddress ethAmount slippage in
  emits (W := W) (primary_request this tokenAddress ethAmount) run
  /\ submits_at_most (W := W) UniswapV3 2 run
  /\ submits_at_most (W := W) UniswapV2 0 run
  /\ (forall attempt wei balance (w w1 : W),
         isAddress tokenAddress = true ->
         parseEther ethAmount = Ok wei ->
         getBalance (signerAddress this) w = (Ok balance, w1) ->
         balance < wei + 800000000000000 ->
         exists e,
           UniswapTrader.swapEthForTokenSimpleAttempt
             this tokenAddress ethAmount slippage attempt w
           = (Throw e, w1, [RpcGetBalance (signerAddress this)])).
Proof.
  cbv zeta. split; [apply emits_primary_swap_requests |].
  split; [apply primary_swap_submissions |].
  split; [apply primary_swap_spares_v2 |].
  intros attempt wei balance w w1 Haddr Hwei Hbal Hlt.
  unfold UniswapTrader.swapEthForTokenSimpleAttempt.
  rewrite Haddr. cbn [negb]. rewrite bind_ret.
  unfold bind at 1. unfold lift at 1. rewrite Hwei.
  unfold bind at 1. unfold perform at 1. rewrite Hbal.
  change (8 * ether / 10000) with 800000000000000.
  apply Z.ltb_lt in Hlt. rewrite Hlt. rewrite bind_throw.
  eexists. reflexivity.
Qed.

(** X7. Every gas estimate and submission of the fallback executor is
    the V2 router's swap along [WETH, token] for a token that passes the
    address check, paid to the signer, with minimum output 0 and the
    parsed amount, at least 0.0015 ether, as value; it asks for no quote
    and reads no balance. Submissions are EIP-1559 transactions with a
    gas limit of at least 100000. A call submits at most three swaps to
    the V2 router and none to the V3 router. *)
Theorem fallback_swap_requests_as_asked
        (this : Trader) (tokenAddress ethAmount : string) (slippage : float) :
  let run :=
    SimpleSwapper.swapEthForToken this tokenAddress ethAmount slippage in
  emits (W := W) (fallback_request this tokenAddress ethAmount) run
  /\ submits_at_most (W := W) UniswapV2 3 run
  /\ submits_at_most (W := W) UniswapV3 0 run.
Proof.
  cbv zeta. split; [apply emits_fallback_swap_requests |].
  split; [apply fallback_swap_submissions | apply fallback_swap_spares_v3].
Qed.

End TradeSubmissions.

Lemma match_true {T} (s : string) (A B : T) :
  match s with "true" => A | _ => B end
  = if String.eqb s "true" then A else B.
Proof.
  destruct s as [| [[] [] [] [] [] [] [] []] s]; try reflexivity.
  destruct s as [| [[] [] [] [] [] [] [] []] s]; try reflexivity.
  destruct s as [| [[] [] [] [] [] [] [] []] s]; try reflexivity.
  destruct s as [| [[] [] [] [] [] [] [] []] s]; try reflexivity.
  destruct s; reflexivity.
Qed.

Section OrchestratorSubmissions.
Context {W : Type} `{Provider W} `{Ethers} `{Collaborators W}.

Lemma ethereum_trade_submissions v a b config request tokenInfo amount
      position :
  (forall this tok amt sl,
      submits_at_most (W := W) v a
        (UniswapTrader.swapEthForToken this tok amt sl)) ->
  (forall this tok amt sl,
      submits_at_most (W := W) v b
        (SimpleSwapper.swapEthForToken this tok amt sl)) ->
  submits_at_most (W := W) v (a + b)
    (Trading.executeEthereumNetworkTrade config request tokenInfo amount
                                         position).
Proof.
  intros Ha Hb.
  unfold Trading.executeEthereumNetworkTrade, Trading.createUniswapTrader,
    Trading.createSimpleSwapper, initializeNetwork,
    UniswapTrader.getEthBalance.
  apply (submits_weaken v _ (a + b + 0)); [lia |].
  apply submits_try_catch; [| intros; no_submission].
  repeat (apply (submits_bind v _ _ 0 (a + b)); [now no_submission | intros]).
  apply (submits_bind v _ _ a b); [apply Ha | intros res1].
  apply (submits_weaken v _ (b + 0)); [lia |].
  apply submits_bind; [| intros; now no_submission].
  destruct (negb (success res1)); [| apply (submits_weaken v _ 0); [lia |]; now no_submission].
  apply (submits_weaken v _ (b + 0)); [lia |].
  apply submits_try_catch; [| intros; now no_submission].
  repeat (apply (submits_bind v _ _ 0 b); [now no_submission | intros]).
  apply Hb.
Qed.

Lemma base_trade_submissions v request tokenInfo amount position :
  submits_at_most (W := W) v 0
    (Trading.executeBaseNetworkTrade request tokenInfo amount position).
Proof.
  unfold Trading.executeBaseNetworkTrade. now no_submission.
Qed.

Lemma executeTrade_submissions v a b config request :
  (forall this tok amt sl,
      submits_at_most (W := W) v a
        (UniswapTrader.swapEthForToken this tok amt sl)) ->
  (forall this tok amt sl,
      submits_at_most (W := W) v b
        (SimpleSwapper.swapEthForToken this tok amt sl)) ->
  submits_at_most (W := W) v (a + b) (Trading.executeTrade config request).
Proof.
  intros Ha Hb.
  assert (Hzero : forall A (m : M W A),
             submits_at_most v 0 m -> submits_at_most v (a + b) m).
  { intros A m. apply submits_weaken. lia. }
  unfold Trading.executeTrade.
  apply (submits_weaken v _ (a + b + 0)); [lia |].
  apply submits_try_catch; [| intros; now no_submission].
  assert (Hlive : forall tokenInfo balanceETH,
             submits_at_most v (a + b)
               (Trading.executeTradeWithBalance config request tokenInfo
                                                balanceETH)).
  { intros tokenInfo balanceETH. unfold Trading.executeTradeWithBalance.
    destruct (negb _); [apply Hzero; now no_submission |].
    destruct (Trading.sizeTrade _ _ _); [apply Hzero; now no_submission |].
    repeat (apply (submits_bind v _ _ 0 (a + b)); [now no_submission | intros]).
    apply (submits_weaken v _ (a + b + 0)); [lia |].
    apply submits_try_catch; [| intros; now no_submission].
    apply (submits_bind v _ _ 0 (a + b)); [now no_submission | intros].
    destruct (chainType (network tokenInfo)).
    - apply Hzero, base_trade_submissions.
    - now apply ethereum_trade_submissions. }
  assert (Hresolve :
    submits_at_most v (a + b)
      (tokenResult <- perform (ResolveToken (r_token request))
                              (resolveTokenAddress (r_token request)) ;;
       match (if found tokenResult then token tokenResult else None) with
       | None =>
           perform (MarkTweetAsProcessed (r_tweetId request))
                   (markTweetAsProcessed (r_tweetId request))
       | Some tokenInfo =>
           perform (PrepareWallet (n_id (network tokenInfo)))
                   (prepareAgentkitAndWalletProvider
                      (n_id (network tokenInfo))) ;;
           balance <- perform WalletGetBalance walletProvider_getBalance ;;
           let balanceETH :=
             match balance with
             | BalanceBigInt wei => parseFloat (formatEther wei)
             | BalanceDecimal text => parseFloat text
             end in
           try_catch
             (perform WalletGetAddress walletProvider_getAddress ;; ret tt)
             (fun _ => ret tt) ;;
           Trading.executeTradeWithBalance config request tokenInfo balanceETH
       end)).
  { apply (submits_bind v _ _ 0 (a + b)); [now no_submission | intros res].
    destruct (if found res then token res else None) as [tokenInfo |];
      [| apply Hzero; now no_submission].
    repeat (apply (submits_bind v _ _ 0 (a + b)); [now no_submission | intros]).
    apply Hlive. }
  destruct (process_env "TESTING") as [testing |]; [| exact Hresolve].
  rewrite match_true. destruct (String.eqb testing "true"); [| exact Hresolve].
  apply Hzero. unfold Trading.executeTestTrade. now no_submission.
Qed.

(** X10. One call of [executeTrade] submits at most two swaps to the
    V3 router and at most three to the V2 router. *)
Theorem trade_request_submissions_bounded config request :
  submits_at_most (W := W) UniswapV3 2 (Trading.executeTrade config request)
  /\ submits_at_most (W := W) UniswapV2 3
       (Trading.executeTrade config request).
Proof.
  split.
  - apply (executeTrade_submissions UniswapV3 2 0).
    + intros. apply primary_swap_submissions.
    + intros. apply fallback_swap_spares_v3.
  - apply (executeTrade_submissions UniswapV2 0 3).
    + intros. apply primary_swap_spares_v2.
    + intros. apply fallback_swap_submissions.
Qed.

End OrchestratorSubmissions.

(** ** The quote inversion *)

Section BinarySearch.
Context {W : Type} `{Provider W} `{Ethers}.

Lemma quot2_mid (low high : Z) :
  0 <= low -> low <= high ->
  low <= Z.quot (low + high) 2 <= high.
Proof.
  intros Hl Hh. rewrite Z.quot_div_nonneg by lia.
  split; [apply Z.div_le_lower_bound | apply Z.div_le_upper_bound]; lia.
Qed.

Lemma searchEthAmount_run tokenAddress target fee n :
  forall low high best (w : W) r w' t,
    ether / 1000 <= low -> high <= ether / 10 ->
    ether / 1000 <= best <= ether / 10 ->
    3 * (2 ^ Z.of_nat n - 1) <= high - low ->
    UniswapTrader.searchEthAmount tokenAddress target fee n low high best w
    = (r, w', t) ->
    (exists v, r = Ok v /\ ether / 1000 <= v <= ether / 10)
    /\ Forall (search_quote tokenAddress fee) t
    /\ List.length t = n.
Proof.
  change (ether / 1000) with 1000000000000000.
  change (ether / 10) with 100000000000000000.
  induction n as [| n IH]; intros low high best w r w' t Hlow Hhigh Hbest Hgap.
  - cbn. intros [= <- _ <-]. eauto.
  - cbn [UniswapTrader.searchEthAmount].
    assert (Hpow : 2 ^ Z.of_nat (S n) = 2 * 2 ^ Z.of_nat n).
    { rewrite Nat2Z.inj_succ, Z.pow_succ_r by lia. reflexivity. }
    assert (Hpos : 0 < 2 ^ Z.of_nat n) by (apply Z.pow_pos_nonneg; lia).
    rewrite Hpow in Hgap.
    set (mid := Z.quot (low + high) 2).
    assert (Hmid : mid = (low + high) / 2)
      by (apply Z.quot_div_nonneg; lia).
    assert (Hmid2 : 2 * mid <= low + high < 2 * mid + 2).
    { rewrite Hmid. pose proof (Z.mul_div_le (low + high) 2).
      pose proof (Z.mul_succ_div_gt (low + high) 2). lia. }
    assert (Hup : 1000000000000000 <= mid + 1) by lia.
    assert (Hgap1 : 3 * (2 ^ Z.of_nat n - 1) <= high - (mid + 1)) by lia.
    assert (Hdown : mid - 1 <= 100000000000000000) by lia.
    assert (Hgap2 : 3 * (2 ^ Z.of_nat n - 1) <= mid - 1 - low) by lia.
    assert (Hbest2 : 1000000000000000 <= mid <= 100000000000000000) by lia.
    unfold bind at 1. unfold try_catch at 1. unfold bind at 1.
    unfold UniswapTrader.getQuote, try_catch at 1, perform.
    destruct (quoteExactInputSingle WETH_ADDRESS tokenAddress fee mid 0 w)
      as [[e | quote] w1].
    + cbn [rethrow ret app].
      destruct (UniswapTrader.searchEthAmount tokenAddress target fee n
                  (mid + 1) high best w1) as [[r2 w2] t2] eqn:E2.
      intros [= <- _ <-].
      destruct (IH _ _ _ _ _ _ _ Hup Hhigh Hbest Hgap1 E2)
        as (Hv & Ht & Hn).
      split; [exact Hv |]. split.
      * constructor; [| exact Ht]. unfold search_quote.
        change (ether / 1000) with 1000000000000000.
        change (ether / 10) with 100000000000000000.
        repeat split; lia.
      * cbn. now rewrite Hn.
    + cbn [ret app].
      destruct (quote >=? target).
      * destruct (UniswapTrader.searchEthAmount tokenAddress target fee n
                    low (mid - 1) mid w1) as [[r2 w2] t2] eqn:E2.
        intros [= <- _ <-].
        destruct (IH _ _ _ _ _ _ _ Hlow Hdown Hbest2 Hgap2 E2)
          as (Hv & Ht & Hn).
        split; [exact Hv |]. split.
        -- constructor; [| exact Ht]. unfold search_quote.
        change (ether / 1000) with 1000000000000000.
        change (ether / 10) with 100000000000000000.
        repeat split; lia.
        -- cbn. now rewrite Hn.
      * destruct (UniswapTrader.searchEthAmount tokenAddress target fee n
                    (mid + 1) high best w1) as [[r2 w2] t2] eqn:E2.
        intros [= <- _ <-].
        destruct (IH _ _ _ _ _ _ _ Hup Hhigh Hbest Hgap1 E2)
          as (Hv & Ht & Hn).
        split; [exact Hv |]. split.
        -- constructor; [| exact Ht]. unfold search_quote.
        change (ether / 1000) with 1000000000000000.
        change (ether / 10) with 100000000000000000.
        repeat split; lia.
        -- cbn. now rewrite Hn.
Qed.

Section MonotoneQuoter.
Variables (tokenAddress : string) (target fee : Z) (q : Z -> Z) (w : W).
Hypothesis quoter_pure :
  forall amt,
    quoteExactInputSingle WETH_ADDRESS tokenAddress fee amt 0 w
    = (Ok (q amt), w).
Hypothesis quoter_monotone : forall a b, a <= b -> q a <= q b.

Lemma searchEthAmount_accurate n :
  forall low high best D,
    ether / 1000 <= low -> high <= ether / 10 ->
    3 * (2 ^ Z.of_nat n - 1) <= high - low -> high - low <= D ->
    (forall x, ether / 1000 <= x < low -> q x < target) ->
    best <= high + 1 ->
    (best = ether / 10 \/ target <= q best) ->
    exists v t,
      UniswapTrader.searchEthAmount tokenAddress target fee n low high best w
      = (Ok v, w, t)
      /\ (v = ether / 10 \/ target <= q v)
      /\ forall x, ether / 1000 <= x ->
                   (x + 2) * 2 ^ Z.of_nat n + D <= v * 2 ^ Z.of_nat n ->
                   q x < target.
Proof.
  change (ether / 1000) with 1000000000000000.
  change (ether / 10) with 100000000000000000.
  induction n as [| n IH];
    intros low high best D Hlow Hhigh Hgap HD Hbelow Hbest Hq.
  - cbn [UniswapTrader.searchEthAmount]. exists best, []. split; [reflexivity |].
    split; [exact Hq |]. intros x Hx Hxv. apply Hbelow.
    change (2 ^ Z.of_nat 0) with 1 in Hxv. lia.
  - cbn [UniswapTrader.searchEthAmount].
    assert (Hpow : 2 ^ Z.of_nat (S n) = 2 * 2 ^ Z.of_nat n).
    { rewrite Nat2Z.inj_succ, Z.pow_succ_r by lia. reflexivity. }
    assert (Hpos : 0 < 2 ^ Z.of_nat n) by (apply Z.pow_pos_nonneg; lia).
    rewrite Hpow in *.
    set (mid := Z.quot (low + high) 2).
    assert (Hmid : mid = (low + high) / 2)
      by (apply Z.quot_div_nonneg; lia).
    assert (Hmid2 : 2 * mid <= low + high < 2 * mid + 2).
    { rewrite Hmid. pose proof (Z.mul_div_le (low + high) 2).
      pose proof (Z.mul_succ_div_gt (low + high) 2). lia. }
    assert (HD2 : 2 * (D / 2) <= D) by (apply Z.mul_div_le; lia).
    assert (HD3 : D < 2 * (D / 2) + 2).
    { pose proof (Z.mul_succ_div_gt D 2). lia. }
    unfold bind at 1. unfold try_catch at 1. unfold bind at 1.
    unfold UniswapTrader.getQuote, try_catch at 1, perform.
    rewrite quoter_pure. cbn [ret app].
    destruct (Z.geb_spec (q mid) target) as [Hge | Hlt].
    + assert (Hq' : mid = 100000000000000000 \/ target <= q mid)
        by (right; lia).
      destruct (IH low (mid - 1) mid (D / 2) Hlow ltac:(lia) ltac:(lia)
                  ltac:(lia) Hbelow ltac:(lia) Hq')
        as (v & t & E & Hv & Hx).
      rewrite E. exists v, (RpcQuote WETH_ADDRESS tokenAddress fee mid :: t).
      split; [reflexivity |]. split; [exact Hv |].
      intros x Hx1 Hx2. apply Hx; [exact Hx1 |]. nia.
    + assert (Hbelow' : forall x, 1000000000000000 <= x < mid + 1 ->
                                 q x < target).
      { intros x Hx. destruct (Z.le_gt_cases low x) as [Hle | Hgt].
        - pose proof (quoter_monotone x mid ltac:(lia)). lia.
        - apply Hbelow. lia. }
      destruct (IH (mid + 1) high best (D / 2) ltac:(lia) Hhigh ltac:(lia)
                  ltac:(lia) Hbelow' Hbest Hq)
        as (v & t & E & Hv & Hx).
      rewrite E. exists v, (RpcQuote WETH_ADDRESS tokenAddress fee mid :: t).
      split; [reflexivity |]. split; [exact Hv |].
      intros x Hx1 Hx2. apply Hx; [exact Hx1 |]. nia.
Qed.

End MonotoneQuoter.

Lemma calculateEthForTokenAmount_run tokenAddress target (w : W) r w' t :
  UniswapTrader.calculateEthForTokenAmount tokenAddress target w
  = (r, w', t) ->
  (exists v, r = Ok (v, 3000) /\ ether / 1000 <= v <= ether / 10)
  /\ Forall (search_quote tokenAddress 3000) t
  /\ List.length t = 20%nat.
Proof.
  unfold UniswapTrader.calculateEthForTokenAmount, UniswapTrader.feeTiers.
  cbn [UniswapTrader.calculateEthForTokenAmountFrom].
  unfold try_catch, bind.
  destruct (UniswapTrader.searchEthAmount tokenAddress target 3000 20
              (ether / 1000) (ether / 10) (ether / 10) w)
    as [[r1 w1] t1] eqn:E.
  apply searchEthAmount_run in E;
    [| lia | lia | change (ether / 1000) with 1000000000000000;
                  change (ether / 10) with 100000000000000000; lia
     | change (ether / 1000) with 1000000000000000;
       change (ether / 10) with 100000000000000000;
       change (2 ^ Z.of_nat 20) with 1048576; lia ].
  destruct E as ((v & -> & Hv) & Ht & Hn).
  unfold ret. rewrite app_nil_r. intros [= <- _ <-]. eauto.
Qed.

Lemma searchEthAmount_no_pool tokenAddress target fee n :
  (forall amt (w0 : W), exists e w1,
      quoteExactInputSingle WETH_ADDRESS tokenAddress fee amt 0 w0
      = (Throw e, w1)) ->
  forall low high best (w : W) r w' t,
    UniswapTrader.searchEthAmount tokenAddress target fee n low high best w
    = (r, w', t) -> r = Ok best.
Proof.
  intros Hdry. induction n as [| n IH]; intros low high best w r w' t.
  - cbn. now intros [= <- _ _].
  - cbn [UniswapTrader.searchEthAmount].
    unfold bind at 1. unfold try_catch at 1. unfold bind at 1.
    unfold UniswapTrader.getQuote, try_catch at 1, perform.
    destruct (Hdry (Z.quot (low + high) 2) w) as (e & w1 & ->).
    cbn [rethrow ret app].
    destruct (UniswapTrader.searchEthAmount _ _ _ n _ _ _ w1)
      as [[r2 w2] t2] eqn:E2.
    intros [= <- _ _]. exact (IH _ _ _ _ _ _ _ E2).
Qed.

(** X4. [calculateEthForTokenAmount] never fails and never leaves the
    first fee tier: it always returns tier 3000 and an input between
    0.001 and 0.1 ether, after exactly 20 quote requests, all on tier
    3000 and for inputs within those bounds. When every quote fails (no
    pool on that tier) the input it returns is the upper bound,
    0.1 ether. *)
Theorem calculateEthForTokenAmount_bounds tokenAddress target (w : W) :
  exists v w' t,
    UniswapTrader.calculateEthForTokenAmount tokenAddress target w
    = (Ok (v, 3000), w', t)
    /\ ether / 1000 <= v <= ether / 10
    /\ Forall (search_quote tokenAddress 3000) t
    /\ List.length t = 20%nat
    /\ ((forall amt (w0 : W), exists e w1,
            quoteExactInputSingle WETH_ADDRESS tokenAddress 3000 amt 0 w0
            = (Throw e, w1)) ->
        v = ether / 10).
Proof.
  destruct (UniswapTrader.calculateEthForTokenAmount tokenAddress target w)
    as [[r w'] t] eqn:E.
  destruct (calculateEthForTokenAmount_run _ _ _ _ _ _ E)
    as ((v & -> & Hv) & Ht & Hn).
  exists v, w', t. repeat (split; [assumption || reflexivity |]).
  intros Hdry. revert E. clear Hv.
  remember (ether / 10) as cap eqn:Ecap. remember (ether / 1000) as floor.
  unfold UniswapTrader.calculateEthForTokenAmount, UniswapTrader.feeTiers.
  cbn [UniswapTrader.calculateEthForTokenAmountFrom].
  unfold try_catch, bind.
  rewrite <- Ecap, <- Heqfloor.
  destruct (UniswapTrader.searchEthAmount tokenAddress target 3000 20
              floor cap cap w)
    as [[r1 w1] t1] eqn:E1.
  rewrite (searchEthAmount_no_pool _ _ _ _ Hdry _ _ _ _ _ _ _ E1).
  unfold ret. cbv beta iota zeta. intros E. now injection E as <-.
Qed.

(** X5. With a quoter that answers every request in the current chain
    state with [q amt], leaving the state unchanged, and [q] monotone:
    the input [v] that [calculateEthForTokenAmount] returns is the cap of
    0.1 ether or is quoted at least the target; it is the cap when even
    the cap is quoted below the target; and every input from 0.001 ether
    up that lies [10^11] wei or more below [v] is quoted below the
    target. *)
Theorem calculateEthForTokenAmount_accuracy tokenAddress target
        (q : Z -> Z) (w : W) :
  (forall amt,
      quoteExactInputSingle WETH_ADDRESS tokenAddress 3000 amt 0 w
      = (Ok (q amt), w)) ->
  (forall a b, a <= b -> q a <= q b) ->
  exists v t,
    UniswapTrader.calculateEthForTokenAmount tokenAddress target w
    = (Ok (v, 3000), w, t)
    /\ (v = ether / 10 \/ target <= q v)
    /\ (q (ether / 10) < target -> v = ether / 10)
    /\ forall x, ether / 1000 <= x -> x + 10 ^ 11 <= v -> q x < target.
Proof.
  intros Hpure Hmono.
  assert (Hgap : 3 * (2 ^ Z.of_nat 20 - 1) <= ether / 10 - ether / 1000)
    by (vm_compute; discriminate).
  assert (Hbelow : forall x, ether / 1000 <= x < ether / 1000 ->
                             q x < target) by (intros x Hx; lia).
  destruct (searchEthAmount_accurate tokenAddress target 3000 q w Hpure Hmono
              20 (ether / 1000) (ether / 10) (ether / 10)
              (ether / 10 - ether / 1000)
              (Z.le_refl _) (Z.le_refl _) Hgap (Z.le_refl _) Hbelow
              ltac:(lia) (or_introl eq_refl))
    as (v & t & E & Hv & Hx).
  exists v, t.
  unfold UniswapTrader.calculateEthForTokenAmount, UniswapTrader.feeTiers.
  cbn [UniswapTrader.calculateEthForTokenAmountFrom].
  unfold try_catch, bind. rewrite E. cbn [ret app].
  rewrite app_nil_r. split; [reflexivity |]. split; [exact Hv |]. split.
  - intros Hcap. destruct Hv as [Hv | Hv]; [exact Hv |].
    destruct (calculateEthForTokenAmount_run tokenAddress target w
                (Ok (v, 3000)) w t) as ((v' & [= <-] & Hrange) & _).
    { unfold UniswapTrader.calculateEthForTokenAmount, UniswapTrader.feeTiers.
      cbn [UniswapTrader.calculateEthForTokenAmountFrom].
      unfold try_catch, bind. rewrite E. cbn. now rewrite app_nil_r. }
    pose proof (Hmono v (ether / 10) ltac:(lia)). lia.
  - intros x Hx1 Hx2. apply Hx; [exact Hx1 |].
    change (2 ^ Z.of_nat 20) with 1048576.
    change (ether / 10 - ether / 1000) with 99000000000000000.
    change (10 ^ 11) with 100000000000 in Hx2. lia.
Qed.

End BinarySearch.

(** ** The exact-output executor and the attempt loops *)

Section ExactOutputRequests.
Context {W : Type} `{Provider W} `{Ethers}.

Lemma totalReserveOf_positive s g cfg :
  supports1559 s = true ->
  fees_floored s cfg /\ gasLimit cfg = GasManager.gasLimitFor s g ->
  2 * ether / 10000 < UniswapTrader.totalReserveOf cfg.
Proof.
  unfold fees_floored. intros -> ((_ & _ & f & p & Hf & _ & Hfl) & Hl).
  unfold UniswapTrader.totalReserveOf. rewrite Hf, Hl. cbv zeta.
  pose proof (gasLimitFor_floor s g) as Hg.
  assert (Hf0 : 100000000 <= f) by (destruct (isMainnet s); lia).
  unfold JS.or_bigint at 1. destruct (Z.eqb_spec f 0); [lia |].
  change (2 * ether / 10000) with 200000000000000. nia.
Qed.

Lemma calculateSafeTradeAmount_returns tokenAddress B target :
  returns (W := W)
    (UniswapTrader.calculateSafeTradeAmount tokenAddress B target)
    (fun s =>
       0 < tradeAmount s
       /\ 2 * ether / 10000 < gasReserve s
       /\ tradeAmount s + gasReserve s <= B
       /\ In (s_fee s) UniswapTrader.feeTiers
       /\ (JS.truthy target = true ->
           s_fee s = 3000 /\ tradeAmount s <= ether / 10)).
Proof.
  unfold UniswapTrader.calculateSafeTradeAmount.
  eapply returns_bind; [apply thisGasManager_supports1559 | intros s Hs].
  eapply returns_bind; [apply getGasConfig_fees | intros cfg Hcfg].
  pose proof (totalReserveOf_positive s 200000 cfg Hs Hcfg) as HG.
  cbv zeta. set (G := UniswapTrader.totalReserveOf cfg) in *.
  change (2 * ether / 10000) with 200000000000000 in *.
  destruct (Z.leb_spec B G) as [HB | HB]; [apply returns_throw |].
  destruct (JS.truthy target) eqn:Ht.
  - eapply returns_bind with
      (P := fun vf => snd vf = 3000 /\ ether / 1000 <= fst vf <= ether / 10).
    + intros w [v f] w' t E.
      apply calculateEthForTokenAmount_run in E.
      destruct E as ((v' & [= -> ->] & Hv) & _). cbn [fst snd]. auto.
    + intros [v f] [Hf Hv]. cbn [fst snd] in Hf, Hv. subst f.
      change (ether / 1000) with 1000000000000000 in Hv.
      change (ether / 10) with 100000000000000000 in *.
      destruct (Z.gtb_spec v (B - G)); apply returns_ret;
        cbn [tradeAmount gasReserve s_fee];
        (repeat split; try lia; try (now left)).
  - eapply returns_bind with
      (P := fun q => In (q_fee q) UniswapTrader.feeTiers).
    + apply (findBestFeeAndQuoteFrom_requests (fun _ => True)). auto.
    + intros q Hq. apply returns_ret. cbn [tradeAmount gasReserve s_fee].
      repeat split; try lia; try assumption; discriminate.
Qed.

Lemma emits_calculateSafeTradeAmount (P : Event -> Prop) tokenAddress B
      target :
  P RpcGetFeeData -> P RpcGetBlock ->
  (forall tin tout fee amt, P (RpcQuote tin tout fee amt)) ->
  emits (W := W) P
        (UniswapTrader.calculateSafeTradeAmount tokenAddress B target).
Proof.
  intros Hfee Hblock Hquote. unfold UniswapTrader.calculateSafeTradeAmount.
  apply emits_bind; [apply emits_thisGasManager | intros s].
  apply emits_bind;
    [apply emits_getGasConfig_requests; assumption | intros cfg].
  cbv zeta. destruct (_ <=? _); [apply emits_throw |].
  destruct (JS.truthy target).
  - apply emits_bind.
    + intros w r w' t E. apply calculateEthForTokenAmount_run in E.
      destruct E as (_ & Ht & _). eapply Forall_impl; [| exact Ht].
      intros [] He; try contradiction. apply Hquote.
    + intros [v f]. destruct (_ >? _); apply emits_ret.
  - apply emits_bind; [| intros; apply emits_ret].
    apply findBestFeeAndQuoteFrom_requests. intros; apply Hquote.
Qed.

Lemma emits_exact_output_attempt this tokenAddress ethAmount target
      slippage attempt :
  JS.truthy target = true ->
  emits (W := W) (exact_output_request this tokenAddress)
        (UniswapTrader.swapEthForTokenInternalAttempt this tokenAddress
           ethAmount target slippage attempt).
Proof.
  intros Ht.
  unfold UniswapTrader.swapEthForTokenInternalAttempt.
  apply emits_bind;
    [destruct (negb _); [apply emits_throw | apply emits_ret] | intros _].
  apply emits_bind; [apply emits_perform; exact I | intros balance].
  eapply emits_bind_returns;
    [ apply emits_calculateSafeTradeAmount; intros; exact I
    | apply calculateSafeTradeAmount_returns | intros sc Hsc].
  cbv beta in Hsc. destruct Hsc as (Hpos & _ & _ & _ & Htarget).
  destruct (Htarget Ht) as [Hfee Hcap].
  apply emits_bind; [apply emits_now | intros date].
  apply emits_bind;
    [apply findBestFeeAndQuoteFrom_requests; intros; exact I | intros q].
  assert (Hswap : exact_output_swap this tokenAddress
                    {| tokenIn := WETH_ADDRESS; tokenOut := tokenAddress;
                       fee := s_fee sc; recipient := signerAddress this;
                       deadline := date / 1000 + 600;
                       amountIn := tradeAmount sc;
                       amountOutMinimum := q_amountOutMin q;
                       sqrtPriceLimitX96 := 0 |}).
  { unfold exact_output_swap.
    cbn [tokenIn tokenOut recipient fee amountIn sqrtPriceLimitX96].
    auto 10. }
  apply emits_bind.
  { apply emits_estimateGasLoop;
      [cbn [exact_output_request]; auto | intros ms; exact I]. }
  intros g.
  eapply emits_bind_returns;
    [apply emits_thisGasManager | apply thisGasManager_supports1559
     | intros s Hs].
  eapply emits_bind_returns;
    [apply emits_getGasConfig_requests; exact I | apply getGasConfig_fees
     | intros cfg Hcfg].
  destruct (txOptionsFor_eip1559 s g cfg (tradeAmount sc) Hs Hcfg)
    as [Ho Hv].
  apply emits_bind; [apply emits_perform; cbn; auto | intros txHash].
  apply emits_bind; [apply emits_perform; exact I | intros receipt].
  destruct receipt as [r |]; [destruct (status r) as [[| |] |] |];
    first [apply emits_throw | apply emits_ret].
Qed.

Lemma exact_output_attempt_submits_once v this tokenAddress ethAmount target
      slippage attempt :
  submits_at_most (W := W) v 1
    (UniswapTrader.swapEthForTokenInternalAttempt this tokenAddress
       ethAmount target slippage attempt).
Proof.
  unfold UniswapTrader.swapEthForTokenInternalAttempt.
  repeat (apply (submits_bind v _ _ 0 1);
          [first [ now no_submission
                 | apply submits_none_of_emits,
                     emits_calculateSafeTradeAmount; reflexivity ]
          | intros]).
  apply (submits_bind v _ _ 1 0); [apply submits_perform | intros].
  no_submission.
Qed.

Lemma attemptLoop_ext {A} (body1 body2 : Z -> M W A) delay maxRetries n :
  (forall i w, body1 i w = body2 i w) ->
  forall attempt lastError (w : W),
    attemptLoop body1 delay maxRetries n attempt lastError w
    = attemptLoop body2 delay maxRetries n attempt lastError w.
Proof.
  intros Hbody. induction n as [| n IH]; intros attempt lastError w;
    [reflexivity |].
  rewrite !attemptLoop_step, Hbody.
  destruct (body2 attempt w) as [[[e | a] w1] t1]; [| reflexivity].
  unfold bind.
  destruct ((if attempt <? maxRetries then sleep (delay attempt) else ret tt)
              w1) as [[[e' | []] w2] t2]; [reflexivity |].
  now rewrite IH.
Qed.

Lemma attemptLoop_three {A} (body : Z -> M W A) delay (w : W) :
  attemptLoop body delay 3 3 1 None w
  = match body 1 w with
    | (Ok a, w1, t1) => (Ok (inl a), w1, t1)
    | (Throw _, w1, t1) =>
        match body 2 (setTimeout (delay 1) w1) with
        | (Ok a, w2, t2) => (Ok (inl a), w2, t1 ++ Sleep (delay 1) :: t2)
        | (Throw _, w2, t2) =>
            match body 3 (setTimeout (delay 2) w2) with
            | (Ok a, w3, t3) =>
                (Ok (inl a), w3,
                 t1 ++ Sleep (delay 1) :: t2 ++ Sleep (delay 2) :: t3)
            | (Throw e3, w3, t3) =>
                (Ok (inr (Some (messageOf e3))), w3,
                 t1 ++ Sleep (delay 1) :: t2 ++ Sleep (delay 2) :: t3)
            end
        end
    end.
Proof.
  rewrite attemptLoop_step.
  destruct (body 1 w) as [[[e1 | a] w1] t1]; [| reflexivity].
  unfold bind at 1. change (1 <? 3) with true. cbv iota.
  unfold sleep at 1. change (1 + 1) with 2. rewrite attemptLoop_step.
  destruct (body 2 (setTimeout (delay 1) w1)) as [[[e2 | a] w2] t2];
    [| reflexivity].
  unfold bind at 1. change (2 <? 3) with true. cbv iota.
  unfold sleep at 1. change (2 + 1) with 3. rewrite attemptLoop_step.
  destruct (body 3 (setTimeout (delay 2) w2)) as [[[e3 | a] w3] t3];
    cbn; rewrite ?app_nil_r; reflexivity.
Qed.

(** X8. The attempt loops of [SimpleSwapper.swapEthForToken] and of
    [swapEthForTokenInternal]: the result of the first attempt that
    returns, among at most three, with a wait of 2000 ms after a failed
    first attempt and of 4000 ms after a failed second one; after three
    failed attempts, the failure ["After 3 attempts: <last error>"]. *)
Theorem three_attempts_with_backoff
        (this : Trader) (tokenAddress ethAmount : string)
        (ethAmount' : option string) (target : option Z) (slippage : float)
        (w : W) :
  SimpleSwapper.swapEthForToken this tokenAddress ethAmount slippage w
  = threeAttempts (SimpleSwapper.swapEthForTokenAttempt
                     this tokenAddress ethAmount slippage) w
  /\ UniswapTrader.swapEthForTokenInternal this tokenAddress ethAmount'
       target slippage w
     = threeAttempts (UniswapTrader.swapEthForTokenInternalAttempt
                        this tokenAddress ethAmount' target slippage) w.
Proof.
  unfold SimpleSwapper.swapEthForToken, UniswapTrader.swapEthForTokenInternal,
    threeAttempts.
  cbv zeta. change (Z.to_nat 3) with 3%nat. unfold bind.
  rewrite !attemptLoop_three. split.
  - destruct (SimpleSwapper.swapEthForTokenAttempt _ _ _ _ 1 w)
      as [[[e1 | a] w1] t1]; [| cbn; now rewrite app_nil_r].
    destruct (SimpleSwapper.swapEthForTokenAttempt _ _ _ _ 2 _)
      as [[[e2 | a] w2] t2]; [| cbn; now rewrite app_nil_r].
    destruct (SimpleSwapper.swapEthForTokenAttempt _ _ _ _ 3 _)
      as [[[e3 | a] w3] t3]; cbn; now rewrite app_nil_r.
  - destruct (UniswapTrader.swapEthForTokenInternalAttempt _ _ _ _ _ 1 w)
      as [[[e1 | a] w1] t1]; [| cbn; now rewrite app_nil_r].
    destruct (UniswapTrader.swapEthForTokenInternalAttempt _ _ _ _ _ 2 _)
      as [[[e2 | a] w2] t2]; [| cbn; now rewrite app_nil_r].
    destruct (UniswapTrader.swapEthForTokenInternalAttempt _ _ _ _ _ 3 _)
      as [[[e3 | a] w3] t3]; cbn; now rewrite app_nil_r.
Qed.

Lemma exact_output_swap_returns this tokenAddress ethAmount target slippage
      (w : W) :
  exists res w' t,
    UniswapTrader.swapEthForTokenInternal this tokenAddress ethAmount target
                                          slippage w = (Ok res, w', t).
Proof.
  unfold UniswapTrader.swapEthForTokenInternal.
  cbv zeta. apply bind_total.
  - intros w0. apply attemptLoop_returns.
  - intros [res | lastError] w0; apply ret_total.
Qed.

Lemma exact_output_swap_submissions v this tokenAddress ethAmount target
      slippage :
  submits_at_most (W := W) v 3
    (UniswapTrader.swapEthForTokenInternal this tokenAddress ethAmount
       target slippage).
Proof.
  unfold UniswapTrader.swapEthForTokenInternal.
  cbv zeta. apply (submits_bind v _ _ 3 0).
  - change (Z.to_nat 3) with 3%nat. apply (submits_attemptLoop v _ _ _ 1 3).
    intros i. apply exact_output_attempt_submits_once.
  - intros [res | lastError]; no_submission.
Qed.

(** X9. [swapEthForExactTokens]: a target amount that does not parse
    makes the call throw, before any request; otherwise the call returns
    a result. A target of zero is treated as no target: the call is the
    balance-maximal swap. For a non-zero target every gas estimate and
    submission swaps a positive amount of at most 0.1 ether on tier
    3000, paid to the signer, with that amount as value. A call submits
    at most three swaps. *)
Theorem swapEthForExactTokens_contract
        (this : Trader) (tokenAddress targetTokenAmount : string)
        (slippage : float) :
  let run :=
    UniswapTrader.swapEthForExactTokens this tokenAddress targetTokenAmount
                                        slippage in
  (forall e (w : W),
      parseUnits targetTokenAmount 18 = Throw e -> run w = (Throw e, w, []))
  /\ (forall target (w : W),
         parseUnits targetTokenAmount 18 = Ok target ->
         exists res w' t, run w = (Ok res, w', t))
  /\ (forall w : W,
         parseUnits targetTokenAmount 18 = Ok 0 ->
         run w = UniswapTrader.swapEthForTokenInternal
                   this tokenAddress None None slippage w)
  /\ (forall target,
         parseUnits targetTokenAmount 18 = Ok target -> target <> 0 ->
         emits (W := W) (exact_output_request this tokenAddress) run)
  /\ submits_at_most (W := W) UniswapV3 3 run.
Proof.
  cbv zeta. unfold UniswapTrader.swapEthForExactTokens.
  split; [| split; [| split; [| split]]].
  - intros e w ->. reflexivity.
  - intros target w ->.
    destruct (exact_output_swap_returns this tokenAddress None (Some target)
                slippage w) as (res & w' & t & E).
    exists res, w', t. unfold bind, lift. now rewrite E.
  - intros w ->. unfold bind at 1. unfold lift.
    destruct (UniswapTrader.swapEthForTokenInternal this tokenAddress None
                (Some 0) slippage w) as [[r w'] t] eqn:E.
    cbn [app]. rewrite <- E.
    unfold UniswapTrader.swapEthForTokenInternal. cbv zeta.
    unfold bind.
    rewrite (attemptLoop_ext
               (UniswapTrader.swapEthForTokenInternalAttempt
                  this tokenAddress None (Some 0) slippage)
               (UniswapTrader.swapEthForTokenInternalAttempt
                  this tokenAddress None None slippage)); [reflexivity |].
    intros i w0. reflexivity.
  - intros target Hparse Hne. rewrite Hparse.
    apply emits_bind_lift. intros t0 [= <-].
    unfold UniswapTrader.swapEthForTokenInternal. cbv zeta.
    apply emits_bind.
    + apply emits_attemptLoop; [| intros ms; exact I].
      intros i. apply emits_exact_output_attempt.
      cbn. now destruct (Z.eqb_spec target 0).
    + intros [res | lastError]; apply emits_ret.
  - apply (submits_bind UniswapV3 _ _ 0 3); [now no_submission | intros t0].
    apply exact_output_swap_submissions.
Qed.

End ExactOutputRequests.

(** ** Paths of the orchestrator *)

Section TradePaths.
Context {W : Type} `{Provider W} `{Ethers} `{Collaborators W}.

(** X11. With [TESTING=true], [executeTrade] is [executeTestTrade]: it
    resolves no token, touches no wallet and no chain, and calls no
    venue. All it does is draw an identifier, save one holding position
    for the requested token, sized at one unit of USDC at the mock
    price, and show the purchase. *)
Theorem testing_mode_is_offline config request :
  process_env "TESTING" = Some "true" ->
  emits (W := W) (test_trade_event request)
        (Trading.executeTrade config request)
  /\ forall w : W,
      Trading.executeTrade config request w
      = Trading.executeTestTrade request w.
Proof.
  intros Henv. unfold Trading.executeTrade. rewrite Henv.
  assert (He : emits (W := W) (test_trade_event request)
                     (Trading.executeTestTrade request)).
  { unfold Trading.executeTestTrade, Trading.toast.
    emits_auto.
    - apply emits_perform. cbn. auto 10.
    - intros w r w' t [= _ _ <-]. constructor.
    - intros w r w' t [= _ _ <-]. repeat constructor. }
  split.
  - apply emits_try_catch; [exact He | intros; apply emits_rethrow].
  - intros w. apply try_catch_rethrow.
Qed.

(** X13. A trade on a Base network makes no request to the chain,
    waits on no timer and calls no swap venue; a trade on an Ethereum
    network requests no custodial trade. *)
Theorem families_do_not_mix config request tokenInfo B :
  emits (W := W) (family_event (chainType (network tokenInfo)))
        (Trading.executeTradeWithBalance config request tokenInfo B).
Proof.
  assert (HP : forall e, is_executor_event e -> family_event ethereum e).
  { intros []; cbn; auto. }
  unfold Trading.executeTradeWithBalance, Trading.toast.
  destruct (chainType (network tokenInfo)) eqn:Ect.
  - destruct (negb _); [emits_auto |].
    destruct (Trading.sizeTrade _ _ _); [emits_auto |].
    unfold Trading.executeBaseNetworkTrade, Trading.toast.
    emits_auto.
    all: try (intros w r w' t [= _ _ <-]; repeat constructor).
  - destruct (negb _); [emits_auto |].
    destruct (Trading.sizeTrade _ _ _); [emits_auto |].
    unfold Trading.executeEthereumNetworkTrade, Trading.createUniswapTrader,
      Trading.createSimpleSwapper, initializeNetwork, Trading.invoke,
      Trading.toast.
    emits_auto;
      first [ apply emits_getEthBalance, HP
            | apply emits_primary_swap, HP
            | apply emits_fallback_swap, HP
            | idtac ].
    all: try (intros w r w' t [= _ _ <-]; repeat constructor).
Qed.

(** [executeTrade] outside testing mode. *)
Lemma executeTrade_live config request (w : W) :
  process_env "TESTING" <> Some "true" ->
  Trading.executeTrade config request w
  = (tokenResult <- perform (ResolveToken (r_token request))
                            (resolveTokenAddress (r_token request)) ;;
     match (if found tokenResult then token tokenResult else None) with
     | None =>
         perform (MarkTweetAsProcessed (r_tweetId request))
                 (markTweetAsProcessed (r_tweetId request))
     | Some tokenInfo =>
         perform (PrepareWallet (n_id (network tokenInfo)))
                 (prepareAgentkitAndWalletProvider
                    (n_id (network tokenInfo))) ;;
         balance <- perform WalletGetBalance walletProvider_getBalance ;;
         let balanceETH :=
           match balance with
           | BalanceBigInt wei => parseFloat (formatEther wei)
           | BalanceDecimal text => parseFloat text
           end in
         try_catch
           (perform WalletGetAddress walletProvider_getAddress ;; ret tt)
           (fun _ => ret tt) ;;
         Trading.executeTradeWithBalance config request tokenInfo balanceETH
     end) w.
Proof.
  intros Henv. unfold Trading.executeTrade. rewrite try_catch_rethrow.
  destruct (process_env "TESTING") as [testing |]; [| reflexivity].
  rewrite match_true.
  destruct (String.eqb_spec testing "true") as [-> | _];
    [congruence | reflexivity].
Qed.

(** X12. Outside testing mode: when the token resolver throws,
    [executeTrade] throws its error and does nothing else (the tweet is
    not marked as processed); when the resolver finds no token, the
    tweet is marked as processed and nothing else is done: no wallet is
    prepared, no position saved. *)
Theorem unresolved_token_is_skipped config request (w : W) :
  process_env "TESTING" <> Some "true" ->
  let run := Trading.executeTrade config request w in
  (forall e w1,
      resolveTokenAddress (r_token request) w = (Throw e, w1) ->
      run = (Throw e, w1, [ResolveToken (r_token request)]))
  /\ (forall res w1,
         resolveTokenAddress (r_token request) w = (Ok res, w1) ->
         found res = false \/ token res = None ->
         run = (fst (markTweetAsProcessed (r_tweetId request) w1),
                snd (markTweetAsProcessed (r_tweetId request) w1),
                [ResolveToken (r_token request);
                 MarkTweetAsProcessed (r_tweetId request)])).
Proof.
  intros Henv. cbv zeta. rewrite (executeTrade_live _ _ _ Henv).
  split.
  - intros e w1 E. unfold bind, perform. rewrite E. reflexivity.
  - intros res w1 E Hres. unfold bind at 1. unfold perform at 1. rewrite E.
    assert (Hnone : (if found res then token res else None) = None).
    { destruct Hres as [-> | ->]; [reflexivity | now destruct (found res)]. }
    rewrite Hnone. unfold perform.
    now destruct (markTweetAsProcessed (r_tweetId request) w1).
Qed.

(** X14. When the trade of a committed amount throws, [executeTrade]
    (from the point where the balance is known) saves the position with
    status [failed], under the identifier and purchase time it drew
    before the trade, shows the failure and rethrows what was thrown;
    the toast carries the message of a thrown [Error] and
    ["Unknown error"] for any other thrown value. If saving fails as
    well, what the store throws is thrown instead and no failure is
    shown. *)
Theorem failed_trade_is_recorded config request tokenInfo B a (w : W)
        id w1 e w2 t2 :
  enabled (hybrid config (chainType (network tokenInfo))) = true ->
  Trading.sizeTrade config (chainType (network tokenInfo)) B = Committed a ->
  generateId w = (Ok id, w1) ->
  let position status :=
    {| p_id := id; p_token := r_token request; p_amount := a;
       p_purchasePrice := Trading.getTokenPrice (r_token request);
       p_purchaseTime := Date_now w1; p_tweet := r_tweet request;
       p_influencer := r_influencer request; p_status := status |} in
  match chainType (network tokenInfo) with
  | base =>
      Trading.executeBaseNetworkTrade request tokenInfo a (position holding)
  | ethereum =>
      Trading.executeEthereumNetworkTrade config request tokenInfo a
                                          (position holding)
  end w1 = (Throw e, w2, t2) ->
  exists info,
    Trading.executeTradeWithBalance config request tokenInfo B w
    = match savePosition (position failed) w2 with
      | (Ok _, w3) =>
          (Throw e, w3,
           GenerateId :: Toast info
           :: t2 ++ [SavePosition (position failed);
                     Toast (addErrorToast "Trade Failed"
                              ("Failed to buy " +++ r_token request +++ ": "
                               +++ match e with
                                   | ErrorObject message => message
                                   | OtherValue _ => "Unknown error"
                                   end)
                              {| t_token := Some (r_token request);
                                 t_amount := None;
                                 t_influencer := Some (r_influencer request);
                                 t_price := None; t_txHash := None;
                                 t_explorerUrl := None |})])
      | (Throw e', w3) =>
          (Throw e', w3,
           GenerateId :: Toast info :: t2 ++ [SavePosition (position failed)])
      end.
Proof.
  intros Hen Hsize Hid position Hfam.
  unfold Trading.executeTradeWithBalance. rewrite Hen, Hsize. cbn [negb].
  unfold bind at 1. unfold perform at 1. rewrite Hid.
  unfold bind at 1. unfold now at 1. cbv beta iota zeta.
  unfold try_catch at 1. unfold bind at 1. unfold Trading.toast at 1.
  cbv beta iota zeta.
  cbn [p_id p_token p_amount p_purchasePrice p_purchaseTime p_tweet
       p_influencer p_status].
  fold (position holding). rewrite Hfam.
  eexists. unfold bind at 1. unfold perform at 1.
  fold (position failed).
  destruct (savePosition (position failed) w2) as [[e' | []] w3].
  - cbn. reflexivity.
  - cbn. reflexivity.
Qed.

(** X15. In a DEX-routed trade that is fully configured, a failure of
    the balance request is not reported as such: the balance reads as
    ['0'], and for a positive amount the trade throws
    ["Insufficient ETH balance: 0 ETH available, ..."] without calling a
    venue. The requests made are the network detection that the
    trader's constructor starts, and the balance request. *)
Theorem balance_failure_reported_as_insufficient
        config request tokenInfo amount position (w : W)
        rpcUrl privateKey walletAddress signer e w1 :
  chainType (network tokenInfo) = ethereum ->
  enabled (hybrid_ethereum config) = true ->
  (if String.eqb (n_id (network tokenInfo)) "ethereum-mainnet"
   then Trading.env "ETHEREUM_MAINNET_RPC_URL"
   else Trading.env "ETHEREUM_TESTNET_RPC_URL") = Some rpcUrl ->
  Trading.env "ETHEREUM_PRIVATE_KEY" = Some privateKey ->
  Wallet_address privateKey = Ok signer ->
  Trading.env "ETHEREUM_WALLET_ADDRESS" = Some walletAddress ->
  getBalance signer (snd (getNetwork w)) = (Throw e, w1) ->
  PrimFloat.ltb (parseFloat "0") amount = true ->
  Trading.executeEthereumNetworkTrade config request tokenInfo amount
                                      position w
  = (Throw (ErrorObject
              ("Insufficient ETH balance: 0 ETH available, need "
               +++ Number_toString amount +++ " ETH")),
     w1, [RpcGetNetwork; RpcGetBalance signer]).
Proof.
  intros Hct Hen Hurl Hkey Hsigner Hwallet Hbal Hlt.
  unfold Trading.executeEthereumNetworkTrade.
  rewrite try_catch_rethrow, Hct, bind_ret, Hen. cbn [negb].
  rewrite bind_ret, Hurl, bind_ret, Hkey, bind_ret.
  pose proof (createUniswapTrader_run rpcUrl privateKey w) as Ecreate.
  rewrite Hsigner in Ecreate.
  rewrite (bind_Ok _ _ _ _ _ _ Ecreate), Hwallet, bind_ret.
  pose proof (getEthBalance_run {| signerAddress := signer |}
                                (snd (getNetwork w))) as Ebal.
  cbn [signerAddress] in Ebal. rewrite Hbal in Ebal. cbn [fst snd] in Ebal.
  rewrite (bind_Ok _ _ _ _ _ _ Ebal), Hlt, bind_throw. reflexivity.
Qed.

End TradePaths.

(** ** Network configuration *)

(** X16. In every environment each configured network is found by its
    id and by its chain type; its id contains ["base"] exactly when it
    is a Base network, as the check of the custodial trade expects; its
    id is ["ethereum-mainnet"], which selects the main network's RPC
    URL, exactly for the Ethereum network of the ['mainnet']
    environment; and the Base network is the primary one. *)
Theorem configured_networks_are_routable (environment : string)
        (n : NetworkInfo) :
  let networks :=
    NetworkConfigManager.getNetworksForEnvironment environment in
  In n networks ->
  NetworkConfigManager.getNetworkById networks (n_id n) = Some n
  /\ NetworkConfigManager.getNetworkByChainType networks (chainType n)
     = Some n
  /\ JS.includes "base" (n_id n)
     = NetworkConfigManager.sameChainType (chainType n) base
  /\ (String.eqb (n_id n) "ethereum-mainnet"
      = String.eqb environment "mainnet"
        && NetworkConfigManager.sameChainType (chainType n) ethereum)
  /\ (forall tokenSymbol,
         NetworkConfigManager.getBestBaseNetworkForToken networks tokenSymbol
         = NetworkConfigManager.getPrimaryNetwork networks
         /\ NetworkConfigManager.getPrimaryNetwork networks <> None).
Proof.
  cbv zeta. unfold NetworkConfigManager.getNetworksForEnvironment.
  destruct (String.eqb environment "mainnet");
    intros [<- | [<- | []]]; repeat split; discriminate.
Qed.

(** X17. The explorer links of the configured networks: only
    ['base-sepolia'] is a key of the explorer table, so a transaction on
    'base-mainnet' or 'ethereum-sepolia' is linked to etherscan.io, like
    one on 'ethereum-mainnet'. *)
Theorem explorer_links_of_configured_networks (environment txHash : string)
        (n : NetworkInfo) :
  In n (NetworkConfigManager.getNetworksForEnvironment environment) ->
  Trading.getBlockExplorerUrl txHash (n_id n)
  = (if String.eqb (n_id n) "base-sepolia"
     then "https://sepolia.basescan.org/tx/"
     else "https://etherscan.io/tx/") +++ txHash.
Proof.
  unfold NetworkConfigManager.getNetworksForEnvironment.
  destruct (String.eqb environment "mainnet");
    intros [<- | [<- | []]]; reflexivity.
Qed.

(** ** The toast store *)

Lemma sliceLast_short {A} (n : nat) (l : list A) :
  (List.length l <= n)%nat -> ToastService.sliceLast n l = l.
Proof.
  intros Hl. unfold ToastService.sliceLast.
  replace (List.length l - n)%nat with 0%nat by lia. reflexivity.
Qed.

Lemma sliceLast_length {A} (n : nat) (l : list A) :
  List.length (ToastService.sliceLast n l) = Nat.min (List.length l) n.
Proof. unfold ToastService.sliceLast. rewrite length_skipn. lia. Qed.

Lemma sliceLast_app {A} (n : nat) (l r : list A) :
  ToastService.sliceLast n (ToastService.sliceLast n l ++ r)
  = ToastService.sliceLast n (l ++ r).
Proof.
  unfold ToastService.sliceLast.
  rewrite !length_app, length_skipn.
  destruct (Nat.le_gt_cases (List.length l) n) as [Hl | Hl].
  - replace (List.length l - n)%nat with 0%nat by lia.
    cbn [skipn]. now rewrite Nat.sub_0_r.
  - set (k := (List.length l - n)%nat).
    replace (List.length l - k + List.length r - n)%nat
      with (List.length r) by lia.
    replace (List.length l + List.length r - n)%nat
      with (List.length r + k)%nat by lia.
    rewrite <- skipn_skipn, (skipn_app k l r).
    replace (k - List.length l)%nat with 0%nat by lia. reflexivity.
Qed.

Lemma call_store c (store : list ToastService.ToastData) :
  snd (ToastService.call c store)
  = ToastService.sliceLast 50 (store ++ [fst (ToastService.call c [])]).
Proof.
  unfold ToastService.call, ToastService.addToast. cbn [fst snd].
  destruct (Nat.ltb_spec 50 (List.length
              (store ++ [fst (ToastService.call c [])]))) as [Hl | Hl];
    unfold ToastService.call, ToastService.addToast in Hl; cbn [fst] in Hl.
  - apply Nat.ltb_lt in Hl. rewrite Hl. reflexivity.
  - rewrite sliceLast_short by exact Hl.
    apply Nat.ltb_ge in Hl. rewrite Hl. reflexivity.
Qed.

Lemma call_appends c (store : list ToastService.ToastData) :
  exists older,
    snd (ToastService.call c store)
    = older ++ [fst (ToastService.call c store)].
Proof.
  rewrite call_store. unfold ToastService.sliceLast.
  rewrite skipn_app, length_app. cbn [List.length].
  replace (List.length store + 1 - 50 - List.length store)%nat
    with 0%nat by lia.
  eexists. reflexivity.
Qed.

(** The store holds the last 50 toasts, oldest first. *)
(** X18. Starting from a store of at most 50 toasts, after any sequence
    of [addToast] calls the store holds the last 50 toasts of the old
    store followed by the new ones, oldest first; it never holds more
    than 50, and the toast of a call is the last one of the store the
    call leaves. *)
Theorem toast_store_keeps_latest_fifty
        (calls : list ToastService.AddCall)
        (toastStore : list ToastService.ToastData) :
  (List.length toastStore <= 50)%nat ->
  ToastService.addAll calls toastStore
  = ToastService.sliceLast 50 (toastStore ++ ToastService.created calls)
  /\ (List.length (ToastService.addAll calls toastStore) <= 50)%nat
  /\ (forall c, exists older,
         snd (ToastService.call c toastStore)
         = older ++ [fst (ToastService.call c toastStore)]).
Proof.
  intros Hlen.
  assert (E : ToastService.addAll calls toastStore
              = ToastService.sliceLast 50
                  (toastStore ++ ToastService.created calls)).
  { revert toastStore Hlen.
    induction calls as [| c calls IH]; intros toastStore Hlen.
    - cbn. rewrite app_nil_r. symmetry. now apply sliceLast_short.
    - cbn [ToastService.addAll fold_left ToastService.created map].
      fold (ToastService.addAll calls (snd (ToastService.call c toastStore))).
      fold (ToastService.created calls).
      rewrite IH, call_store.
      + rewrite sliceLast_app, <- app_assoc. reflexivity.
      + rewrite call_store, sliceLast_length. lia. }
  split; [exact E |]. split.
  - rewrite E, sliceLast_length. lia.
  - intros c. apply call_appends.
Qed.

(** X19. After [addToast], a poll with a non-zero [since] before the
    toast's timestamp returns the toast, last; a poll with [since] at or
    after its timestamp does not return it; and a poll with [since = 0]
    is a poll without [since]: it returns the last 30 seconds. *)
Theorem fresh_toast_is_polled (c : ToastService.AddCall)
        (toastStore : list ToastService.ToastData) (now : Z) :
  let toast := fst (ToastService.call c toastStore) in
  let store := snd (ToastService.call c toastStore) in
  (forall since,
      since <> 0 -> since < ToastService.c_timestamp c ->
      exists older,
        ToastService.getRecentToasts now (Some since) store
        = older ++ [toast])
  /\ (forall since,
         since <> 0 -> ToastService.c_timestamp c <= since ->
         ~ In toast (ToastService.getRecentToasts now (Some since) store))
  /\ ToastService.getRecentToasts now (Some 0) store
     = ToastService.getRecentToasts now None store.
Proof.
  cbv zeta.
  destruct (call_appends c toastStore) as (older & E). rewrite E.
  assert (Hts : ToastService.td_timestamp (fst (ToastService.call c toastStore))
                = ToastService.c_timestamp c) by reflexivity.
  unfold ToastService.getRecentToasts.
  split; [| split].
  - intros since Hne Hlt. cbn [JS.or_bigint].
    destruct (Z.eqb_spec since 0) as [| _]; [contradiction |].
    rewrite filter_app. cbn [filter]. rewrite Hts.
    destruct (Z.gtb_spec (ToastService.c_timestamp c) since); [| lia].
    eexists. reflexivity.
  - intros since Hne Hle Hin. cbn [JS.or_bigint] in Hin.
    destruct (Z.eqb_spec since 0) as [| _]; [contradiction |].
    apply filter_In in Hin. destruct Hin as [_ Hgt].
    rewrite Hts in Hgt. apply Z.gtb_lt in Hgt. lia.
  - reflexivity.
Qed.

(** ** Selling *)

Section SellingFacts.
Context {W : Type} `{Database W} `{Ethers}.

Lemma executeSell_run (position : TradingPosition) (w : W) :
  let price := Trading.getTokenPrice (p_token position) in
  let profit :=
    ((price - p_purchasePrice position) * p_amount position)%float in
  let toast :=
    Selling.TradeSellToast (p_token position)
      (toFixed (p_amount position) 4) (toFixed profit 2)
      (Number_toString price) in
  let update := Selling.soldUpdate position (currentTime w) in
  let id := p_id position in
  Selling.executeSell position w
  = match updatePosition id update w with
    | (Ok _, w1) => (Ok tt, w1, [toast; Selling.UpdatePosition id update])
    | (Throw e, w1) =>
        match updatePosition id Selling.failedUpdate w1 with
        | (Ok _, w2) =>
            (Throw e, w2,
             [toast; Selling.UpdatePosition id update;
              Selling.UpdatePosition id Selling.failedUpdate])
        | (Throw e', w2) =>
            (Throw e', w2,
             [toast; Selling.UpdatePosition id update;
              Selling.UpdatePosition id Selling.failedUpdate])
        end
    end.
Proof.
  cbv zeta. unfold Selling.executeSell, Selling.try_catch, Selling.bind,
    Selling.addTradeSellToast, Selling.now, Selling.perform, Selling.soldUpdate.
  destruct (updatePosition (p_id position) _ w) as [[e | []] w1];
    [| reflexivity].
  fold Selling.failedUpdate.
  destruct (updatePosition (p_id position) Selling.failedUpdate w1)
    as [[e' | []] w2]; reflexivity.
Qed.

(** X20. [executeSell] shows the sale first and then records it: the
    update sets status [sold], the sell time, the mock price and the
    profit [(price - purchasePrice) * amount]. If the store refuses the
    update, [executeSell] asks it to mark the position [failed] and
    throws the first error, or the error of the second update if that
    one fails too; the sale has been shown in either case. *)
Theorem executeSell_records_outcome (position : TradingPosition) (w : W) :
  let price := Trading.getTokenPrice (p_token position) in
  let profit :=
    ((price - p_purchasePrice position) * p_amount position)%float in
  let toast :=
    Selling.TradeSellToast (p_token position)
      (toFixed (p_amount position) 4) (toFixed profit 2)
      (Number_toString price) in
  let update :=
    {| u_sellTime := Some (currentTime w); u_sellPrice := Some price;
       u_profit := Some profit; u_status := Some sold |} in
  let id := p_id position in
  (forall w1,
      updatePosition id update w = (Ok tt, w1) ->
      Selling.executeSell position w
      = (Ok tt, w1, [toast; Selling.UpdatePosition id update]))
  /\ (forall e w1 r w2,
         updatePosition id update w = (Throw e, w1) ->
         updatePosition id Selling.failedUpdate w1 = (r, w2) ->
         Selling.executeSell position w
         = (Throw match r with
                  | Throw e' => e'
                  | Ok _ => e
                  end, w2,
            [toast; Selling.UpdatePosition id update;
             Selling.UpdatePosition id Selling.failedUpdate])).
Proof.
  cbv zeta. rewrite executeSell_run. cbv zeta. unfold Selling.soldUpdate. split.
  - intros w1 ->. reflexivity.
  - intros e w1 r w2 -> ->. now destruct r.
Qed.

Section FrozenClock.
Hypothesis update_keeps_clock :
  forall id u (w : W),
    currentTime (snd (updatePosition id u w)) = currentTime w.

Lemma sell_attempt_run (position : TradingPosition) (w : W) :
  exists w' t,
    Selling.try_catch (Selling.executeSell position)
                      (fun _ => Selling.ret tt) w = (Ok tt, w', t)
    /\ Selling.soldIds t = [p_id position]
    /\ currentTime w' = currentTime w.
Proof.
  unfold Selling.try_catch at 1. rewrite executeSell_run. cbv zeta.
  pose proof (update_keeps_clock (p_id position)
                (Selling.soldUpdate position (currentTime w)) w) as C1.
  destruct (updatePosition (p_id position) _ w) as [[e | []] w1];
    cbn [snd] in C1.
  - pose proof (update_keeps_clock (p_id position) Selling.failedUpdate w1) as C2.
    destruct (updatePosition (p_id position) Selling.failedUpdate w1)
      as [[e' | []] w2]; cbn [snd] in C2;
      (eexists; eexists; split; [reflexivity |]);
      (split; [reflexivity | congruence]).
  - eexists; eexists. split; [reflexivity |]. split; [reflexivity | exact C1].
Qed.

Lemma soldIds_app (t1 t2 : list Selling.SellEvent) :
  Selling.soldIds (t1 ++ t2) = Selling.soldIds t1 ++ Selling.soldIds t2.
Proof.
  induction t1 as [| e t1 IH]; [reflexivity |].
  destruct e as [| id u |]; cbn; rewrite ?IH; try reflexivity.
  destruct (u_status u) as [[| |] |]; cbn; now rewrite ?IH.
Qed.

Lemma sellDuePositions_run (positions : list TradingPosition) :
  forall w : W,
  exists w' t,
    Selling.sellDuePositions positions w = (Ok tt, w', t)
    /\ Selling.soldIds t
       = map p_id
           (filter (fun p => currentTime w - p_purchaseTime p >=? 86400000)
                   positions)
    /\ currentTime w' = currentTime w.
Proof.
  induction positions as [| p rest IH]; intros w.
  - exists w, []. repeat split.
  - cbn [Selling.sellDuePositions filter].
    change (holdDurationHours * 60 * 60 * 1000) with 86400000.
    unfold Selling.bind at 1. unfold Selling.now at 1. cbv beta iota zeta.
    unfold Selling.bind at 1.
    destruct (currentTime w - p_purchaseTime p >=? 86400000).
    + destruct (sell_attempt_run p w) as (w1 & t1 & E1 & S1 & C1).
      rewrite E1.
      destruct (IH w1) as (w2 & t2 & E2 & S2 & C2). rewrite E2.
      exists w2, (t1 ++ t2). split; [reflexivity |].
      rewrite soldIds_app, S1, S2, C1. split; [reflexivity | congruence].
    + unfold Selling.ret at 1.
      destruct (IH w) as (w2 & t2 & E2 & S2 & C2). rewrite E2.
      exists w2, t2. repeat split; assumption.
Qed.

(** X21. [checkPositionsToSell] never throws. If reading the holding
    positions fails it does nothing more. Otherwise, on a clock that the
    store's updates leave unchanged, it asks the store to mark as sold
    exactly the positions bought at least 24 hours (86400000 ms) before,
    each once and in the order read, whether or not the updates of
    earlier positions failed. *)
Theorem scheduler_sells_due_positions (w : W) :
  (forall e w1,
      getHoldingPositions w = (Throw e, w1) ->
      Selling.checkPositionsToSell w
      = (Ok tt, w1, [Selling.GetHoldingPositions]))
  /\ (forall positions w1,
         getHoldingPositions w = (Ok positions, w1) ->
         exists w' t,
           Selling.checkPositionsToSell w
           = (Ok tt, w', Selling.GetHoldingPositions :: t)
           /\ Selling.soldIds t
              = map p_id
                  (filter (fun p =>
                             currentTime w1 - p_purchaseTime p >=? 86400000)
                          positions)).
Proof.
  unfold Selling.checkPositionsToSell, Selling.try_catch, Selling.bind,
    Selling.perform.
  split.
  - intros e w1 ->. reflexivity.
  - intros positions w1 ->.
    destruct (sellDuePositions_run positions w1) as (w' & t & E & S & _).
    destruct positions as [| p rest].
    + exists w1, []. split; reflexivity.
    + rewrite E. exists w', t. split; [reflexivity | exact S].
Qed.

End FrozenClock.

End SellingFacts.

(** * Scenarios on the simulated chain *)

Import Sim.
Local Open Scope float_scope.

Lemma calculateSafeTradeAmount_reserves_gas_witness :
  exists ethNeeded w' t,
    UniswapTrader.calculateSafeTradeAmount
      (address Sim.EIGEN) ether (Some 1000%Z) Sim.liquid
    = (Ok {| tradeAmount := Z.min ethNeeded (ether - 6536000000000000);
             s_fee := 3000; gasReserve := 6536000000000000 |}, w', t)
    /\ (Z.min ethNeeded (ether - 6536000000000000) + 6536000000000000
        <= ether)%Z.
Proof.
  destruct (calculateSafeTradeAmount_reserves_gas
              (address Sim.EIGEN) ether (Some 1000%Z) Sim.liquid
              {| gasLimit := 240000; maxFeePerGas := Some 26400000000%Z;
                 maxPriorityFeePerGas := Some 2400000000%Z;
                 gasPrice := None; type := Some 2%Z |}
              Sim.liquid [RpcGetFeeData; RpcGetBlock])
    as (_ & Hb & _).
  - vm_compute. reflexivity.
  - destruct Hb as (ethNeeded & w2 & t2 & _ & Hrun & Hle);
      [vm_compute; reflexivity | reflexivity |].
    exists ethNeeded, w2, ([RpcGetFeeData; RpcGetBlock] ++ t2)%list.
    split; [exact Hrun | exact Hle].
Defined.

(** Without a target output the amount is checked against the pools:
    with one ether available and a reserve of about 0.0065 ether, on a
    chain where no fee tier quotes, the call throws the no-liquidity
    error of [findBestFeeAndQuote]. *)
Example calculateSafeTradeAmount_may_find_no_liquidity :
  exists gasConfig w1 t1 w' t,
    GasManager.getGasConfig (createGasManager 1) 200000 standard Sim.dry
    = (Ok gasConfig, w1, t1)
    /\ (UniswapTrader.totalReserveOf gasConfig < ether)%Z
    /\ UniswapTrader.calculateSafeTradeAmount
         (address Sim.EIGEN) ether None Sim.dry
       = (Throw (ErrorObject "No liquidity found for WETH -> 0xec53bF9167f50cDEB3Ae105f56099aaaB9061F83 on any fee tier"),
          w', t).
Proof.
  do 5 eexists. split; [| split].
  - vm_compute. reflexivity.
  - vm_compute. reflexivity.
  - vm_compute. reflexivity.
Qed.

(** C2 as stated fails: an invalid address is retried, after a wait of
    1000 ms, and a persistent failure is given up after two attempts
    with one wait of 1000 ms, not after three attempts with waits of
    2000 and 4000 ms. *)
Lemma primary_swap_retries_invalid_address :
  UniswapTrader.swapEthForToken Sim.trader "nope" "0.01" 3 Sim.liquid
  = (Ok (swapFailed "After 2 attempts: Invalid token address: nope"),
     Sim.tick 1000 Sim.liquid, [Sleep 1000%Z])
  /\ sleeps (snd (UniswapTrader.swapEthForToken
                    Sim.trader (address Sim.EIGEN) "0.01" 3 Sim.dry))
     = [1000%Z]
  /\ fst (fst (UniswapTrader.swapEthForToken
                 Sim.trader (address Sim.EIGEN) "0.01" 3 Sim.dry))
     = Ok (swapFailed "After 2 attempts: No liquidity found for WETH -> 0xec53bF9167f50cDEB3Ae105f56099aaaB9061F83 on any fee tier").
Proof.
  repeat split; vm_compute; reflexivity.
Qed.

Lemma findBestFeeAndQuote_first_liquid_tier_witness :
  UniswapTrader.findBestFeeAndQuote (address Sim.EIGEN) 1000 Sim.twoPools
  = (Ok {| q_fee := 3000; q_quote := 2000000; q_amountOutMin := 1900000 |},
     Sim.twoPools,
     [RpcQuote WETH_ADDRESS (address Sim.EIGEN) 3000 1000])
  /\ quoteExactInputSingle WETH_ADDRESS (address Sim.EIGEN) 500 1000 0
                           Sim.twoPools
     = (Ok 3000000%Z, Sim.twoPools).
Proof.
  split; [| reflexivity].
  destruct (findBestFeeAndQuote_first_liquid_tier
              (address Sim.EIGEN) 1000 Sim.twoPools) as (_ & Hfirst & _).
  apply (Hfirst 2000000%Z Sim.twoPools). reflexivity.
Defined.


(** On the dry chain the primary venue fails, and the fallback venue is
    invoked once with the primary's arguments; on the liquid chain the
    primary venue succeeds and the fallback venue is not invoked. *)
Example fallback_invocations_on_dry_and_liquid :
  invocations UniswapV2
    (snd (Trading.executeEthereumNetworkTrade
            TRADING_CONFIG Sim.request Sim.EIGEN 0.1 Sim.position Sim.dry))
  = [(address Sim.EIGEN, "0.1"%string, 3)]
  /\ invocations UniswapV3
       (snd (Trading.executeEthereumNetworkTrade
               TRADING_CONFIG Sim.request Sim.EIGEN 0.1 Sim.position Sim.dry))
     = [(address Sim.EIGEN, "0.1"%string, 3)]
  /\ invocations UniswapV2
       (snd (Trading.executeEthereumNetworkTrade
               TRADING_CONFIG Sim.request Sim.EIGEN 0.1 Sim.position
               Sim.liquid))
     = [].
Proof.
  repeat split; vm_compute; reflexivity.
Qed.

Lemma venue_exhaustion_reports_fallback_error_witness :
  let run := Trading.executeEthereumNetworkTrade
               TRADING_CONFIG Sim.request Sim.EIGEN 0.1 Sim.position
               Sim.dry in
  exists privateKey signer res1 w1 t1 res2 w2 t2,
    Trading.env "ETHEREUM_PRIVATE_KEY" = Some privateKey
    /\ Wallet_address privateKey = Ok signer
    /\ UniswapTrader.swapEthForToken {| signerAddress := signer |}
         (address Sim.EIGEN) (Number_toString 0.1)
         (maxSlippage TRADING_CONFIG)
         (snd (getBalance signer (snd (getNetwork Sim.dry))))
       = (Ok res1, w1, t1)
    /\ success res1 = false
    /\ SimpleSwapper.swapEthForToken {| signerAddress := signer |}
         (address Sim.EIGEN) (Number_toString 0.1)
         (maxSlippage TRADING_CONFIG) (snd (getNetwork w1))
       = (Ok res2, w2, t2)
    /\ (success res2 = false ->
        fst (fst run)
        = Throw (ErrorObject
                   ("DEX swap failed: " +++ Trading.errorText res2))
        /\ snd (fst run) = w2).
Proof.
  cbv zeta.
  apply (venue_exhaustion_reports_fallback_error
           TRADING_CONFIG Sim.request Sim.EIGEN 0.1 Sim.position Sim.dry
           (fst (fst (Trading.executeEthereumNetworkTrade
                        TRADING_CONFIG Sim.request Sim.EIGEN 0.1
                        Sim.position Sim.dry)))
           (snd (fst (Trading.executeEthereumNetworkTrade
                        TRADING_CONFIG Sim.request Sim.EIGEN 0.1
                        Sim.position Sim.dry)))
           (snd (Trading.executeEthereumNetworkTrade
                   TRADING_CONFIG Sim.request Sim.EIGEN 0.1
                   Sim.position Sim.dry))).
  - now destruct (Trading.executeEthereumNetworkTrade
                    TRADING_CONFIG Sim.request Sim.EIGEN 0.1 Sim.position
                    Sim.dry) as [[? ?] ?].
  - vm_compute. discriminate.
Defined.

(** C6 as stated fails: on the dry chain both venues fail, the primary
    with the no-liquidity error and the fallback with the gas-estimation
    error, and the error the orchestrator throws (from
    [executeEthereumNetworkTrade] and on from [executeTrade]) contains
    the fallback's message but not the primary's. *)
Lemma propagated_error_omits_primary_message :
  exists primaryError w1 t1 thrown w' t,
    UniswapTrader.swapEthForToken Sim.trader (address Sim.EIGEN) "0.1" 3
                                  Sim.dry
    = (Ok (swapFailed primaryError), w1, t1)
    /\ primaryError
       = "After 2 attempts: No liquidity found for WETH -> 0xec53bF9167f50cDEB3Ae105f56099aaaB9061F83 on any fee tier"%string
    /\ Trading.executeEthereumNetworkTrade
         TRADING_CONFIG Sim.request Sim.EIGEN 0.1 Sim.position Sim.dry
       = (Throw (ErrorObject thrown), w', t)
    /\ thrown
       = "DEX swap failed: After 3 attempts: Gas estimation failed - this usually means the swap would fail. Possible reasons: insufficient liquidity, token transfer restrictions, or amount too small. Original error: Gas estimation failed after 2 attempts: execution reverted"%string
    /\ fst (fst (Trading.executeTrade TRADING_CONFIG Sim.request Sim.dry))
       = Throw (ErrorObject thrown)
    /\ JS.includes primaryError thrown = false
    /\ JS.includes "No liquidity found" thrown = false.
Proof.
  do 6 eexists.
  split; [vm_compute; reflexivity |].
  split; [reflexivity |].
  split; [vm_compute; reflexivity |].
  split; [reflexivity |].
  split; [vm_compute; reflexivity |].
  split; vm_compute; reflexivity.
Qed.

Lemma fallback_swap_below_minimum_witness :
  SimpleSwapper.swapEthForToken Sim.trader (address Sim.EIGEN) "0.001" 3
                                Sim.liquid
  = (Ok (swapFailed "After 3 attempts: Trade amount too small: 0.001 ETH (minimum: 0.0015 ETH for reliable DEX swaps)"),
     Sim.tick 4000 (Sim.tick 2000 Sim.liquid),
     [Sleep 2000%Z; Sleep 4000%Z]).
Proof.
  destruct (fallback_swap_below_minimum
              Sim.trader (address Sim.EIGEN) "0.001" 3 1000000000000000%Z
              Sim.liquid) as (E & _); [vm_compute; reflexivity .. |].
  exact E.
Defined.

(** C7 as stated fails: a fallback swap of 0.001 ether, below the
    minimum, is not rejected at once; the executor waits 2000 ms and
    4000 ms through its three attempts before it reports the failure. *)
Lemma fallback_swap_below_minimum_still_waits :
  parseEther "0.001" = Ok 1000000000000000%Z
  /\ (1000000000000000 < SimpleSwapper.minTradeAmount)%Z
  /\ sleeps (snd (SimpleSwapper.swapEthForToken
                    Sim.trader (address Sim.EIGEN) "0.001" 3 Sim.liquid))
     = [2000%Z; 4000%Z]
  /\ sleeps (snd (SimpleSwapper.swapEthForToken
                    Sim.trader (address Sim.EIGEN) "0.001" 3 Sim.liquid))
     <> [].
Proof.
  repeat split; try (vm_compute; reflexivity).
  vm_compute. discriminate.
Qed.

(** Scenarios A and B of the specification: with a balance of 1.0 and a
    network minimum of 0.001 the committed amount is 0.1; with a balance
    of 0.0005 the trade is skipped. *)
Lemma trade_sizing_rule_witness :
  Trading.sizeTrade TRADING_CONFIG ethereum 1 = Committed 0.1
  /\ Trading.sizeTrade TRADING_CONFIG base 1 = Committed 0.1
  /\ Trading.sizeTrade TRADING_CONFIG ethereum 0.0005 = Skipped.
Proof.
  destruct (trade_sizing_rule (W := Sim.World) TRADING_CONFIG ethereum 1)
    as (_ & _ & _ & HA & _).
  destruct (trade_sizing_rule (W := Sim.World) TRADING_CONFIG base 1)
    as (_ & HA' & _).
  destruct (trade_sizing_rule (W := Sim.World) TRADING_CONFIG ethereum 0.0005)
    as (HB & _).
  split; [| split].
  - rewrite HA; reflexivity.
  - rewrite HA'; reflexivity.
  - apply HB. reflexivity.
Defined.

(** C8 as stated fails on Ethereum for a balance between the network
    minimum 0.001 and the DEX minimum 0.0015. With a balance of 0.0012
    the claimed amount is 0.0015, but no amount is committed: the trade
    is skipped, and the orchestrator only marks the tweet as
    processed. *)
Lemma trade_sizing_skips_below_dex_minimum :
  PrimFloat.ltb 0.0012 (minTradeAmountETH (hybrid TRADING_CONFIG ethereum))
  = false
  /\ JS.Math_max
       (JS.Math_max (0.0012 * 0.10)
                    (minTradeAmountETH (hybrid TRADING_CONFIG ethereum)))
       0.0015
     = 0.0015
  /\ Trading.sizeTrade TRADING_CONFIG ethereum 0.0012 = Skipped
  /\ Trading.sizeTrade TRADING_CONFIG ethereum 0.0012 <> Committed 0.0015
  /\ Trading.executeTrade TRADING_CONFIG Sim.request Sim.thin
     = (Ok tt, Sim.thin,
        [ResolveToken "EIGEN"; PrepareWallet "ethereum-mainnet";
         WalletGetBalance; WalletGetAddress; MarkTweetAsProcessed "42"]).
Proof.
  split; [reflexivity |]. split; [reflexivity |].
  split; [reflexivity |]. split; [discriminate |].
  vm_compute. reflexivity.
Qed.

(** Scenario B on the whole orchestrator: the wallet holds 0.0005 ether;
    the trade is skipped, the tweet is marked as processed, and nothing
    else happens after the balance is read. *)
Example executeTrade_skips_poor_wallet :
  Trading.executeTrade TRADING_CONFIG Sim.request Sim.poor
  = (Ok tt, Sim.poor,
     [ResolveToken "EIGEN"; PrepareWallet "ethereum-mainnet";
      WalletGetBalance; WalletGetAddress; MarkTweetAsProcessed "42"]).
Proof. vm_compute. reflexivity. Qed.

(** Scenario D: the primary venue's three tiers are dry but the V2 pair
    trades; the orchestrator reports the fallback's transaction. *)
Example executeTrade_falls_back :
  let w := {| Sim.clock := 1700000000000; Sim.balance := Some ether;
              Sim.pools := []; Sim.gas := Some 180000%Z;
              Sim.submits := true; Sim.receiptStatus := Some 1%Z;
              Sim.walletBalance := ether |} in
  fst (fst (Trading.executeTrade TRADING_CONFIG Sim.request w)) = Ok tt
  /\ invocations UniswapV2
       (snd (Trading.executeTrade TRADING_CONFIG Sim.request w))
     = [(address Sim.EIGEN, "0.1"%string, 3)].
Proof. split; vm_compute; reflexivity. Qed.

(** On the liquid chain the first attempt of the primary venue succeeds
    and the call never waits. *)
Lemma primary_swap_two_attempts_fixed_delay_witness :
  sleeps (snd (UniswapTrader.swapEthForToken
                 Sim.trader (address Sim.EIGEN) "0.01" 3 Sim.liquid)) = []
  \/ sleeps (snd (UniswapTrader.swapEthForToken
                    Sim.trader (address Sim.EIGEN) "0.01" 3 Sim.liquid))
     = [1000%Z].
Proof.
  destruct (primary_swap_two_attempts_fixed_delay
              Sim.trader (address Sim.EIGEN) "0.01" 3 Sim.liquid)
    as (_ & _ & _ & _ & Hsleeps & _).
  exact Hsleeps.
Defined.

Example primary_swap_succeeds_at_once :
  fst (fst (UniswapTrader.swapEthForToken
              Sim.trader (address Sim.EIGEN) "0.01" 3 Sim.liquid))
  = Ok (swapSucceeded "0xfeed" "20000000000000000000")
  /\ sleeps (snd (UniswapTrader.swapEthForToken
                    Sim.trader (address Sim.EIGEN) "0.01" 3 Sim.liquid))
     = [].
Proof. split; vm_compute; reflexivity. Qed.

(** ** Further scenarios *)

(** Behind a node that answers a second late, the first estimate is
    refused, the call waits 1000 ms, and the second estimate is
    returned; no third request is made. *)
Lemma estimateGasWithRetry_backoff_witness :
  @GasManager.estimateGasWithRetry _ (SimAgent.lagging 1700000001000)
    SimAgent.v2call ether 3 Sim.liquid
  = (Ok 180000%Z, Sim.tick 1000 Sim.liquid,
     [RpcEstimateGas SimAgent.v2call ether; Sleep 1000%Z;
      RpcEstimateGas SimAgent.v2call ether]).
Proof.
  destruct (@GasManager.estimateGasWithRetry _ (SimAgent.lagging 1700000001000)
              SimAgent.v2call ether 3 Sim.liquid) as [[r w'] t] eqn:E.
  destruct (estimateGasWithRetry_backoff _ _ _ _ _ _ _ E) as [_ Hpos].
  destruct (Hpos ltac:(lia)) as (k & wk & Hk & Hwk & Ht & _ & Hres).
  destruct k as [| [| k]].
  - vm_compute in Hwk. injection Hwk as Hwk. subst wk.
    destruct r as [m | g].
    + destruct Hres as [Hk2 _]. discriminate Hk2.
    + vm_compute in Hres. discriminate Hres.
  - vm_compute in Hwk. injection Hwk as Hwk. subst wk.
    destruct r as [m | g].
    + destruct Hres as [Hk2 _]. discriminate Hk2.
    + vm_compute in Hres. injection Hres as Hg Hw. subst g w' t.
      reflexivity.
  - vm_compute in Hwk. discriminate Hwk.
Defined.

Lemma priority_fee_within_max_fee_witness :
  returns (W := Sim.World)
    (GasManager.getGasConfig (createGasManager 1) 200000 standard)
    (fun cfg =>
       exists f p,
         maxFeePerGas cfg = Some f /\ maxPriorityFeePerGas cfg = Some p
         /\ (0 < p <= f)%Z).
Proof.
  apply (priority_fee_within_max_fee 1 200000 standard).
  intros w b f w1 [= <- _] [= <-]. vm_compute. discriminate.
Defined.

Lemma calculateEthForTokenAmount_accuracy_witness :
  exists v t,
    UniswapTrader.calculateEthForTokenAmount
      (address Sim.EIGEN) (4 * ether) Sim.liquid
    = (Ok (v, 3000%Z), Sim.liquid, t)
    /\ (v = ether / 10 \/ 4 * ether <= v * 2000)%Z
    /\ (forall x, ether / 1000 <= x -> x + 10 ^ 11 <= v ->
                  x * 2000 < 4 * ether)%Z.
Proof.
  destruct (calculateEthForTokenAmount_accuracy
              (address Sim.EIGEN) (4 * ether)%Z (fun amt => (amt * 2000)%Z)
              Sim.liquid) as (v & t & E & Hv & _ & Hx).
  - intros amt. reflexivity.
  - intros a b Hab. lia.
  - exists v, t. auto.
Defined.

Lemma testing_mode_is_offline_witness :
  let run :=
    @Trading.executeTrade _ _ _ SimAgent.testing TRADING_CONFIG Sim.request in
  emits (W := Sim.World) (test_trade_event Sim.request) run
  /\ fst (fst (run Sim.dry)) = Ok tt
  /\ filter is_network_call (snd (run Sim.dry)) = []
  /\ List.length (snd (run Sim.dry)) = 3%nat.
Proof.
  destruct (@testing_mode_is_offline _ _ _ SimAgent.testing TRADING_CONFIG
              Sim.request eq_refl) as [He Hrun].
  split; [exact He |]. rewrite Hrun. repeat split.
Defined.

Lemma unresolved_token_is_skipped_witness :
  @Trading.executeTrade _ _ _ SimAgent.unlisted TRADING_CONFIG Sim.request
                        Sim.liquid
  = (Ok tt, Sim.liquid, [ResolveToken "EIGEN"; MarkTweetAsProcessed "42"]).
Proof.
  destruct (@unresolved_token_is_skipped _ _ _ SimAgent.unlisted
              TRADING_CONFIG Sim.request Sim.liquid) as [_ Hskip].
  - vm_compute. discriminate.
  - apply (Hskip {| found := false; token := None; reason := "not listed" |}
                 Sim.liquid eq_refl).
    now left.
Defined.



Lemma failed_trade_is_recorded_witness :
  exists info,
    Trading.executeTradeWithBalance TRADING_CONFIG Sim.request Sim.EIGEN 1
                                    Sim.dry
    = (Throw (ErrorObject "DEX swap failed: After 3 attempts: Gas estimation failed - this usually means the swap would fail. Possible reasons: insufficient liquidity, token transfer restrictions, or amount too small. Original error: Gas estimation failed after 2 attempts: execution reverted"),
       Sim.tick 10000 Sim.dry,
       GenerateId :: Toast info
       :: snd (Trading.executeEthereumNetworkTrade
                 TRADING_CONFIG Sim.request Sim.EIGEN 0.1 Sim.position
                 Sim.dry)
       ++ [SavePosition
             {| p_id := "position-1"; p_token := "EIGEN"; p_amount := 0.1;
                p_purchasePrice := 3.85; p_purchaseTime := 1700000000000;
                p_tweet := "EIGEN to the moon"; p_influencer := "blknoiz06";
                p_status := failed |};
           Toast (addErrorToast "Trade Failed"
                    "Failed to buy EIGEN: DEX swap failed: After 3 attempts: Gas estimation failed - this usually means the swap would fail. Possible reasons: insufficient liquidity, token transfer restrictions, or amount too small. Original error: Gas estimation failed after 2 attempts: execution reverted"
                    {| t_token := Some "EIGEN"%string; t_amount := None;
                       t_influencer := Some "blknoiz06"%string;
                       t_price := None; t_txHash := None;
                       t_explorerUrl := None |})]).
Proof.
  destruct (failed_trade_is_recorded TRADING_CONFIG Sim.request Sim.EIGEN 1
           0.1 Sim.dry "position-1" Sim.dry
           (ErrorObject "DEX swap failed: After 3 attempts: Gas estimation failed - this usually means the swap would fail. Possible reasons: insufficient liquidity, token transfer restrictions, or amount too small. Original error: Gas estimation failed after 2 attempts: execution reverted")
           (Sim.tick 10000 Sim.dry) (snd (Trading.executeEthereumNetworkTrade
                 TRADING_CONFIG Sim.request Sim.EIGEN 0.1 Sim.position
                 Sim.dry))) as (info & E).
  - reflexivity.
  - vm_compute. reflexivity.
  - reflexivity.
  - vm_compute. reflexivity.
  - exists info. rewrite E. reflexivity.
Defined.

(** A custodial trade that is rejected with a value other than an
    [Error]: the position is saved as failed, the toast says
    ["Unknown error"], and the value is thrown on. *)
Example failed_trade_of_unknown_error :
  exists info,
    @Trading.executeTradeWithBalance _ _ _ SimAgent.rejecting
      TRADING_CONFIG Sim.request SimAgent.onBase 1 Sim.liquid
    = (Throw (OtherValue "rate limited"), Sim.liquid,
       [GenerateId; Toast info; CreateTrade 0.1 "eth" "eigen";
        SavePosition
          {| p_id := "position-1"; p_token := "EIGEN"; p_amount := 0.1;
             p_purchasePrice := 3.85; p_purchaseTime := 1700000000000;
             p_tweet := "EIGEN to the moon"; p_influencer := "blknoiz06";
             p_status := failed |};
        Toast (addErrorToast "Trade Failed"
                 "Failed to buy EIGEN: Unknown error"
                 {| t_token := Some "EIGEN"%string; t_amount := None;
                    t_influencer := Some "blknoiz06"%string;
                    t_price := None; t_txHash := None;
                    t_explorerUrl := None |})]).
Proof. eexists. vm_compute. reflexivity. Qed.

Lemma balance_failure_reported_as_insufficient_witness :
  let offline :=
    {| clock := 1700000000000; balance := None; pools := [(3000, 2000)%Z];
       gas := Some 180000%Z; submits := true; receiptStatus := Some 1%Z;
       walletBalance := ether |} in
  @Trading.executeEthereumNetworkTrade _ _ SimAgent.ethers _
    TRADING_CONFIG Sim.request Sim.EIGEN 0.1 Sim.position offline
  = (Throw (ErrorObject
              "Insufficient ETH balance: 0 ETH available, need 0.1 ETH"),
     offline,
     [RpcGetNetwork;
      RpcGetBalance "0x1111111111111111111111111111111111111111"]).
Proof.
  cbv zeta.
  apply (@balance_failure_reported_as_insufficient _ _ SimAgent.ethers _
           TRADING_CONFIG Sim.request Sim.EIGEN 0.1 Sim.position _
           "https://rpc" "0xkey" "0x1111111111111111111111111111111111111111"
           "0x1111111111111111111111111111111111111111"
           (ErrorObject "could not detect network"));
    reflexivity.
Defined.

Lemma configured_networks_are_routable_witness :
  NetworkConfigManager.getNetworkByChainType
    (NetworkConfigManager.getNetworksForEnvironment "mainnet") ethereum
  = Some (network Sim.EIGEN)
  /\ JS.includes "base" (n_id (network Sim.EIGEN)) = false.
Proof.
  destruct (configured_networks_are_routable "mainnet" (network Sim.EIGEN))
    as (_ & Hc & Hb & _).
  - right. left. reflexivity.
  - split; [exact Hc | exact Hb].
Defined.

Lemma explorer_links_of_configured_networks_witness :
  Trading.getBlockExplorerUrl "0xfeed" "base-mainnet"
  = "https://etherscan.io/tx/0xfeed".
Proof.
  apply (explorer_links_of_configured_networks "mainnet" "0xfeed"
           {| n_id := "base-mainnet"; n_name := "Base Mainnet";
              chainType := base |}).
  left. reflexivity.
Defined.

Lemma toast_store_keeps_latest_fifty_witness :
  let c t :=
    {| ToastService.c_idTime := t; ToastService.c_timestamp := t;
       ToastService.c_random := "k3j9x0q2a";
       ToastService.c_input :=
         {| ToastService.ti_type := ToastService.Info;
            ToastService.ti_title := "Executing Trade";
            ToastService.ti_message := "Buying EIGEN";
            ToastService.ti_duration := None;
            ToastService.ti_data := None |} |} in
  map ToastService.td_timestamp
      (ToastService.addAll (map c [1; 2; 3]%Z) (ToastService.clearAllToasts []))
  = [1; 2; 3]%Z.
Proof.
  cbv zeta.
  destruct (toast_store_keeps_latest_fifty
              (map (fun t =>
                      {| ToastService.c_idTime := t;
                         ToastService.c_timestamp := t;
                         ToastService.c_random := "k3j9x0q2a";
                         ToastService.c_input :=
                           {| ToastService.ti_type := ToastService.Info;
                              ToastService.ti_title := "Executing Trade";
                              ToastService.ti_message := "Buying EIGEN";
                              ToastService.ti_duration := None;
                              ToastService.ti_data := None |} |})
                   [1; 2; 3]%Z)
              (ToastService.clearAllToasts [])) as (E & _).
  - cbn. lia.
  - rewrite E. reflexivity.
Defined.

Lemma scheduler_sells_due_positions_witness :
  exists w' t,
    @Selling.checkPositionsToSell _ SimAgent.database Sim.ethers
                                  SimAgent.store
    = (Ok tt, w', Selling.GetHoldingPositions :: t)
    /\ Selling.soldIds t = ["position-1"%string]
    /\ map p_status (SimAgent.rows w') = [sold; holding].
Proof.
  destruct (@scheduler_sells_due_positions _ SimAgent.database Sim.ethers)
    with (w := SimAgent.store) as [_ Hsell].
  - intros id u w. cbn. now destruct (SimAgent.readOnly w).
  - destruct (Hsell _ _ eq_refl) as (w' & t & E & Hs).
    exists w', t. split; [exact E |]. split; [rewrite Hs; reflexivity |].
    revert E. vm_compute. now intros [= <- _].
Defined.
